(** * The born-digital accessioning tool: a shallow embedding

    The development follows [dass_born_digital_accessioning_tool.py].
    Python values that reach the remote API are JSON values; the remote
    API, the log, the output spreadsheets and the backup directory are an
    explicit state threaded through a small state-and-exception monad. *)

From Stdlib Require Import ZArith Ascii String List Bool Lia.
From stdpp Require Import base option list gmap strings.

Local Open Scope Z_scope.

(** ** Python [str] methods

    A text is held as its UTF-8 bytes, the form in which the tool reads
    it from a spreadsheet.  Searching for an ASCII text, cutting at one
    and replacing one are on the bytes what they are on the characters;
    counting is not, and [len] counts the characters.  The two slices of
    the code, [uri[1:]] and [uri[14:]], are taken with [drop]: they cut
    within the ASCII beginning of a URI. *)

Module PyStr.

(** A byte [10xxxxxx], which continues a character. *)
Definition continuation (c : ascii) : bool :=
  Nat.leb 128 (nat_of_ascii c) && Nat.ltb (nat_of_ascii c) 192.

(** [len(s)]: the bytes that begin a character. *)
Fixpoint len (s : string) : nat :=
  match s with
  | EmptyString => O
  | String c s' => (if continuation c then 0 else 1) + len s'
  end.

Fixpoint drop (n : nat) (s : string) : string :=
  match n, s with
  | O, _ => s
  | S _, EmptyString => EmptyString
  | S k, String _ s' => drop k s'
  end.

(** [s.partition(sep)] and [sep in s] look for the first occurrence
    of [sep]: the text before it and the text after it. *)
Fixpoint find_first (sep s : string) : option (string * string) :=
  if String.prefix sep s then Some (EmptyString, drop (String.length sep) s)
  else match s with
       | EmptyString => None
       | String c s' =>
           match find_first sep s' with
           | Some (b, a) => Some (String c b, a)
           | None => None
           end
       end.

(** [s.rpartition(sep)] looks for the last occurrence. *)
Fixpoint find_last (sep s : string) : option (string * string) :=
  match s with
  | EmptyString => if String.prefix sep s then Some (EmptyString, EmptyString) else None
  | String c s' =>
      match find_last sep s' with
      | Some (b, a) => Some (String c b, a)
      | None =>
          if String.prefix sep s then Some (EmptyString, drop (String.length sep) s)
          else None
      end
  end.

(** [sub in s] *)
Definition contains (sub s : string) : bool :=
  match find_first sub s with Some _ => true | None => false end.

(** [s.partition(sep)]: [(head, sep, tail)], or [(s, '', '')]. *)
Definition partition (sep s : string) : string * string * string :=
  match find_first sep s with
  | Some (b, a) => (b, sep, a)
  | None => (s, EmptyString, EmptyString)
  end.

(** [s.rpartition(sep)]: [(head, sep, tail)], or [('', '', s)]. *)
Definition rpartition (sep s : string) : string * string * string :=
  match find_last sep s with
  | Some (b, a) => (b, sep, a)
  | None => (EmptyString, EmptyString, s)
  end.

(** [s.split(sep)] for a non-empty [sep]: the first segment and the
    list of the following ones.  [skip] counts the characters of an
    occurrence of [sep] still to be passed over. *)
Fixpoint split_aux (sep : string) (skip : nat) (s : string) : string * list string :=
  match s with
  | EmptyString => (EmptyString, [])
  | String c s' =>
      match skip with
      | S k => split_aux sep k s'
      | O =>
          if String.prefix sep s
          then (EmptyString,
                let '(h, t) := split_aux sep (Nat.pred (String.length sep)) s' in h :: t)
          else let '(h, t) := split_aux sep O s' in (String c h, t)
      end
  end.

Definition split (sep s : string) : list string :=
  let '(h, t) := split_aux sep O s in h :: t.

(** [l[0]] and [l[-1]] of a list that [split] returned. *)
Definition first_item (l : list string) : string := List.hd EmptyString l.
Definition last_item (l : list string) : string := List.last l EmptyString.

(** [s.replace(old, new)] for a non-empty [old]. *)
Fixpoint replace_aux (old new : string) (skip : nat) (s : string) : string :=
  match s with
  | EmptyString => EmptyString
  | String c s' =>
      match skip with
      | S k => replace_aux old new k s'
      | O =>
          if String.prefix old s
          then new +:+ replace_aux old new (Nat.pred (String.length old)) s'
          else String c (replace_aux old new O s')
      end
  end.

Definition replace (old new s : string) : string := replace_aux old new O s.

(** [s.lower()] *)
Definition lower_char (c : ascii) : ascii :=
  let n := nat_of_ascii c in
  if (Nat.leb 65 n && Nat.leb n 90)%bool then ascii_of_nat (n + 32) else c.

Fixpoint lower (s : string) : string :=
  match s with
  | EmptyString => EmptyString
  | String c s' => String (lower_char c) (lower s')
  end.

(** [s.endswith(suffix)] *)
Fixpoint endswith (suffix s : string) : bool :=
  String.eqb suffix s
  || match s with
     | EmptyString => false
     | String _ s' => endswith suffix s'
     end.

End PyStr.

(** ** JSON values

    [json.loads] of a response body, and every payload the tool posts. *)

#[warnings="-register-all"]
Inductive json : Type :=
| JNull
| JBool (b : bool)
| JNum (n : Z)
| JStr (s : string)
| JArr (items : list json)
| JObj (fields : list (string * json)).

Module PyDict.

(** [d.get(k)]: the value, or [None] when the key is absent. *)
Fixpoint lookup (k : string) (d : list (string * json)) : option json :=
  match d with
  | [] => None
  | (k', v) :: d' => if String.eqb k k' then Some v else lookup k d'
  end.

(** [d[k] = v]: overwrite in place, or add the key at the end. *)
Fixpoint set (k : string) (v : json) (d : list (string * json)) : list (string * json) :=
  match d with
  | [] => [(k, v)]
  | (k', v') :: d' => if String.eqb k k' then (k', v) :: d' else (k', v') :: set k v d'
  end.

End PyDict.

(** ** Exceptions *)

Inductive exn : Type :=
| FileNameError (filename : string)
| LoginError (status_code : Z) (url username : string)
| DataValidationError (value : json) (correct_value : string)
| RecordNotFoundError (value : json)
| ArchivesSpaceError (uri : string) (status_code : Z) (aspace_message : json)
| RequestException
| ValueError
| KeyError
| TypeError
| AttributeError
| IndexError
| UnboundLocalError (name : string)
| NameError (name : string).

Inductive outcome (A : Type) : Type :=
| Ok (a : A)
| Raise (e : exn).
Arguments Ok {A} a.
Arguments Raise {A} e.

Definition outcome_map {A B} (f : A -> B) (o : outcome A) : outcome B :=
  match o with Ok a => Ok (f a) | Raise e => Raise e end.

(** ** [datetime.strptime] and [strftime]

    The four formats the tool parses with, read as CPython's [_strptime]
    reads them: [%m] is [1[0-2]|0[1-9]|[1-9]], [%d] is
    [3[01]|[12]\d|0[1-9]|[1-9]| [1-9]], [%Y] is four digits, [%y] two;
    other characters stand for themselves; the alternatives are tried in
    order and the whole text must be consumed.  The fields must then name
    a day of the proleptic Gregorian calendar in the years 1 to 9999. *)

Module PyDate.

Inductive directive := Dir_m | Dir_d | Dir_Y | Dir_y | Lit (c : ascii).

Record fields := { f_year : Z; f_month : Z; f_day : Z }.

Definition digit (c : ascii) : option Z :=
  let n := nat_of_ascii c in
  if (Nat.leb 48 n && Nat.leb n 57)%bool then Some (Z.of_nat n - 48) else None.

(** the value of a leading run of exactly [n] digits, and the rest *)
Fixpoint digits (n : nat) (acc : Z) (s : string) : option (Z * string) :=
  match n with
  | O => Some (acc, s)
  | S k =>
      match s with
      | String c s' =>
          match digit c with
          | Some d => digits k (10 * acc + d) s'
          | None => None
          end
      | EmptyString => None
      end
  end.

Definition or_else {A} (x : option A) (y : option A) : option A :=
  match x with Some _ => x | None => y end.

Fixpoint strptime_match (fmt : list directive) (s : string) (acc : fields)
  : option fields :=
  match fmt with
  | [] => match s with EmptyString => Some acc | _ => None end
  | Lit c :: fmt' =>
      match s with
      | String c' s' => if Ascii.eqb c c' then strptime_match fmt' s' acc else None
      | EmptyString => None
      end
  | Dir_m :: fmt' =>
      let set v := {| f_year := f_year acc; f_month := v; f_day := f_day acc |} in
      or_else
        match digits 2 0 s with
        | Some (v, s') => if (1 <=? v) && (v <=? 12) then strptime_match fmt' s' (set v) else None
        | None => None
        end
        match digits 1 0 s with
        | Some (v, s') => if 1 <=? v then strptime_match fmt' s' (set v) else None
        | None => None
        end
  | Dir_d :: fmt' =>
      let set v := {| f_year := f_year acc; f_month := f_month acc; f_day := v |} in
      or_else
        match digits 2 0 s with
        | Some (v, s') => if (1 <=? v) && (v <=? 31) then strptime_match fmt' s' (set v) else None
        | None => None
        end
        (or_else
           match digits 1 0 s with
           | Some (v, s') => if 1 <=? v then strptime_match fmt' s' (set v) else None
           | None => None
           end
           match s with
           | String " "%char s1 =>
               match digits 1 0 s1 with
               | Some (v, s') => if 1 <=? v then strptime_match fmt' s' (set v) else None
               | None => None
               end
           | _ => None
           end)
  | Dir_Y :: fmt' =>
      match digits 4 0 s with
      | Some (v, s') =>
          strptime_match fmt' s' {| f_year := v; f_month := f_month acc; f_day := f_day acc |}
      | None => None
      end
  | Dir_y :: fmt' =>
      match digits 2 0 s with
      | Some (v, s') =>
          let year := if v <=? 68 then 2000 + v else 1900 + v in
          strptime_match fmt' s' {| f_year := year; f_month := f_month acc; f_day := f_day acc |}
      | None => None
      end
  end.

Definition is_leap (y : Z) : bool :=
  (y mod 4 =? 0) && (negb (y mod 100 =? 0) || (y mod 400 =? 0)).

Definition days_in_month (y m : Z) : Z :=
  if m =? 2 then (if is_leap y then 29 else 28)
  else if (m =? 4) || (m =? 6) || (m =? 9) || (m =? 11) then 30
  else 31.

Definition valid_date (d : fields) : bool :=
  (1 <=? f_year d) && (f_year d <=? 9999)
  && (1 <=? f_month d) && (f_month d <=? 12)
  && (1 <=? f_day d) && (f_day d <=? days_in_month (f_year d) (f_month d)).

(** [datetime.strptime(s, fmt)]; a text that does not match, and a
    day the calendar does not have, are both [ValueError]. *)
Definition strptime (s : string) (fmt : list directive) : outcome fields :=
  match strptime_match fmt s {| f_year := 1900; f_month := 1; f_day := 1 |} with
  | Some d => if valid_date d then Ok d else Raise ValueError
  | None => Raise ValueError
  end.

Definition digit_char (d : Z) : ascii := ascii_of_nat (48 + Z.to_nat (d mod 10)).

Definition pad2 (n : Z) : string :=
  String (digit_char (n / 10)) (String (digit_char n) EmptyString).

Definition pad4 (n : Z) : string :=
  String (digit_char (n / 1000)) (String (digit_char (n / 100)) (pad2 n)).

(** [%Y] of [strftime]: the year as the C library prints it, a decimal
    number that has four digits from the year 1000 on and fewer, without
    leading zeros, before. *)
Definition year_text (y : Z) : string :=
  if y <? 10 then String (digit_char y) EmptyString
  else if y <? 100 then pad2 y
  else if y <? 1000 then String (digit_char (y / 100)) (pad2 y)
  else pad4 y.

(** [d.strftime('%Y-%m-%d')] *)
Definition strftime_iso (d : fields) : string :=
  year_text (f_year d) +:+ "-" +:+ pad2 (f_month d) +:+ "-" +:+ pad2 (f_day d).

(** ['%m/%d/%Y'], ['%m/%d/%y'], ['%Y/%m/%d'], ['%m-%d-%y'] *)
Definition fmt_mdY : list directive := [Dir_m; Lit "/"%char; Dir_d; Lit "/"%char; Dir_Y].
Definition fmt_mdy : list directive := [Dir_m; Lit "/"%char; Dir_d; Lit "/"%char; Dir_y].
Definition fmt_Ymd : list directive := [Dir_Y; Lit "/"%char; Dir_m; Lit "/"%char; Dir_d].
Definition fmt_mdy_hyphen : list directive := [Dir_m; Lit "-"%char; Dir_d; Lit "-"%char; Dir_y].

End PyDate.

(** ** Dates of events: [check_dates]

    The result is [Ok (Some iso)] for a returned string, [Ok None] where
    the function falls off its end, [Raise e] for an exception.  The
    digits that [strptime] reads here are the ASCII digits. *)

Definition reformat (date_value : string) (fmt : list PyDate.directive)
  : outcome (option string) :=
  outcome_map (fun d => Some (PyDate.strftime_iso d)) (PyDate.strptime date_value fmt).

Definition check_dates (date_value : string) : outcome (option string) :=
  if PyStr.contains "/" date_value then
    let last_value := PyStr.last_item (PyStr.split "/" date_value) in
    let first_value := PyStr.first_item (PyStr.split "/" date_value) in
    if Nat.eqb (PyStr.len last_value) 4 then
      reformat date_value PyDate.fmt_mdY
    else if Nat.eqb (PyStr.len last_value) 2 then
      if negb (Nat.eqb (PyStr.len first_value) 4) then
        reformat date_value PyDate.fmt_mdy
      else
        reformat date_value PyDate.fmt_Ymd
    else
      Raise (DataValidationError (JStr date_value) "YYYY-MM-DD")
  else if PyStr.contains "-" date_value && negb (PyStr.contains "/" date_value) then
    if Nat.ltb (PyStr.len date_value) 10 then
      reformat date_value PyDate.fmt_mdy_hyphen
    else
      Ok None
  else
    Raise (DataValidationError (JStr date_value) "YYYY-MM-DD").

(** ** Python values in comparisons and f-strings *)

(** [a == b] on values decoded from JSON: [True == 1], lists compare
    element by element, dicts compare as mappings whatever the order of
    their keys. *)
Fixpoint py_eq (a b : json) {struct a} : bool :=
  match a, b with
  | JNull, JNull => true
  | JBool x, JBool y => Bool.eqb x y
  | JBool x, JNum n => n =? (if x then 1 else 0)
  | JNum n, JBool x => n =? (if x then 1 else 0)
  | JNum x, JNum y => x =? y
  | JStr x, JStr y => String.eqb x y
  | JArr xs, JArr ys =>
      (fix all2 (xs ys : list json) {struct xs} : bool :=
         match xs, ys with
         | [], [] => true
         | x :: xs', y :: ys' => py_eq x y && all2 xs' ys'
         | _, _ => false
         end) xs ys
  | JObj xs, JObj ys =>
      Nat.eqb (length xs) (length ys)
      && (fix sub (xs : list (string * json)) {struct xs} : bool :=
            match xs with
            | [] => true
            | (k, v) :: xs' =>
                match PyDict.lookup k ys with
                | Some v' => py_eq v v' && sub xs'
                | None => false
                end
            end) xs
  | _, _ => false
  end.

(** [x in l] *)
Definition py_in (x : json) (l : list json) : bool := existsb (py_eq x) l.

(** The truth value of [x] in [if x:]. *)
Definition truthy (x : json) : bool :=
  match x with
  | JNull => false
  | JBool b => b
  | JNum n => negb (n =? 0)
  | JStr s => negb (String.eqb s "")
  | JArr l => match l with [] => false | _ => true end
  | JObj l => match l with [] => false | _ => true end
  end.

Fixpoint nat_digits (fuel : nat) (n : Z) (acc : string) : string :=
  match fuel with
  | O => acc
  | S k =>
      let acc' := String (PyDate.digit_char n) acc in
      if n <? 10 then acc' else nat_digits k (n / 10) acc'
  end.

Definition str_of_Z (n : Z) : string :=
  if n <? 0 then "-" +:+ nat_digits (S (Z.to_nat (Z.log2 (- n)))) (- n) ""
  else nat_digits (S (Z.to_nat (Z.log2 n))) n "".

Definition join (sep : string) (l : list string) : string :=
  match l with
  | [] => ""
  | x :: l' => fold_left (fun acc y => acc +:+ sep +:+ y) l' x
  end.

(** [str(x)], as an f-string inserts it.  Inside a list or a dict a
    string is shown between single quotes (texts that hold a quote or
    a backslash are shown by Python with an escape; they do not occur
    here). *)
Fixpoint py_repr (x : json) : string :=
  match x with
  | JNull => "None"
  | JBool b => if b then "True" else "False"
  | JNum n => str_of_Z n
  | JStr s => "'" +:+ s +:+ "'"
  | JArr l => "[" +:+ join ", " (map py_repr l) +:+ "]"
  | JObj l =>
      "{" +:+ join ", " (map (fun kv => "'" +:+ fst kv +:+ "': " +:+ py_repr (snd kv)) l) +:+ "}"
  end.

Definition py_str (x : json) : string :=
  match x with
  | JStr s => s
  | _ => py_repr x
  end.

(** A Python variable that holds a string or [None]. *)
Definition opt_json (x : option string) : json :=
  match x with Some s => JStr s | None => JNull end.

(** [x.get(k)] on a decoded JSON value. *)
Definition json_get (k : string) (x : json) : outcome json :=
  match x with
  | JObj d => Ok (default JNull (PyDict.lookup k d))
  | _ => Raise AttributeError
  end.

(** [x[k]] with a string key. *)
Definition json_item (k : string) (x : json) : outcome json :=
  match x with
  | JObj d => match PyDict.lookup k d with Some v => Ok v | None => Raise KeyError end
  | JArr _ => Raise TypeError
  | JStr _ => Raise TypeError
  | _ => Raise TypeError
  end.

(** [x[0]] *)
Definition json_first (x : json) : outcome json :=
  match x with
  | JArr (v :: _) => Ok v
  | JArr [] => Raise IndexError
  | JStr s => match s with String c _ => Ok (JStr (String c "")) | EmptyString => Raise IndexError end
  | JObj _ => Raise KeyError
  | _ => Raise TypeError
  end.

(** ** Spreadsheet rows

    A row is the dict [csv.DictReader] yields for a line that has all
    the columns of [set_fieldnames]: every cell is a string.  The tool
    overwrites ['Top Container'] with what the container lookup returned
    (any JSON value, or [None]) and adds the four result columns, which
    are absent until then. *)

Record row := {
  Repository_Name : string;
  Security_Tag : string;
  Parent_Record : string;
  Title : string;
  Component_Unique_ID : string;
  Type_1 : string;
  Number_of_bytes : string;
  Container_Summary : string;
  Top_Container : json;
  Collection_Name : string;
  Event_Type_1 : string;
  Outcome_1 : string;
  Begin_1 : string;
  Outcome_Note_1 : string;
  Event_Type_2 : string;
  Outcome_2 : string;
  Begin_2 : string;
  Outcome_Note_2 : string;
  Event_Type_3 : string;
  Outcome_3 : string;
  Begin_3 : string;
  Outcome_Note_3 : string;
  Service_Note : string;
  New_Component_URI : option json;
  Event_URI_1 : option json;
  Event_URI_2 : option json;
  Event_URI_3 : option json
}.

(** [row['Top Container'] = v] *)
Definition set_Top_Container (v : json) (r : row) : row :=
  {| Repository_Name := Repository_Name r; Security_Tag := Security_Tag r;
     Parent_Record := Parent_Record r; Title := Title r;
     Component_Unique_ID := Component_Unique_ID r; Type_1 := Type_1 r;
     Number_of_bytes := Number_of_bytes r; Container_Summary := Container_Summary r;
     Top_Container := v; Collection_Name := Collection_Name r;
     Event_Type_1 := Event_Type_1 r; Outcome_1 := Outcome_1 r; Begin_1 := Begin_1 r;
     Outcome_Note_1 := Outcome_Note_1 r;
     Event_Type_2 := Event_Type_2 r; Outcome_2 := Outcome_2 r; Begin_2 := Begin_2 r;
     Outcome_Note_2 := Outcome_Note_2 r;
     Event_Type_3 := Event_Type_3 r; Outcome_3 := Outcome_3 r; Begin_3 := Begin_3 r;
     Outcome_Note_3 := Outcome_Note_3 r;
     Service_Note := Service_Note r;
     New_Component_URI := New_Component_URI r;
     Event_URI_1 := Event_URI_1 r; Event_URI_2 := Event_URI_2 r;
     Event_URI_3 := Event_URI_3 r |}.

(** [row['New_Component_URI'] = v] *)
Definition set_New_Component_URI (v : json) (r : row) : row :=
  {| Repository_Name := Repository_Name r; Security_Tag := Security_Tag r;
     Parent_Record := Parent_Record r; Title := Title r;
     Component_Unique_ID := Component_Unique_ID r; Type_1 := Type_1 r;
     Number_of_bytes := Number_of_bytes r; Container_Summary := Container_Summary r;
     Top_Container := Top_Container r; Collection_Name := Collection_Name r;
     Event_Type_1 := Event_Type_1 r; Outcome_1 := Outcome_1 r; Begin_1 := Begin_1 r;
     Outcome_Note_1 := Outcome_Note_1 r;
     Event_Type_2 := Event_Type_2 r; Outcome_2 := Outcome_2 r; Begin_2 := Begin_2 r;
     Outcome_Note_2 := Outcome_Note_2 r;
     Event_Type_3 := Event_Type_3 r; Outcome_3 := Outcome_3 r; Begin_3 := Begin_3 r;
     Outcome_Note_3 := Outcome_Note_3 r;
     Service_Note := Service_Note r;
     New_Component_URI := Some v;
     Event_URI_1 := Event_URI_1 r; Event_URI_2 := Event_URI_2 r;
     Event_URI_3 := Event_URI_3 r |}.

(** [row.update(event_uris)]: the keys of [event_uris] are among the
    three event columns. *)
Definition row_update (event_uris : gmap string json) (r : row) : row :=
  let pick k old := match event_uris !! k with Some v => Some v | None => old end in
  {| Repository_Name := Repository_Name r; Security_Tag := Security_Tag r;
     Parent_Record := Parent_Record r; Title := Title r;
     Component_Unique_ID := Component_Unique_ID r; Type_1 := Type_1 r;
     Number_of_bytes := Number_of_bytes r; Container_Summary := Container_Summary r;
     Top_Container := Top_Container r; Collection_Name := Collection_Name r;
     Event_Type_1 := Event_Type_1 r; Outcome_1 := Outcome_1 r; Begin_1 := Begin_1 r;
     Outcome_Note_1 := Outcome_Note_1 r;
     Event_Type_2 := Event_Type_2 r; Outcome_2 := Outcome_2 r; Begin_2 := Begin_2 r;
     Outcome_Note_2 := Outcome_Note_2 r;
     Event_Type_3 := Event_Type_3 r; Outcome_3 := Outcome_3 r; Begin_3 := Begin_3 r;
     Outcome_Note_3 := Outcome_Note_3 r;
     Service_Note := Service_Note r;
     New_Component_URI := New_Component_URI r;
     Event_URI_1 := pick "Event_URI_1" (Event_URI_1 r);
     Event_URI_2 := pick "Event_URI_2" (Event_URI_2 r);
     Event_URI_3 := pick "Event_URI_3" (Event_URI_3 r) |}.

(** ** Identifiers taken from a row *)

Definition set_parent (first_row : row) : string :=
  (PyStr.rpartition "_" (Parent_Record first_row)).2.

Definition set_resource (r : row) : string :=
  if PyStr.contains "/#" (Parent_Record r) then
    (PyStr.rpartition "/" (PyStr.partition "/#" (Parent_Record r)).1.1).2
  else
    (PyStr.rpartition "/" (PyStr.partition "#" (Parent_Record r)).1.1).2.

(** ** Record builder *)

Definition create_instance (container_uri : json) : json :=
  JObj [("instance_type", JStr "mixed_materials");
        ("jsonmodel_type", JStr "instance");
        ("sub_container",
          JObj [("jsonmodel_type", JStr "sub_container");
                ("top_container", JObj [("ref", container_uri)])])].

Definition update_extents (r : row) : list json :=
  let new_extent_list := [] in
  let new_extent_list :=
    if negb (String.eqb (Type_1 r) "") then
      let first_extent :=
        JObj [("number", JStr "1"); ("portion", JStr "whole");
              ("extent_type", JStr (Type_1 r)); ("jsonmodel_type", JStr "extent")] in
      new_extent_list ++ [first_extent]
    else new_extent_list in
  let new_extent_list :=
    if negb (String.eqb (Number_of_bytes r) "") then
      let second_extent :=
        [("number", JStr (PyStr.replace "," "" (Number_of_bytes r)));
         ("portion", JStr "whole");
         ("extent_type", JStr "bytes"); ("jsonmodel_type", JStr "extent")] in
      let second_extent :=
        if negb (String.eqb (Container_Summary r) "")
        then PyDict.set "container_summary" (JStr (Container_Summary r)) second_extent
        else second_extent in
      new_extent_list ++ [JObj second_extent]
    else new_extent_list in
  new_extent_list.

(** [create_archival_object]; [repo_id] is a string or [None]. *)
Definition create_archival_object (r : row) (repo_id : json) (parent_id resource_id : string)
  : json * string :=
  let new_archival_object :=
    [("publish", JBool true); ("title", JStr (Title r)); ("level", JStr "item");
     ("component_id", JStr (Component_Unique_ID r)); ("instances", JArr []);
     ("jsonmodel_type", JStr "archival_object");
     ("resource",
       JObj [("ref", JStr ("/repositories/" +:+ py_str repo_id +:+ "/resources/" +:+ resource_id))]);
     ("parent",
       JObj [("ref", JStr ("/repositories/" +:+ py_str repo_id +:+ "/archival_objects/"
                           +:+ parent_id))])] in
  let new_archival_object :=
    if String.eqb (Title r) ""
    then PyDict.set "title" (JStr "[no label]") new_archival_object
    else new_archival_object in
  let new_archival_object :=
    PyDict.set "extents" (JArr (update_extents r)) new_archival_object in
  let new_archival_object :=
    if negb (py_in (Top_Container r) [JStr ""; JNull]) then
      let new_instance := create_instance (Top_Container r) in
      PyDict.set "instances" (JArr ([] ++ [new_instance])) new_archival_object
    else new_archival_object in
  let endpoint := "/repositories/" +:+ py_str repo_id +:+ "/archival_objects" in
  (JObj new_archival_object, endpoint).

(** ** The world the tool acts on *)

Inductive http_method := GET | POST.

Record request := {
  req_method : http_method;
  req_url : string;
  req_json : option json
}.

(** What a request comes back with: no response at all
    ([requests.exceptions.RequestException]) or a status code and a
    JSON body. *)
Inductive reply :=
| NoResponse
| Response (status_code : Z) (body : json).

Inductive log_entry :=
| log_exception (e : exn)
| log_debug (msg : string)
| log_debug_row (r : row)
| log_debug_json (v : json).

Inductive out_line :=
| Header
| Line (r : row).

(** What a run has done so far: the requests sent, the log, the
    output spreadsheets, the backups, the result lists; and [row], the
    one local of [main] that is read where it may not be bound. *)
Record world := {
  sent : list request;
  logged : list log_entry;
  outputs : gmap string (list out_line);
  backups : gmap string (list json);
  file_results : gmap string (list string);
  bound_row : option row
}.

Definition M (A : Type) : Type := world -> outcome A * world.

Definition ret {A} (a : A) : M A := fun w => (Ok a, w).

Definition raise {A} (e : exn) : M A := fun w => (Raise e, w).

Definition bind {A B} (m : M A) (k : A -> M B) : M B :=
  fun w =>
    match m w with
    | (Ok a, w') => k a w'
    | (Raise e, w') => (Raise e, w')
    end.

Global Instance M_ret : MRet M := @ret.
Global Instance M_bind : MBind M := fun A B k m => bind m k.

(** A pure computation that may raise. *)
Definition lift {A} (o : outcome A) : M A := fun w => (o, w).

(** [try: body except <classes>: handler] *)
Definition try_except {A} (body : M A) (classes : exn -> bool) (handler : exn -> M A) : M A :=
  fun w =>
    match body w with
    | (Raise e, w') => if classes e then handler e w' else (Raise e, w')
    | r => r
    end.

Definition is_FileNameError (e : exn) : bool :=
  match e with FileNameError _ => true | _ => false end.
Definition is_LoginError (e : exn) : bool :=
  match e with LoginError _ _ _ => true | _ => false end.
Definition is_DataValidationError (e : exn) : bool :=
  match e with DataValidationError _ _ => true | _ => false end.
Definition is_RecordNotFoundError (e : exn) : bool :=
  match e with RecordNotFoundError _ => true | _ => false end.
Definition is_ArchivesSpaceError (e : exn) : bool :=
  match e with ArchivesSpaceError _ _ _ => true | _ => false end.
Definition is_RequestException (e : exn) : bool :=
  match e with RequestException => true | _ => false end.
Definition any_Exception (e : exn) : bool := true.

(** [logging.exception], [logging.debug] *)
Definition logging (entry : log_entry) : M unit :=
  fun w => (Ok tt, {| sent := sent w; logged := logged w ++ [entry];
                      outputs := outputs w; backups := backups w;
                      file_results := file_results w; bound_row := bound_row w |}).

(** [writer.writeheader()] and [writer.writerow(row)] on a file opened
    in append mode. *)
Definition write_line (path : string) (l : out_line) : M unit :=
  fun w => (Ok tt, {| sent := sent w; logged := logged w;
                      outputs := <[path := default [] (outputs w !! path) ++ [l]]> (outputs w);
                      backups := backups w;
                      file_results := file_results w; bound_row := bound_row w |}).

(** [file_results[key].append(path)] on the [defaultdict(list)] *)
Definition file_result (key path : string) : M unit :=
  fun w => (Ok tt, {| sent := sent w; logged := logged w; outputs := outputs w;
                      backups := backups w;
                      file_results :=
                        <[key := default [] (file_results w !! key) ++ [path]]>
                          (file_results w);
                      bound_row := bound_row w |}).

(** [create_backups]: the file name comes from the URI, and the file
    is opened in append mode. *)
Definition create_backups (dirpath uri : string) (record_json : json) : M unit :=
  let path := dirpath +:+ "/" +:+ PyStr.replace "/" "_" (PyStr.drop 1 uri) +:+ ".json" in
  fun w => (Ok tt, {| sent := sent w; logged := logged w; outputs := outputs w;
                      backups := <[path := default [] (backups w !! path) ++ [record_json]]>
                                   (backups w);
                      file_results := file_results w; bound_row := bound_row w |}).

(** [row], the local of [main] that its row loop binds, line after
    line, to the dict of the line.  The loop body changes that dict in
    place, and the handler of [main] reads the name: [bind_row] is the
    binding and every such change, [read_row] the reading, which fails
    while no line has been read. *)
Definition bind_row (r : row) : M unit :=
  fun w => (Ok tt, {| sent := sent w; logged := logged w; outputs := outputs w;
                      backups := backups w; file_results := file_results w;
                      bound_row := Some r |}).

Definition read_row : M row :=
  fun w => match bound_row w with
           | Some r => (Ok r, w)
           | None => (Raise (UnboundLocalError "row"), w)
           end.

(** ** Pure parts of the event recorder and of the container resolver *)

(** [for x in v]: what iterating over a decoded JSON value yields. *)
Definition py_iter (v : json) : outcome (list json) :=
  match v with
  | JArr l => Ok l
  | JObj d => Ok (map (fun kv => JStr (fst kv)) d)
  | JStr s => Ok (map (fun c => JStr (String c "")) (list_ascii_of_string s))
  | _ => Raise TypeError
  end.

Definition obind {A B} (o : outcome A) (k : A -> outcome B) : outcome B :=
  match o with Ok a => k a | Raise e => Raise e end.

(** The loop of [get_uris] over the instances. *)
Fixpoint get_uris_loop (instances : list json) (container_uri_list : list json)
  : outcome (list json) :=
  match instances with
  | [] => Ok container_uri_list
  | instance :: rest =>
      obind (json_get "instance_type" instance) (fun ty =>
      if negb (py_eq ty (JStr "digital_object")) then
        obind (json_item "sub_container" instance) (fun sc =>
        obind (json_item "top_container" sc) (fun tc =>
        obind (json_item "ref" tc) (fun ref =>
        get_uris_loop rest (container_uri_list ++ [ref]))))
      else get_uris_loop rest container_uri_list)
  end.

Definition get_uris (record_json : json) : outcome (list json) :=
  obind (json_get "instances" record_json) (fun instances =>
  obind (py_iter instances) (fun l =>
  get_uris_loop l [])).

(** [match_containers]: pairs [(uri, indicator)] are unpacked from the
    items of the list. *)
Fixpoint match_containers (container_list : list (json * json)) (container_number : json)
  : outcome json :=
  match container_list with
  | [] => Raise (RecordNotFoundError container_number)
  | (uri, indicator) :: rest =>
      if py_eq indicator container_number then Ok uri
      else match_containers rest container_number
  end.

(** [set_action_type] chooses one of the two builders by the file name. *)
Inductive action := Create | Update.

Definition set_action_type (input_file : string) : outcome action :=
  if PyStr.contains "create" (PyStr.lower input_file) then Ok Create
  else if PyStr.contains "update" (PyStr.lower input_file) then Ok Update
  else Raise (FileNameError input_file).

(** [x[k] = v] *)
Definition json_setitem (k : string) (v : json) (x : json) : outcome json :=
  match x with
  | JObj d => Ok (JObj (PyDict.set k v d))
  | _ => Raise TypeError
  end.

(** [x[k].append(v)] *)
Definition json_append_at (k : string) (v : json) (x : json) : outcome json :=
  obind (json_item k x) (fun l =>
  match l with
  | JArr items => json_setitem k (JArr (items ++ [v])) x
  | _ => Raise AttributeError
  end).

(** The list comprehension of [get_instance_data]. *)
Fixpoint container_instances_of (instances : list json) : outcome (list json) :=
  match instances with
  | [] => Ok []
  | instance :: rest =>
      obind (json_get "instance_type" instance) (fun ty =>
      obind (container_instances_of rest) (fun l =>
      Ok (if negb (py_eq ty (JStr "digital_object")) then instance :: l else l)))
  end.

(** [create_event], once the date has been checked. *)
Definition event_payload (agent_uri ao_id repo_id : json) (event_type outcome_ : string)
    (date_value : option string) (outcome_note : string) : json :=
  JObj [("event_type", JStr (PyStr.lower event_type));
        ("jsonmodel_type", JStr "event");
        ("outcome", JStr (PyStr.lower outcome_));
        ("outcome_note", JStr outcome_note);
        ("linked_agents", JArr [JObj [("role", JStr "authorizer"); ("ref", agent_uri)]]);
        ("linked_records",
          JArr [JObj [("role", JStr "source");
                      ("ref", JStr ("/repositories/" +:+ py_str repo_id +:+ "/archival_objects/"
                                    +:+ py_str ao_id))]]);
        ("date", JObj [("begin", opt_json date_value); ("date_type", JStr "single");
                       ("label", JStr "event"); ("jsonmodel_type", JStr "date")])].

(** ** The tool, against a remote API

    [remote] is the ArchivesSpace instance: what it answers to a
    request, given the requests it has received so far. *)

Section Tool.

Variable remote : list request -> request -> reply.

Definition send (req : request) : M reply :=
  fun w => (Ok (remote (sent w) req),
            {| sent := sent w ++ [req]; logged := logged w;
               outputs := outputs w; backups := backups w;
               file_results := file_results w; bound_row := bound_row w |}).

Definition get_record (url : string) : M json :=
  r ← send {| req_method := GET; req_url := url; req_json := None |};
  match r with
  | NoResponse => raise RequestException
  | Response status_code body =>
      if status_code =? 200 then mret body
      else raise (ArchivesSpaceError url status_code body)
  end.

Definition post_record (url : string) (record_json : json) : M json :=
  r ← send {| req_method := POST; req_url := url; req_json := Some record_json |};
  match r with
  | NoResponse => raise RequestException
  | Response status_code body =>
      if status_code =? 200 then mret body
      else raise (ArchivesSpaceError url status_code body)
  end.

(** *** Container resolver *)

(** The loop of [generate_container_list]; [bound] tells whether the
    local [record_json] has been assigned, which the handler reads. *)
Fixpoint generate_container_loop (api_url : string) (uris : list json)
    (container_store : list (json * json)) (bound : bool) : M (list (json * json)) :=
  match uris with
  | [] => mret container_store
  | container_uri :: rest =>
      let container_uri := api_url +:+ py_str container_uri in
      step ← try_except
        (record_json ← get_record container_uri;
         uri ← lift (json_item "uri" record_json);
         indicator ← lift (json_item "indicator" record_json);
         mret (container_store ++ [(uri, indicator)], true))
        is_ArchivesSpaceError
        (fun e =>
           if bound then logging (log_exception e);; mret (container_store, bound)
           else raise (UnboundLocalError "record_json"));
      generate_container_loop api_url rest step.1 step.2
  end.

Definition generate_container_list (api_url : string) (parent_json : json)
  : M (list (json * json)) :=
  container_uri_list ← lift (get_uris parent_json);
  match container_uri_list with
  | _ :: _ => generate_container_loop api_url container_uri_list [] false
  | [] => raise (RecordNotFoundError parent_json)
  end.

Definition get_instance_data (api_url : string) (record_json : json)
  : M (option (list (json * json))) :=
  instances ← lift (json_get "instances" record_json);
  items ← lift (py_iter instances);
  container_instances ← lift (container_instances_of items);
  match container_instances with
  | _ :: _ =>
      try_except
        (container_list ← generate_container_list api_url record_json;
         mret (Some container_list))
        is_RecordNotFoundError
        (fun e => logging (log_exception e);; mret None)
  | [] => raise (RecordNotFoundError record_json)
  end.

Definition get_containers (api_url parent_id : string) (repo_id : json)
  : M (option (list (json * json))) :=
  try_except
    (let record_url :=
       api_url +:+ "/repositories/" +:+ py_str repo_id +:+ "/archival_objects/" +:+ parent_id in
     record_json ← get_record record_url;
     try_except
       (get_instance_data api_url record_json)
       is_RecordNotFoundError
       (fun _ =>
          try_except
            (ancestors ← lift (json_item "ancestors" record_json);
             ancestor ← lift (json_first ancestors);
             ref ← lift (json_item "ref" ancestor);
             let parent_url := api_url +:+ "/" +:+ py_str ref in
             parent_json ← get_record parent_url;
             try_except
               (get_instance_data api_url parent_json)
               is_RecordNotFoundError
               (fun e => logging (log_exception e);; mret None))
            is_ArchivesSpaceError
            (fun e => logging (log_exception e);; mret None)))
    (fun e => is_ArchivesSpaceError e || is_RecordNotFoundError e)
    (fun e => logging (log_exception e);; mret None).

(** [get_matched_containers]: [container_list] is a list of pairs or
    [None]; iterating over [None] is a [TypeError], caught like any
    other exception. *)
Definition get_matched_containers (container_list : option (list (json * json)))
    (container_number : json) : M json :=
  try_except
    (match container_list with
     | Some l => lift (match_containers l container_number)
     | None => raise TypeError
     end)
    any_Exception
    (fun e =>
       logging (log_exception e);;
       logging (log_debug_json
                  (match container_list with
                   | Some l => JArr (map (fun p => JArr [p.1; p.2]) l)
                   | None => JNull
                   end));;
       mret JNull).

(** *** Record builder: the update path *)

Definition update_archival_object (api_url : string) (r : row) (ao_id : string)
    (repo_id : json) (dirpath : string) : M (option (json * string)) :=
  let record_uri :=
    api_url +:+ "/repositories/" +:+ py_str repo_id +:+ "/archival_objects/" +:+ ao_id in
  try_except
    (record_json ← get_record record_uri;
     create_backups dirpath
       ("/repositories/" +:+ py_str repo_id +:+ "/archival_objects/" +:+ ao_id) record_json;;
     record_json ← lift (json_setitem "component_id" (JStr (Component_Unique_ID r)) record_json);
     record_json ← lift (json_setitem "extents" (JArr (update_extents r)) record_json);
     record_json ←
       (if negb (py_in (Top_Container r) [JStr ""; JNull]) then
          current_container_uris ← lift (get_uris record_json);
          if negb (py_in (Top_Container r) current_container_uris) then
            let new_instance := create_instance (Top_Container r) in
            lift (json_append_at "instances" new_instance record_json)
          else mret record_json
        else mret record_json);
     let endpoint :=
       "/repositories/" +:+ py_str repo_id +:+ "/archival_objects/" +:+ ao_id in
     mret (Some (record_json, endpoint)))
    is_ArchivesSpaceError
    (fun e => logging (log_exception e);; mret None).

(** *** Event recorder *)

Definition create_event (agent_uri ao_id repo_id : json) (event_type outcome_ : string)
    (date_value : string) (outcome_note : string) : M (option json) :=
  try_except
    (date_value ← lift (check_dates date_value);
     mret (Some (event_payload agent_uri ao_id repo_id event_type outcome_
                   date_value outcome_note)))
    is_DataValidationError
    (fun e => logging (log_exception e);; mret None).

(** The result is the URI in the answer, or [None]. *)
Definition event_helper (api_url : string) (agent_uri record_uri repo_id : json)
    (event_type outcome_ begin_date outcome_note : string) : M json :=
  try_except
    (new_event ← create_event agent_uri record_uri repo_id event_type outcome_
                   begin_date outcome_note;
     match new_event with
     | Some ev =>
         if truthy ev then
           event_json ← post_record
             (api_url +:+ "/repositories/" +:+ py_str repo_id +:+ "/events") ev;
           lift (json_get "uri" event_json)
         else raise (DataValidationError ev "")
     | None => raise (DataValidationError JNull "")
     end)
    (fun e => is_DataValidationError e || is_ArchivesSpaceError e)
    (fun e => logging (log_exception e);; mret JNull).

Definition post_events (r : row) (agent_uri repo_id record_uri : json) (api_url : string)
  : M (option (gmap string json)) :=
  let event_uris : gmap string json := ∅ in
  try_except
    (event_uris ←
       (if negb (String.eqb (Event_Type_1 r) "") then
          new_event_uri ← event_helper api_url agent_uri record_uri repo_id
                            (Event_Type_1 r) (Outcome_1 r) (Begin_1 r) (Outcome_Note_1 r);
          mret (<["Event_URI_1" := new_event_uri]> event_uris)
        else mret event_uris);
     event_uris ←
       (if negb (String.eqb (Event_Type_2 r) "") then
          new_event_uri ← event_helper api_url agent_uri record_uri repo_id
                            (Event_Type_2 r) (Outcome_2 r) (Begin_2 r) (Outcome_Note_2 r);
          mret (<["Event_URI_2" := new_event_uri]> event_uris)
        else mret event_uris);
     event_uris ←
       (if negb (String.eqb (Event_Type_3 r) "") then
          new_event_uri ← event_helper api_url agent_uri record_uri repo_id
                            (Event_Type_3 r) (Outcome_3 r) (Begin_3 r) (Outcome_Note_3 r);
          mret (<["Event_URI_3" := new_event_uri]> event_uris)
        else mret event_uris);
     mret (Some event_uris))
    (fun e => is_ArchivesSpaceError e || is_DataValidationError e)
    (fun e => logging (log_exception e);; mret None).

(** *** Session, repository and agent *)

(** [config.yml], and what the operator types when a credential is
    missing from it. *)
Record config := {
  cfg_api_url : option string;
  cfg_username : option string;
  cfg_password : option string;
  cfg_event_authorizer : option string;
  cfg_network_drive_path : string;
  typed_in : string * string * string
}.

Definition blank (x : option string) : bool :=
  match x with None => true | Some s => String.eqb s "" end.

Definition get_credentials (cfg : config) : string * string * string :=
  if blank (cfg_api_url cfg) || blank (cfg_username cfg) || blank (cfg_password cfg)
  then typed_in cfg
  else (default "" (cfg_api_url cfg), default "" (cfg_username cfg),
        default "" (cfg_password cfg)).

Definition start_session (cfg : config) : M string :=
  let '(url, username, password) := get_credentials cfg in
  r ← send {| req_method := POST;
              req_url := url +:+ "/users/" +:+ username +:+ "/login?password=" +:+ password;
              req_json := None |};
  match r with
  | NoResponse => raise RequestException
  | Response status_code body =>
      if status_code =? 200 then
        logging (log_debug ("Login successful!: " +:+ url));;
        session_token ← lift (json_item "session" body);
        mret url
      else raise (LoginError status_code url username)
  end.

Definition get_session (cfg : config) : M (option string) :=
  try_except
    (url ← start_session cfg; mret (Some url))
    is_LoginError
    (fun e => logging (log_exception e);; mret None).

(** [sesh.get(url).json()]: the body, whatever the status code. *)
Definition get_json (url : string) : M json :=
  r ← send {| req_method := GET; req_url := url; req_json := None |};
  match r with
  | NoResponse => raise RequestException
  | Response _ body => mret body
  end.

(** [uri[14:]] and [str] of that *)
Definition slice_14 (uri : json) : outcome string :=
  match uri with
  | JStr s => Ok (PyStr.drop 14 s)
  | JArr l => Ok (py_str (JArr (List.skipn 14 l)))
  | _ => Raise TypeError
  end.

(** The keys of a dict are hashable values. *)
Definition hashable (k : json) : bool :=
  match k with JArr _ | JObj _ => false | _ => true end.

(** The dict comprehension of [get_repositories]: a later repository
    with the same code replaces the earlier one. *)
Fixpoint repo_dict_of (repo_list : list json) (repo_dict : list (json * string))
  : outcome (list (json * string)) :=
  match repo_list with
  | [] => Ok repo_dict
  | repo :: rest =>
      obind (json_get "repo_code" repo) (fun code =>
      obind (json_get "uri" repo) (fun uri =>
      obind (slice_14 uri) (fun id =>
      if hashable code
      then repo_dict_of rest
             (filter (fun kv => negb (py_eq kv.1 code)) repo_dict ++ [(code, id)])
      else Raise TypeError)))
  end.

Definition get_repositories (api_url : string) : M (list (json * string)) :=
  let endpoint := api_url +:+ "/repositories" in
  try_except
    (repo_list ← get_record endpoint;
     items ← lift (py_iter repo_list);
     lift (repo_dict_of items []))
    is_ArchivesSpaceError
    (fun _ => raise (UnboundLocalError "repo_list")).

Fixpoint repo_lookup (code : string) (repo_dict : list (json * string)) : option string :=
  match repo_dict with
  | [] => None
  | (k, v) :: rest => if py_eq k (JStr code) then Some v else repo_lookup code rest
  end.

Definition set_repository (first_row : row) (api_url : string) : M string :=
  repo_dict ← get_repositories api_url;
  match repo_lookup (Repository_Name first_row) repo_dict with
  | Some id => mret id
  | None => raise (RecordNotFoundError (JStr (Repository_Name first_row)))
  end.

Definition get_repo (first_row : row) (api_url : string) : M (option string) :=
  try_except
    (id ← set_repository first_row api_url; mret (Some id))
    (fun e => is_ArchivesSpaceError e || is_RecordNotFoundError e)
    (fun e => logging (log_exception e);; mret None).

Definition get_current_user (api_url : string) : M json :=
  current_user ← get_json (api_url +:+ "/users/current-user");
  agent_record ← lift (json_item "agent_record" current_user);
  lift (json_item "ref" agent_record).

(** [total_hits > 1] *)
Definition more_than_one (total_hits : json) : outcome bool :=
  match total_hits with
  | JNum n => Ok (1 <? n)
  | JBool _ => Ok false
  | _ => Raise TypeError
  end.

Definition set_agent (api_url : string) (agent_authorizer username : option string)
  : M json :=
  if negb (blank agent_authorizer)
     && negb (py_eq (opt_json agent_authorizer) (opt_json username)) then
    search_agents ← get_json (api_url +:+ "/search?page=1&type[]=agent_person&q=title:"
                              +:+ default "" agent_authorizer);
    total_hits ← lift (json_get "total_hits" search_agents);
    if py_eq total_hits (JNum 1) then
      results ← lift (json_item "results" search_agents);
      result ← lift (json_first results);
      lift (json_item "uri" result)
    else if py_eq total_hits (JNum 0) then
      logging (log_debug "Agent search error: no results found");;
      raise (RecordNotFoundError (opt_json agent_authorizer))
    else
      many ← lift (more_than_one total_hits);
      if (many : bool) then
        logging (log_debug "Agents search error: multiple results found");;
        raise (RecordNotFoundError (opt_json agent_authorizer))
      else
        logging (log_debug "Agent search error: other error");;
        raise (NameError "url")
  else get_current_user api_url.

Definition get_agent (api_url : string) (agent_authorizer username : option string)
  : M json :=
  try_except
    (set_agent api_url agent_authorizer username)
    (fun e => is_ArchivesSpaceError e || is_RecordNotFoundError e)
    (fun e => logging (log_exception e);; mret JNull).

Definition get_action (input_file : string) : M (option action) :=
  try_except
    (a ← lift (set_action_type input_file); mret (Some a))
    is_FileNameError
    (fun e => logging (log_exception e);; mret None).

(** *** Row pipeline and file sweep *)

Definition get_spreadsheet_list (drive_path : string) (listdir : list string) : list string :=
  map (fun filename => drive_path +:+ "/" +:+ filename)
      (filter (fun filename => PyStr.endswith ".csv" filename) listdir).

(** The data rows of a spreadsheet, below its two header lines. *)
Definition get_row_data (data : list row) : outcome (nat * row) :=
  match data with
  | first_row :: _ => Ok (length data, first_row)
  | [] => Raise IndexError
  end.

(** The locals of [main] that outlive one turn of its loops: the
    container cache, and the payload and endpoint last built; [None]
    is a name not yet bound. *)
Record locals := {
  container_list : option (option (list (json * json)));
  built : option (json * string)
}.

Inductive flow := Next | Break.

Definition api_failure (e : exn) : bool :=
  is_ArchivesSpaceError e || is_RequestException e.

(** The handler of the post step. *)
Definition post_failed (input_csv_file : string) (r : row) (vars : locals) (err : exn)
  : M (flow * locals) :=
  logging (log_exception err);;
  logging (log_debug_row r);;
  file_result "errors" input_csv_file;;
  mret (Break, vars).

(** The [try] block of the row: post, record the events, write. *)
Definition post_step (api_url input_csv_file output_csv_file : string)
    (repo_identifier agent_uri : json) (r : row) (vars : locals) : M (flow * locals) :=
  match built vars with
  | None => raise (UnboundLocalError "endpoint")
  | Some (record_json, endpoint) =>
      try_except
        (record_post ← post_record (api_url +:+ endpoint) record_json;
         uri ← lift (json_get "uri" record_post);
         let r := set_New_Component_URI uri r in
         bind_row r;;
         try_except
           (event_uris ← post_events r agent_uri repo_identifier uri api_url;
            match event_uris with
            | Some event_uris =>
                let r := row_update event_uris r in
                bind_row r;;
                write_line output_csv_file (Line r);;
                mret (Next, vars)
            | None => raise TypeError
            end)
           api_failure
           (post_failed input_csv_file r vars))
        api_failure
        (post_failed input_csv_file r vars)
  end.

(** A row that has a record identifier. *)
Definition row_body (api_url drive_path input_csv_file output_csv_file : string)
    (act : option action) (repo_identifier agent_uri previous_container : json)
    (record_id : string) (vars : locals) (r : row) : M (flow * locals) :=
  let resource_identifier := set_resource r in
  '(r, vars) ←
    (if negb (py_eq (Top_Container r) (JStr "")) then
       vars ←
         (if negb (py_eq (Top_Container r) previous_container) then
            found ← get_containers api_url record_id repo_identifier;
            mret {| container_list := Some found; built := built vars |}
          else mret vars);
       match container_list vars with
       | None => raise (UnboundLocalError "container_list")
       | Some found =>
           uri ← get_matched_containers found (Top_Container r);
           let r := set_Top_Container uri r in
           bind_row r;;
           mret (r, vars)
       end
     else mret (r, vars));
  vars ←
    match act with
    | Some Update =>
        res ← update_archival_object api_url r record_id repo_identifier
                (drive_path +:+ "/backups");
        match res with
        | Some p => mret {| container_list := container_list vars; built := Some p |}
        | None => raise TypeError
        end
    | Some Create =>
        mret {| container_list := container_list vars;
                built := Some (create_archival_object r repo_identifier record_id
                                 resource_identifier) |}
    | None => mret vars
    end;
  post_step api_url input_csv_file output_csv_file repo_identifier agent_uri r vars.

(** A row whose parent-record reference gives no identifier. *)
Definition skip_row (r : row) (vars : locals) : M (flow * locals) :=
  logging (log_debug "Skipping row: missing ASpace URI");;
  logging (log_debug_row r);;
  mret (Next, vars).

Definition process_row (api_url drive_path input_csv_file output_csv_file : string)
    (act : option action) (repo_identifier agent_uri previous_container : json)
    (vars : locals) (r : row) : M (flow * locals) :=
  let record_id := (PyStr.rpartition "_" (Parent_Record r)).2 in
  if negb (String.eqb record_id "") then
    row_body api_url drive_path input_csv_file output_csv_file act repo_identifier
      agent_uri previous_container record_id vars r
  else skip_row r vars.

(** [for row in reader], with its [break]. *)
Fixpoint process_rows (api_url drive_path input_csv_file output_csv_file : string)
    (act : option action) (repo_identifier agent_uri previous_container : json)
    (vars : locals) (rows : list row) : M locals :=
  match rows with
  | [] => mret vars
  | r :: rest =>
      bind_row r;;
      '(fl, vars) ← process_row api_url drive_path input_csv_file output_csv_file act
                      repo_identifier agent_uri previous_container vars r;
      match fl with
      | Break => mret vars
      | Next =>
          process_rows api_url drive_path input_csv_file output_csv_file act
            repo_identifier agent_uri previous_container vars rest
      end
  end.

(** One turn of [for input_csv_file in file_listing], from the line
    after [get_action] on. *)
Definition process_file_as (cfg : config) (api_url : string) (read_csv : string -> list row)
    (vars : locals) (input_csv_file : string) (first_row : row) (act : option action)
  : M locals :=
  let drive_path := cfg_network_drive_path cfg in
  let output_csv_file :=
    PyStr.replace drive_path (drive_path +:+ "/outputs")
      (PyStr.replace ".csv" "" input_csv_file) +:+ "_out.csv" in
  repo_identifier ← get_repo first_row api_url;
  let repo_identifier := opt_json repo_identifier in
  let parent_identifier := set_parent first_row in
  let agent_identifier := cfg_event_authorizer cfg in
  agent_uri ← get_agent api_url agent_identifier (cfg_username cfg);
  let previous_container := Top_Container first_row in
  vars ←
    (if negb (py_eq previous_container (JStr "")) then
       found ← get_containers api_url parent_identifier repo_identifier;
       mret {| container_list := Some found; built := built vars |}
     else mret vars);
  write_line output_csv_file Header;;
  vars ← process_rows api_url drive_path input_csv_file output_csv_file act
           repo_identifier agent_uri previous_container vars (read_csv input_csv_file);
  file_result "complete" input_csv_file;;
  mret vars.

(** One turn of [for input_csv_file in file_listing]. *)
Definition process_file (cfg : config) (api_url : string) (read_csv : string -> list row)
    (vars : locals) (input_csv_file : string) : M locals :=
  logging (log_debug input_csv_file);;
  '(row_count, first_row) ← lift (get_row_data (read_csv input_csv_file));
  act ← get_action input_csv_file;
  process_file_as cfg api_url read_csv vars input_csv_file first_row act.

Fixpoint process_files (cfg : config) (api_url : string) (read_csv : string -> list row)
    (vars : locals) (file_listing : list string) : M locals :=
  match file_listing with
  | [] => mret vars
  | input_csv_file :: rest =>
      vars ← process_file cfg api_url read_csv vars input_csv_file;
      process_files cfg api_url read_csv vars rest
  end.

(** The [try] block of [main]; [listdir] is the content of the
    network drive and [read_csv] that of its spreadsheets. *)
Definition main_try (cfg : config) (listdir : list string) (read_csv : string -> list row)
  : M bool :=
  let drive_path := cfg_network_drive_path cfg in
  let file_listing := get_spreadsheet_list drive_path listdir in
  session ← get_session cfg;
  match session with
  | None => raise TypeError
  | Some api_url =>
      process_files cfg api_url read_csv
        {| container_list := None; built := None |} file_listing;;
      logging (log_debug "Done! Check outfile for details.");;
      mret true
  end.

(** [main]: the result is the flag handed to the notification.  The
    handler prints [row] first, which fails while no line has been
    read; the error then leaves [main], the flag still [False].  The
    sorting of the files by [file_results] and the notification, in
    the [finally] clause, are the work of collaborators outside this
    development. *)
Definition main (cfg : config) (listdir : list string) (read_csv : string -> list row)
  : M bool :=
  try_except
    (main_try cfg listdir read_csv)
    any_Exception
    (fun exc =>
       r ← read_row;
       logging (log_exception exc);;
       logging (log_debug_row r);;
       mret false).

End Tool.

(** The world before a run. *)
Definition fresh : world :=
  {| sent := []; logged := []; outputs := ∅; backups := ∅; file_results := ∅;
     bound_row := None |}.

(** ** Sample data

    A spreadsheet line with the columns the tool reads, and a remote
    API to run the tool against: it knows one repository, answers every
    archival object with the same record linked to two boxes, and
    refuses a record whose component identifier is ["bad"]. *)

Definition csv_row (repository parent title component type_1 bytes summary top : string)
    (e1 e2 e3 : string * string * string * string) : row :=
  {| Repository_Name := repository; Security_Tag := ""; Parent_Record := parent;
     Title := title; Component_Unique_ID := component; Type_1 := type_1;
     Number_of_bytes := bytes; Container_Summary := summary; Top_Container := JStr top;
     Collection_Name := "";
     Event_Type_1 := e1.1.1.1; Outcome_1 := e1.1.1.2; Begin_1 := e1.1.2;
     Outcome_Note_1 := e1.2;
     Event_Type_2 := e2.1.1.1; Outcome_2 := e2.1.1.2; Begin_2 := e2.1.2;
     Outcome_Note_2 := e2.2;
     Event_Type_3 := e3.1.1.1; Outcome_3 := e3.1.1.2; Begin_3 := e3.1.2;
     Outcome_Note_3 := e3.2;
     Service_Note := ""; New_Component_URI := None;
     Event_URI_1 := None; Event_URI_2 := None; Event_URI_3 := None |}.

Definition no_event : string * string * string * string := ("", "", "", "").

Definition container_instance (ref : string) : json :=
  JObj [("instance_type", JStr "mixed_materials");
        ("sub_container", JObj [("top_container", JObj [("ref", JStr ref)])])].

Definition demo_record : json :=
  JObj [("uri", JStr "/repositories/11/archival_objects/1");
        ("component_id", JStr "old");
        ("instances", JArr [container_instance "/repositories/11/top_containers/1";
                            container_instance "/repositories/11/top_containers/2"])].

Definition demo_remote (history : list request) (req : request) : reply :=
  let url := req_url req in
  match req_method req with
  | POST =>
      if PyStr.contains "/login?" url then Response 200 (JObj [("session", JStr "token")])
      else if PyStr.endswith "/events" url then
        Response 200 (JObj [("status", JStr "Created");
                            ("uri", JStr "/repositories/11/events/1")])
      else
        match req_json req with
        | Some payload =>
            match json_get "component_id" payload with
            | Ok (JStr "bad") => Response 400 (JObj [("error", JStr "Invalid record")])
            | _ => Response 200 (JObj [("status", JStr "Created");
                                       ("uri", JStr "/repositories/11/archival_objects/900")])
            end
        | None => Response 400 (JObj [("error", JStr "No payload")])
        end
  | GET =>
      if PyStr.endswith "/repositories" url then
        Response 200 (JArr [JObj [("repo_code", JStr "BRBL");
                                  ("uri", JStr "/repositories/11")]])
      else if PyStr.endswith "/users/current-user" url then
        Response 200 (JObj [("agent_record", JObj [("ref", JStr "/agents/people/5")])])
      else if PyStr.endswith "/top_containers/1" url then
        Response 200 (JObj [("uri", JStr "/repositories/11/top_containers/1");
                            ("indicator", JStr "1")])
      else if PyStr.endswith "/top_containers/2" url then
        Response 200 (JObj [("uri", JStr "/repositories/11/top_containers/2");
                            ("indicator", JStr "2")])
      else if PyStr.contains "/archival_objects/" url then Response 200 demo_record
      else Response 404 (JObj [("error", JStr "Not found")])
  end.

Definition demo_config : config :=
  {| cfg_api_url := Some "https://aspace/api"; cfg_username := Some "das";
     cfg_password := Some "secret"; cfg_event_authorizer := None;
     cfg_network_drive_path := "/drive"; typed_in := ("", "", "") |}.

(** ** What the statements observe *)

(** The value under a key of a JSON object. *)
Definition field (k : string) (x : json) : option json :=
  match x with
  | JObj d => PyDict.lookup k d
  | _ => None
  end.

(** The instances of an archival object record. *)
Definition instances_of (record_json : json) : list json :=
  match field "instances" record_json with
  | Some (JArr l) => l
  | _ => []
  end.

(** The typed extent of a row: number ["1"], the row's type, no
    container summary. *)
Definition typed_entry (r : row) (e : json) : Prop :=
  field "number" e = Some (JStr "1")
  /\ field "extent_type" e = Some (JStr (Type_1 r))
  /\ field "container_summary" e = None.

(** The bytes extent of a row: the byte count without its commas, and
    the container summary when the row has one. *)
Definition bytes_entry (r : row) (e : json) : Prop :=
  field "number" e = Some (JStr (PyStr.replace "," "" (Number_of_bytes r)))
  /\ field "extent_type" e = Some (JStr "bytes")
  /\ field "container_summary" e
     = (if String.eqb (Container_Summary r) "" then None
        else Some (JStr (Container_Summary r))).

(** A step that sends nothing to the remote API. *)
Definition quiet {A} (m : M A) : Prop := forall w, sent (m w).2 = sent w.

(** The world after one more request. *)
Definition add_sent (req : request) (w : world) : world :=
  {| sent := sent w ++ [req]; logged := logged w; outputs := outputs w;
     backups := backups w; file_results := file_results w; bound_row := bound_row w |}.

(** Whether the update path adds an instance for the row's container:
    the row names one, and it is not among the top-container references
    of the fetched record. *)
Definition appended (r : row) (fetched : json) : bool :=
  negb (py_in (Top_Container r) [JStr ""; JNull])
  && match get_uris fetched with
     | Ok uris => negb (py_in (Top_Container r) uris)
     | Raise _ => false
     end.

(** A line of a spreadsheet: parent record, component identifier, box. *)
Definition box_row (parent component top : string) : row :=
  csv_row "BRBL" parent "a title" component "" "" "" top no_event no_event no_event.

(** A line with two events, the first dated [begin_1]. *)
Definition event_row (begin_1 : string) : row :=
  csv_row "BRBL" "https://aspace/resources/77#tree::archival_object_101" "a title" "c1"
    "" "" "" ""
    ("Ingestion", "Pass", begin_1, "first note")
    ("Virus Check", "Pass", "03/04/2024", "second note")
    no_event.

Definition login_request : request :=
  {| req_method := POST;
     req_url := "https://aspace/api/users/das/login?password=secret";
     req_json := None |}.

(** The requests of a run, without their payloads. *)
Definition calls (w : world) : list (http_method * string) :=
  map (fun req => (req_method req, req_url req)) (sent w).

Definition add_logged (entries : list log_entry) (w : world) : world :=
  {| sent := sent w; logged := logged w ++ entries; outputs := outputs w;
     backups := backups w; file_results := file_results w; bound_row := bound_row w |}.

(** ** What the wider properties observe *)

(** The requests the tool makes: a fetch, a post with its payload,
    the login. *)
Definition get_request (url : string) : request :=
  {| req_method := GET; req_url := url; req_json := None |}.

Definition post_request (url : string) (j : json) : request :=
  {| req_method := POST; req_url := url; req_json := Some j |}.

Definition post_login (url username password : string) : request :=
  {| req_method := POST;
     req_url := url +:+ "/users/" +:+ username +:+ "/login?password=" +:+ password;
     req_json := None |}.

(** The fetch by which [update_archival_object] begins. *)
Definition update_url (api_url : string) (repo_id : json) (ao_id : string) : request :=
  {| req_method := GET;
     req_url := api_url +:+ "/repositories/" +:+ py_str repo_id +:+ "/archival_objects/"
                +:+ ao_id;
     req_json := None |}.

(** A computation every run of which takes a world to one related to
    it by [R]. *)
Definition steps (R : relation world) {A} (m : M A) : Prop := forall w, R w (m w).2.

(** Worlds that agree on one component. *)
Definition keeps {B} (f : world -> B) : relation world := fun w w' => f w' = f w.

(** Files, or result lists, that were only appended to. *)
Definition longer {A} (m m' : gmap string (list A)) : Prop :=
  forall k, default [] (m !! k) `prefix_of` default [] (m' !! k).

(** A world that only gained: requests, log entries, lines of output,
    backups, listed files. *)
Definition grows (w w' : world) : Prop :=
  sent w `prefix_of` sent w'
  /\ logged w `prefix_of` logged w'
  /\ longer (outputs w) (outputs w')
  /\ longer (backups w) (backups w')
  /\ longer (file_results w) (file_results w').

(** The results of [w] with one more file under ["errors"]. *)
Definition listed_errors (f : string) (w : world) : gmap string (list string) :=
  <["errors" := default [] (file_results w !! "errors") ++ [f]]> (file_results w).

(** An entry of the repository list: an object with a code and a URI,
    both texts. *)
Definition repository_entry (code uri : string) (o : json) : Prop :=
  exists d, o = JObj d
            /\ PyDict.lookup "repo_code" d = Some (JStr code)
            /\ PyDict.lookup "uri" d = Some (JStr uri).

Definition known_repository (o : json) : Prop := exists code uri, repository_entry code uri o.

Definition other_repository (name : string) (o : json) : Prop :=
  exists code uri, code <> name /\ repository_entry code uri o.

(** The year that [%y] reads from two digits: up to 68 in the 2000s,
    from 69 in the 1900s. *)
Definition century (yy : Z) : Z := if yy <=? 68 then 2000 + yy else 1900 + yy.

(** ** More remote APIs to run the tool against *)

(** A remote API that refuses every request. *)
Definition refusing_remote (history : list request) (req : request) : reply :=
  Response 404 (JObj [("error", JStr "Not found")]).

(** The payload last posted to [url], if any. *)
Fixpoint last_posted (url : string) (history : list request) : option json :=
  match history with
  | [] => None
  | req :: rest =>
      match last_posted url rest with
      | Some j => Some j
      | None =>
          match req_method req with
          | POST => if String.eqb (req_url req) url then req_json req else None
          | GET => None
          end
      end
  end.

(** A remote API that keeps what is posted: a record that was posted
    is served as posted, any other as by [demo_remote]. *)
Definition storing_remote (history : list request) (req : request) : reply :=
  match req_method req with
  | GET =>
      match last_posted (req_url req) history with
      | Some j => Response 200 j
      | None => demo_remote history req
      end
  | POST => demo_remote history req
  end.

(** A remote API whose agent search reports [hits] results. *)
Definition search_remote (hits : Z) (history : list request) (req : request) : reply :=
  Response 200 (JObj [("total_hits", JNum hits);
                      ("results", JArr [JObj [("uri", JStr "/agents/people/9")]])]).

(** A remote API whose records link no container and name one
    ancestor. *)
Definition bare_remote (history : list request) (req : request) : reply :=
  Response 200 (JObj [("instances", JArr []);
                      ("ancestors", JArr [JObj [("ref", JStr "repositories/11/resources/77")]])]).

(** ** Python strings: occurrences of a character *)

Lemma prefix_char (c x : ascii) (s : string) :
  String.prefix (String c "") (String x s) = Ascii.eqb c x.
Proof.
  simpl. destruct (ascii_dec c x) as [->|Hne].
  - rewrite Ascii.eqb_refl. destruct s; reflexivity.
  - symmetry. apply Ascii.eqb_neq. exact Hne.
Qed.

Lemma find_first_cons (sep : string) (x : ascii) (s : string) :
  PyStr.find_first sep (String x s)
  = if String.prefix sep (String x s)
    then Some (EmptyString, PyStr.drop (String.length sep) (String x s))
    else match PyStr.find_first sep s with
         | Some (b, a) => Some (String x b, a)
         | None => None
         end.
Proof. reflexivity. Qed.

Lemma find_last_cons (sep : string) (x : ascii) (s : string) :
  PyStr.find_last sep (String x s)
  = match PyStr.find_last sep s with
    | Some (b, a) => Some (String x b, a)
    | None => if String.prefix sep (String x s)
              then Some (EmptyString, PyStr.drop (String.length sep) (String x s))
              else None
    end.
Proof. reflexivity. Qed.

Lemma app_cons (x : ascii) (p s : string) : String x p +:+ s = String x (p +:+ s).
Proof. reflexivity. Qed.

Lemma app_nil (s : string) : "" +:+ s = s.
Proof. reflexivity. Qed.

Lemma contains_char_cons (c x : ascii) (s : string) :
  PyStr.contains (String c "") (String x s)
  = Ascii.eqb c x || PyStr.contains (String c "") s.
Proof.
  unfold PyStr.contains. rewrite find_first_cons, prefix_char.
  destruct (Ascii.eqb c x); [reflexivity|].
  simpl. destruct (PyStr.find_first (String c "") s) as [[b a]|]; reflexivity.
Qed.

Lemma find_last_absent (c : ascii) (s : string) :
  PyStr.contains (String c "") s = false -> PyStr.find_last (String c "") s = None.
Proof.
  induction s as [|x s IH]; intros H.
  - reflexivity.
  - rewrite contains_char_cons in H. apply orb_false_iff in H as [Hx Hs].
    rewrite find_last_cons, (IH Hs), prefix_char, Hx. reflexivity.
Qed.

Lemma find_last_app (c : ascii) (p a : string) :
  PyStr.contains (String c "") a = false ->
  PyStr.find_last (String c "") (p +:+ String c a) = Some (p, a).
Proof.
  intros Ha. induction p as [|x p IH].
  - rewrite app_nil, find_last_cons, (find_last_absent _ _ Ha), prefix_char, Ascii.eqb_refl.
    reflexivity.
  - rewrite app_cons, find_last_cons, IH. reflexivity.
Qed.

Lemma find_last_present (c : ascii) (a : string) :
  PyStr.find_last (String c "") a = None -> PyStr.contains (String c "") a = false.
Proof.
  induction a as [|y a IH]; intros E.
  - reflexivity.
  - rewrite find_last_cons in E. rewrite contains_char_cons.
    destruct (PyStr.find_last (String c "") a) as [[b' a']|]; [discriminate E|].
    rewrite prefix_char in E. destruct (Ascii.eqb c y); [discriminate E|].
    simpl. apply IH. reflexivity.
Qed.

Lemma find_last_split (c : ascii) (s b a : string) :
  PyStr.find_last (String c "") s = Some (b, a) ->
  s = b +:+ String c a /\ PyStr.contains (String c "") a = false.
Proof.
  revert b a. induction s as [|x s IH]; intros b a H.
  - discriminate H.
  - rewrite find_last_cons in H.
    destruct (PyStr.find_last (String c "") s) as [[b' a']|] eqn:E.
    + inversion H; subst. destruct (IH _ _ eq_refl) as [-> Hc]. split; [reflexivity|exact Hc].
    + rewrite prefix_char in H. destruct (Ascii.eqb c x) eqn:Ex; [|discriminate H].
      inversion H; subst. apply Ascii.eqb_eq in Ex as <-. split; [reflexivity|].
      apply find_last_present. exact E.
Qed.

Lemma find_first_app (c : ascii) (p a : string) :
  PyStr.contains (String c "") p = false ->
  PyStr.find_first (String c "") (p +:+ String c a) = Some (p, a).
Proof.
  induction p as [|x p IH]; intros Hp.
  - rewrite app_nil, find_first_cons, prefix_char, Ascii.eqb_refl. reflexivity.
  - rewrite contains_char_cons in Hp. apply orb_false_iff in Hp as [Hx Hp].
    rewrite app_cons, find_first_cons, prefix_char, Hx, (IH Hp). reflexivity.
Qed.

Lemma app_assoc_s (a b c : string) : (a +:+ b) +:+ c = a +:+ (b +:+ c).
Proof.
  induction a as [|x a IH].
  - reflexivity.
  - rewrite !app_cons, IH. reflexivity.
Qed.

Lemma contains_char_app (c : ascii) (a b : string) :
  PyStr.contains (String c "") (a +:+ b)
  = PyStr.contains (String c "") a || PyStr.contains (String c "") b.
Proof.
  induction a as [|x a IH].
  - reflexivity.
  - rewrite app_cons, !contains_char_cons, IH. apply orb_assoc.
Qed.

Lemma prefix_cons (c x : ascii) (sep s : string) :
  String.prefix (String c sep) (String x s) = Ascii.eqb c x && String.prefix sep s.
Proof.
  cbn [String.prefix]. destruct (ascii_dec c x) as [->|Hne].
  - rewrite Ascii.eqb_refl. reflexivity.
  - apply Ascii.eqb_neq in Hne. rewrite Hne. reflexivity.
Qed.

Lemma find_first_slash_hash (p a : string) :
  PyStr.contains "#" p = false ->
  PyStr.find_first "/#" (p +:+ "/#" +:+ a) = Some (p, a).
Proof.
  induction p as [|x p IH]; intros Hp.
  - destruct a; reflexivity.
  - rewrite contains_char_cons in Hp. apply orb_false_iff in Hp as [Hx Hp].
    rewrite app_cons, find_first_cons.
    assert (String.prefix "/#" (String x (p +:+ "/#" +:+ a)) = false) as ->.
    { rewrite prefix_cons. destruct (Ascii.eqb "/" x); [|reflexivity].
      destruct p as [|y p]; [reflexivity|].
      rewrite contains_char_cons in Hp. apply orb_false_iff in Hp as [Hy _].
      rewrite app_cons, prefix_char. exact Hy. }
    rewrite (IH Hp). reflexivity.
Qed.

Lemma replace_no_comma (s : string) :
  PyStr.contains "," (PyStr.replace "," "" s) = false.
Proof.
  unfold PyStr.replace. induction s as [|x s IH].
  - reflexivity.
  - cbn [PyStr.replace_aux]. rewrite prefix_char.
    destruct (Ascii.eqb "," x) eqn:Ex.
    + exact IH.
    + rewrite contains_char_cons, Ex. exact IH.
Qed.

(** ** Record builder: extents *)

(** C7.  [update_extents] gives at most two extents: a typed one, with
    number "1", exactly when the row's extent type is not empty, and then
    a bytes one, with the commas taken out of the byte count, exactly
    when the byte count is not empty; the container summary goes to the
    bytes extent alone.  Type "linear feet" without a byte count gives
    one extent without a summary; byte count "1,200" with summary
    "folder A" gives a bytes extent numbered "1200" with that summary. *)
Theorem update_extents_entries :
  (forall r : row,
      (length (update_extents r) <= 2)%nat
      /\ match String.eqb (Type_1 r) "", String.eqb (Number_of_bytes r) "" with
         | true, true => update_extents r = []
         | false, true => exists e, update_extents r = [e] /\ typed_entry r e
         | true, false => exists e, update_extents r = [e] /\ bytes_entry r e
         | false, false =>
             exists e1 e2, update_extents r = [e1; e2] /\ typed_entry r e1 /\ bytes_entry r e2
         end
      /\ PyStr.contains "," (PyStr.replace "," "" (Number_of_bytes r)) = false)
  /\ update_extents (csv_row "" "" "" "" "linear feet" "" "" "" no_event no_event no_event)
     = [JObj [("number", JStr "1"); ("portion", JStr "whole");
              ("extent_type", JStr "linear feet"); ("jsonmodel_type", JStr "extent")]]
  /\ update_extents (csv_row "" "" "" "" "" "1,200" "folder A" "" no_event no_event no_event)
     = [JObj [("number", JStr "1200"); ("portion", JStr "whole");
              ("extent_type", JStr "bytes"); ("jsonmodel_type", JStr "extent");
              ("container_summary", JStr "folder A")]].
Proof.
  split; [|split; reflexivity].
  intros r. unfold update_extents, typed_entry, bytes_entry.
  destruct (String.eqb (Type_1 r) ""), (String.eqb (Number_of_bytes r) "");
    cbn [negb app length]; (split; [lia|]); (split; [|apply replace_no_comma]).
  - reflexivity.
  - eexists. split; [reflexivity|].
    destruct (String.eqb (Container_Summary r) ""); repeat split; reflexivity.
  - eexists. split; [reflexivity|]. repeat split; reflexivity.
  - do 2 eexists. split; [reflexivity|].
    destruct (String.eqb (Container_Summary r) ""); repeat split; reflexivity.
Qed.

(** ** Identifiers taken from a row *)

(** C8.  [set_resource] reads the resource identifier from both shapes
    of the parent-record URL: the text before the separator, [/#] or a
    bare [#], and of that the part after its last slash.  Both sample
    URLs give "77". *)
Theorem set_resource_both_shapes :
  (forall (r : row) (base id frag : string),
      Parent_Record r = base +:+ "/" +:+ id +:+ "/#" +:+ frag ->
      PyStr.contains "#" base = false ->
      PyStr.contains "#" id = false ->
      PyStr.contains "/" id = false ->
      set_resource r = id)
  /\ (forall (r : row) (base id frag : string),
      Parent_Record r = base +:+ "/" +:+ id +:+ "#" +:+ frag ->
      PyStr.contains "/#" (Parent_Record r) = false ->
      PyStr.contains "#" base = false ->
      PyStr.contains "#" id = false ->
      PyStr.contains "/" id = false ->
      set_resource r = id)
  /\ (forall r : row,
      Parent_Record r = ".../repositories/2/resources/77#tree::archival_object_123" ->
      set_resource r = "77")
  /\ (forall r : row,
      Parent_Record r = ".../repositories/2/resources/77/#tree" ->
      set_resource r = "77").
Proof.
  assert (Hpath : forall base id, PyStr.contains "#" base = false ->
                    PyStr.contains "#" id = false ->
                    PyStr.contains "#" (base +:+ "/" +:+ id) = false).
  { intros base id Hb Hi. rewrite contains_char_app, Hb.
    change ("/" +:+ id) with (String "/" id). rewrite contains_char_cons, Hi. reflexivity. }
  assert (Hlast : forall base id, PyStr.contains "/" id = false ->
                    (PyStr.rpartition "/" (base +:+ "/" +:+ id)).2 = id).
  { intros base id Hi. unfold PyStr.rpartition.
    change ("/" +:+ id) with (String "/" id). rewrite (find_last_app _ _ _ Hi). reflexivity. }
  repeat split.
  - intros r base id frag HP Hb Hi Hs. unfold set_resource, PyStr.contains, PyStr.partition.
    rewrite HP.
    replace (base +:+ "/" +:+ id +:+ "/#" +:+ frag)
      with ((base +:+ "/" +:+ id) +:+ "/#" +:+ frag)
      by (rewrite !app_assoc_s; reflexivity).
    rewrite (find_first_slash_hash _ _ (Hpath _ _ Hb Hi)). cbn [fst]. apply Hlast, Hs.
  - intros r base id frag HP Hno Hb Hi Hs. unfold set_resource. rewrite Hno.
    unfold PyStr.partition. rewrite HP.
    replace (base +:+ "/" +:+ id +:+ "#" +:+ frag)
      with ((base +:+ "/" +:+ id) +:+ String "#" frag)
      by (rewrite !app_assoc_s; reflexivity).
    rewrite (find_first_app _ _ _ (Hpath _ _ Hb Hi)). cbn [fst]. apply Hlast, Hs.
  - intros r HP. unfold set_resource. rewrite HP. reflexivity.
  - intros r HP. unfold set_resource. rewrite HP. reflexivity.
Qed.

Lemma set_resource_both_shapes_witness :
  set_resource (csv_row "" "https://aspace/repositories/2/resources/77/#tree::archival_object_123"
                  "" "" "" "" "" "" no_event no_event no_event) = "77"
  /\ set_resource (csv_row "" "https://aspace/repositories/2/resources/77#tree::archival_object_123"
                  "" "" "" "" "" "" no_event no_event no_event) = "77".
Proof.
  split.
  - apply (proj1 set_resource_both_shapes _ "https://aspace/repositories/2/resources" "77"
             "tree::archival_object_123"); reflexivity.
  - apply (proj1 (proj2 set_resource_both_shapes) _ "https://aspace/repositories/2/resources"
             "77" "tree::archival_object_123"); reflexivity.
Defined.

(** ** Steps that send nothing to the remote API *)

Lemma quiet_ret {A} (a : A) : quiet (mret a).
Proof. intros w. reflexivity. Qed.

Lemma quiet_raise {A} (e : exn) : quiet (@raise A e).
Proof. intros w. reflexivity. Qed.

Lemma quiet_lift {A} (o : outcome A) : quiet (lift o).
Proof. intros w. reflexivity. Qed.

Lemma quiet_logging (entry : log_entry) : quiet (logging entry).
Proof. intros w. reflexivity. Qed.

Lemma quiet_write_line (path : string) (l : out_line) : quiet (write_line path l).
Proof. intros w. reflexivity. Qed.

Lemma quiet_file_result (key path : string) : quiet (file_result key path).
Proof. intros w. reflexivity. Qed.

Lemma quiet_create_backups (dirpath uri : string) (j : json) :
  quiet (create_backups dirpath uri j).
Proof. intros w. reflexivity. Qed.

Lemma sent_bind {A B} (m : M A) (k : A -> M B) (w : world) :
  (forall a, quiet (k a)) -> sent ((m ≫= k) w).2 = sent (m w).2.
Proof.
  intros Hk. unfold mbind, M_bind, bind.
  destruct (m w) as [[a|e] w']; [apply Hk|reflexivity].
Qed.

Lemma sent_try {A} (m : M A) (classes : exn -> bool) (h : exn -> M A) (w : world) :
  (forall e, quiet (h e)) -> sent (try_except m classes h w).2 = sent (m w).2.
Proof.
  intros Hh. unfold try_except.
  destruct (m w) as [[a|e] w']; [reflexivity|].
  destruct (classes e); [apply Hh|reflexivity].
Qed.

Lemma quiet_bind {A B} (m : M A) (k : A -> M B) :
  quiet m -> (forall a, quiet (k a)) -> quiet (m ≫= k).
Proof. intros Hm Hk w. rewrite sent_bind by exact Hk. apply Hm. Qed.

Lemma quiet_try {A} (m : M A) (classes : exn -> bool) (h : exn -> M A) :
  quiet m -> (forall e, quiet (h e)) -> quiet (try_except m classes h).
Proof. intros Hm Hh w. rewrite sent_try by exact Hh. apply Hm. Qed.

Create HintDb quiet.
#[export] Hint Resolve quiet_ret quiet_raise quiet_lift quiet_logging quiet_write_line
  quiet_file_result quiet_create_backups : quiet.

Ltac quiet_step :=
  match goal with
  | |- quiet (_ ≫= _) => apply quiet_bind; [|intros ?]
  | |- quiet (try_except _ _ _) => apply quiet_try; [|intros ?]
  | |- quiet (if ?b then _ else _) => destruct b
  | |- quiet (match ?x with _ => _ end) => destruct x
  | |- quiet _ => solve [auto with quiet]
  end.

Ltac quiet_all := repeat quiet_step.

Lemma quiet_get_action (input_file : string) : quiet (get_action input_file).
Proof. unfold get_action. quiet_all. Qed.

Lemma sent_get_record remote (url : string) (w : world) :
  sent (get_record remote url w).2
  = sent w ++ [{| req_method := GET; req_url := url; req_json := None |}].
Proof.
  unfold get_record, send, mbind, M_bind, bind. cbn [fst snd].
  destruct (remote (sent w) _) as [|st body]; [reflexivity|].
  destruct (st =? 200); reflexivity.
Qed.

Lemma sent_post_record remote (url : string) (j : json) (w : world) :
  sent (post_record remote url j w).2
  = sent w ++ [{| req_method := POST; req_url := url; req_json := Some j |}].
Proof.
  unfold post_record, send, mbind, M_bind, bind. cbn [fst snd].
  destruct (remote (sent w) _) as [|st body]; [reflexivity|].
  destruct (st =? 200); reflexivity.
Qed.

Lemma sent_update_archival_object remote (api_url : string) (r : row) (ao_id : string)
    (repo_id : json) (dirpath : string) (w : world) :
  sent (update_archival_object remote api_url r ao_id repo_id dirpath w).2
  = sent w ++ [{| req_method := GET;
                  req_url := api_url +:+ "/repositories/" +:+ py_str repo_id
                             +:+ "/archival_objects/" +:+ ao_id;
                  req_json := None |}].
Proof.
  unfold update_archival_object.
  rewrite sent_try by (intros e; quiet_all).
  rewrite sent_bind by (intros a; quiet_all).
  apply sent_get_record.
Qed.

(** ** Event recorder: dates that are neither parsed nor refused *)



(** ** Python dicts *)

Lemma lookup_set_eq (k : string) (v : json) (d : list (string * json)) :
  PyDict.lookup k (PyDict.set k v d) = Some v.
Proof.
  induction d as [|[k' v'] d IH]; cbn [PyDict.set PyDict.lookup].
  - rewrite String.eqb_refl. reflexivity.
  - destruct (String.eqb k k') eqn:E; cbn [PyDict.lookup]; rewrite E; [reflexivity|exact IH].
Qed.

Lemma lookup_set_ne (k k' : string) (v : json) (d : list (string * json)) :
  k <> k' -> PyDict.lookup k (PyDict.set k' v d) = PyDict.lookup k d.
Proof.
  intros Hne. induction d as [|[k0 v0] d IH]; cbn [PyDict.set PyDict.lookup].
  - apply String.eqb_neq in Hne. rewrite Hne. reflexivity.
  - destruct (String.eqb k' k0) eqn:E; cbn [PyDict.lookup].
    + apply String.eqb_eq in E. subst k0. apply String.eqb_neq in Hne. rewrite Hne. reflexivity.
    + destruct (String.eqb k k0); [reflexivity|exact IH].
Qed.

(** ** Running the monad *)

Lemma bind_ok_inv {A B} (m : M A) (k : A -> M B) (w w' : world) (b : B) :
  (m ≫= k) w = (Ok b, w') -> exists a w1, m w = (Ok a, w1) /\ k a w1 = (Ok b, w').
Proof.
  unfold mbind, M_bind, bind. destruct (m w) as [[a|e] w1]; intros H.
  - exists a, w1. split; [reflexivity|exact H].
  - discriminate H.
Qed.

Lemma bind_ok {A B} (m : M A) (k : A -> M B) (w w1 : world) (a : A) :
  m w = (Ok a, w1) -> (m ≫= k) w = k a w1.
Proof. intros H. unfold mbind, M_bind, bind. rewrite H. reflexivity. Qed.

Lemma bind_raise {A B} (m : M A) (k : A -> M B) (w w1 : world) (e : exn) :
  m w = (Raise e, w1) -> (m ≫= k) w = (Raise e, w1).
Proof. intros H. unfold mbind, M_bind, bind. rewrite H. reflexivity. Qed.

Lemma try_ok_inv {A} (m : M A) (classes : exn -> bool) (h : exn -> M A) (w w' : world) (a : A) :
  try_except m classes h w = (Ok a, w') ->
  m w = (Ok a, w')
  \/ exists e w1, m w = (Raise e, w1) /\ classes e = true /\ h e w1 = (Ok a, w').
Proof.
  unfold try_except. destruct (m w) as [[a0|e] w1]; intros H.
  - left. exact H.
  - destruct (classes e) eqn:E; [|discriminate H].
    right. exists e, w1. repeat split; [exact E|exact H].
Qed.

Lemma try_ok {A} (m : M A) (classes : exn -> bool) (h : exn -> M A) (w w' : world) (a : A) :
  m w = (Ok a, w') -> try_except m classes h w = (Ok a, w').
Proof. intros H. unfold try_except. rewrite H. reflexivity. Qed.

Lemma lift_ok_inv {A} (o : outcome A) (w w' : world) (a : A) :
  lift o w = (Ok a, w') -> o = Ok a /\ w' = w.
Proof. unfold lift. intros H. inversion H. split; reflexivity. Qed.

Lemma ret_ok_inv {A} (x a : A) (w w' : world) :
  (mret x : M A) w = (Ok a, w') -> a = x /\ w' = w.
Proof. intros H. inversion H. split; reflexivity. Qed.

Lemma get_record_ok_inv remote (url : string) (w w' : world) (j : json) :
  get_record remote url w = (Ok j, w') ->
  remote (sent w) {| req_method := GET; req_url := url; req_json := None |} = Response 200 j
  /\ w' = add_sent {| req_method := GET; req_url := url; req_json := None |} w.
Proof.
  unfold get_record, send, mbind, M_bind, bind.
  destruct (remote (sent w) _) as [|st body]; [discriminate|].
  destruct (Z.eqb_spec st 200) as [->|Hne]; intros H; inversion H.
  split; reflexivity.
Qed.

Lemma get_record_ok remote (url : string) (w : world) (j : json) :
  remote (sent w) {| req_method := GET; req_url := url; req_json := None |} = Response 200 j ->
  get_record remote url w
  = (Ok j, add_sent {| req_method := GET; req_url := url; req_json := None |} w).
Proof.
  intros H. unfold get_record, send, mbind, M_bind, bind. rewrite H. reflexivity.
Qed.

Lemma get_uris_set (k : string) (v : json) (d : list (string * json)) :
  k <> "instances" -> get_uris (JObj (PyDict.set k v d)) = get_uris (JObj d).
Proof.
  intros Hne. unfold get_uris, json_get. rewrite lookup_set_ne by congruence. reflexivity.
Qed.

Lemma instances_of_set (k : string) (v : json) (d : list (string * json)) :
  k <> "instances" -> instances_of (JObj (PyDict.set k v d)) = instances_of (JObj d).
Proof.
  intros Hne. unfold instances_of, field. rewrite lookup_set_ne by congruence. reflexivity.
Qed.

(** ** Record builder: the update path keeps the container links *)

(** C3.  [update_archival_object] removes no instance.  When it returns
    a record, the instances of that record are those of the fetched
    record, in their places, followed by one new instance for the row's
    container exactly when the row names a container that is not among
    the top-container references of the fetched record's non-digital
    instances.  A record with one container instance, updated by a row
    that names another container, comes back with exactly two. *)
Theorem update_keeps_container_instances :
  (forall remote api_url r ao_id repo_id dirpath w record' endpoint w',
      update_archival_object remote api_url r ao_id repo_id dirpath w
      = (Ok (Some (record', endpoint)), w') ->
      exists fetched,
        remote (sent w)
          {| req_method := GET;
             req_url := api_url +:+ "/repositories/" +:+ py_str repo_id
                        +:+ "/archival_objects/" +:+ ao_id;
             req_json := None |} = Response 200 fetched
        /\ instances_of record'
           = instances_of fetched
             ++ (if appended r fetched then [create_instance (Top_Container r)] else [])
        /\ (forall (i : nat) (x : json),
              instances_of fetched !! i = Some x -> instances_of record' !! i = Some x))
  /\ (forall remote api_url r ao_id repo_id dirpath w d inst u,
      remote (sent w)
        {| req_method := GET;
           req_url := api_url +:+ "/repositories/" +:+ py_str repo_id
                      +:+ "/archival_objects/" +:+ ao_id;
           req_json := None |} = Response 200 (JObj d) ->
      PyDict.lookup "instances" d = Some (JArr [inst]) ->
      get_uris_loop [inst] [] = Ok [u] ->
      py_in (Top_Container r) [JStr ""; JNull] = false ->
      py_eq (Top_Container r) u = false ->
      exists record' endpoint w',
        update_archival_object remote api_url r ao_id repo_id dirpath w
        = (Ok (Some (record', endpoint)), w')
        /\ instances_of record' = [inst; create_instance (Top_Container r)]).
Proof.
  assert (Hframe : forall remote api_url r ao_id repo_id dirpath w record' endpoint w',
      update_archival_object remote api_url r ao_id repo_id dirpath w
      = (Ok (Some (record', endpoint)), w') ->
      exists fetched,
        remote (sent w)
          {| req_method := GET;
             req_url := api_url +:+ "/repositories/" +:+ py_str repo_id
                        +:+ "/archival_objects/" +:+ ao_id;
             req_json := None |} = Response 200 fetched
        /\ instances_of record'
           = instances_of fetched
             ++ (if appended r fetched then [create_instance (Top_Container r)] else [])).
  { intros remote api_url r ao_id repo_id dirpath w record' endpoint w'.
    unfold update_archival_object. intros H.
    apply try_ok_inv in H as [H|(e & w1 & _ & _ & H)]; [|discriminate H].
    apply bind_ok_inv in H as (fetched & w1 & Hget & H).
    apply get_record_ok_inv in Hget as [Hget ->].
    exists fetched. split; [exact Hget|].
    apply bind_ok_inv in H as ([] & w2 & _ & H).
    apply bind_ok_inv in H as (rec1 & w3 & H1 & H).
    apply lift_ok_inv in H1 as [H1 ->].
    apply bind_ok_inv in H as (rec2 & w4 & H2 & H).
    apply lift_ok_inv in H2 as [H2 ->].
    apply bind_ok_inv in H as (rec3 & w5 & H3 & H).
    apply ret_ok_inv in H as [H _]. inversion H; subst record' endpoint; clear H.
    destruct fetched as [| | | | |d]; try discriminate H1.
    cbn [json_setitem] in H1. inversion H1; subst rec1; clear H1.
    cbn [json_setitem] in H2. inversion H2; subst rec2; clear H2.
    unfold appended.
    destruct (negb (py_in (Top_Container r) [JStr ""; JNull])); cbn [andb].
    - apply bind_ok_inv in H3 as (uris & w6 & Hu & H3).
      apply lift_ok_inv in Hu as [Hu ->].
      rewrite !get_uris_set in Hu by discriminate. rewrite Hu.
      destruct (negb (py_in (Top_Container r) uris)).
      + apply lift_ok_inv in H3 as [H3 _].
        unfold json_append_at, obind, json_item in H3.
        destruct (PyDict.lookup "instances" _) as [l|] eqn:El; [|discriminate H3].
        destruct l as [| | | |items|]; try discriminate H3.
        cbn [json_setitem] in H3. inversion H3; subst rec3; clear H3.
        rewrite !lookup_set_ne in El by discriminate.
        unfold instances_of, field. rewrite lookup_set_eq, El. reflexivity.
      + apply ret_ok_inv in H3 as [-> _].
        rewrite !instances_of_set by discriminate. rewrite app_nil_r. reflexivity.
    - apply ret_ok_inv in H3 as [-> _].
      rewrite !instances_of_set by discriminate. rewrite app_nil_r. reflexivity. }
  split.
  - intros remote api_url r ao_id repo_id dirpath w record' endpoint w' H.
    destruct (Hframe _ _ _ _ _ _ _ _ _ _ H) as (fetched & Hget & Hinst).
    exists fetched. split; [exact Hget|]. split; [exact Hinst|].
    intros i x Hi. rewrite Hinst. apply lookup_app_l_Some. exact Hi.
  - intros remote api_url r ao_id repo_id dirpath w d inst u Hget Hinst Huris Hin Hne.
    assert (Hu : forall k1 v1 k2 v2, k1 <> "instances" -> k2 <> "instances" ->
               get_uris (JObj (PyDict.set k2 v2 (PyDict.set k1 v1 d))) = Ok [u]).
    { intros. rewrite !get_uris_set by assumption.
      unfold get_uris, json_get. rewrite Hinst. exact Huris. }
    do 3 eexists. split.
    + unfold update_archival_object. apply try_ok.
      erewrite bind_ok by (apply get_record_ok; exact Hget).
      erewrite bind_ok by reflexivity.
      erewrite bind_ok by reflexivity.
      erewrite bind_ok by reflexivity.
      rewrite Hin. cbn [negb].
      erewrite bind_ok; [reflexivity|].
      erewrite bind_ok by (unfold lift; rewrite Hu by discriminate; reflexivity).
      cbn [py_in existsb]. rewrite Hne. cbn [orb negb].
      unfold lift, json_append_at, obind, json_item.
      rewrite !lookup_set_ne by discriminate. rewrite Hinst. reflexivity.
    + unfold instances_of, field. rewrite lookup_set_eq. reflexivity.
Qed.

Lemma update_keeps_container_instances_witness :
  exists record' endpoint w',
    update_archival_object demo_remote "https://aspace/api"
      (set_Top_Container (JStr "/repositories/11/top_containers/3")
         (csv_row "BRBL" "x_7" "" "c7" "" "" "" "" no_event no_event no_event))
      "7" (JStr "11") "/drive/backups" fresh
    = (Ok (Some (record', endpoint)), w')
    /\ instances_of record'
       = instances_of demo_record
         ++ [create_instance (JStr "/repositories/11/top_containers/3")].
Proof.
  do 3 eexists. split; [vm_compute; reflexivity|].
  destruct (proj1 update_keeps_container_instances demo_remote "https://aspace/api"
              (set_Top_Container (JStr "/repositories/11/top_containers/3")
                 (csv_row "BRBL" "x_7" "" "c7" "" "" "" "" no_event no_event no_event))
              "7" (JStr "11") "/drive/backups" fresh _ _ _ eq_refl)
    as (fetched & Hget & Hinst & _).
  vm_compute in Hget. inversion Hget; subst fetched. exact Hinst.
Defined.

(** ** Dates *)

Lemma check_dates_no_separator (date_value : string) :
  PyStr.contains "/" date_value = false ->
  PyStr.contains "-" date_value = false ->
  check_dates date_value = Raise (DataValidationError (JStr date_value) "YYYY-MM-DD").
Proof. intros Hs Hh. unfold check_dates. rewrite Hs, Hh. reflexivity. Qed.

(** C2.  [check_dates] on the dates of the specification: the three
    slash shapes come back as "2024-03-04", and a text without slash or
    hyphen raises [DataValidationError].  The other two do not:
    "13/45/2024" leaves [strptime] with a [ValueError], and a hyphenated
    date of ten characters, "2024-03-04", is neither converted nor
    refused. *)
Theorem check_dates_on_other_shapes :
  check_dates "03/04/2024" = Ok (Some "2024-03-04")
  /\ check_dates "03/04/24" = Ok (Some "2024-03-04")
  /\ check_dates "2024/03/04" = Ok (Some "2024-03-04")
  /\ check_dates "3-4-24" = Ok (Some "2024-03-04")
  /\ check_dates "March 4" = Raise (DataValidationError (JStr "March 4") "YYYY-MM-DD")
  /\ check_dates "03/04/202" = Raise (DataValidationError (JStr "03/04/202") "YYYY-MM-DD")
  /\ check_dates "13/45/2024" = Raise ValueError
  /\ check_dates "2024-03-04" = Ok None.
Proof. repeat split; reflexivity. Qed.

(** ** Event recorder: one slot with a date that [strptime] refuses *)

Lemma event_helper_value_error remote (api_url : string) (agent_uri record_uri repo_id : json)
    (event_type outcome_ begin_date outcome_note : string) (w : world) :
  check_dates begin_date = Raise ValueError ->
  event_helper remote api_url agent_uri record_uri repo_id event_type outcome_ begin_date
    outcome_note w
  = (Raise ValueError, w).
Proof.
  intros H. unfold event_helper, create_event, try_except, mbind, M_bind, bind, lift.
  rewrite H. reflexivity.
Qed.

Lemma event_helper_refused_date remote (api_url : string) (agent_uri record_uri repo_id : json)
    (event_type outcome_ begin_date outcome_note : string) (v : json) (c : string)
    (w : world) :
  check_dates begin_date = Raise (DataValidationError v c) ->
  event_helper remote api_url agent_uri record_uri repo_id event_type outcome_ begin_date
    outcome_note w
  = (Ok JNull, add_logged [log_exception (DataValidationError v c);
                           log_exception (DataValidationError JNull "")] w).
Proof.
  intros H. unfold event_helper, create_event, try_except, mbind, M_bind, bind, lift.
  rewrite H. cbn. unfold add_logged. rewrite <- app_assoc. reflexivity.
Qed.

(** A first event whose date [strptime] refuses: [post_events] raises
    the [ValueError] and has sent nothing. *)
Lemma post_events_value_error remote (r : row) (agent_uri repo_id record_uri : json)
    (api_url : string) (w : world) :
  Event_Type_1 r <> "" ->
  check_dates (Begin_1 r) = Raise ValueError ->
  post_events remote r agent_uri repo_id record_uri api_url w = (Raise ValueError, w).
Proof.
  intros Hty Hdate. unfold post_events, try_except.
  apply String.eqb_neq in Hty. rewrite Hty. cbn [negb].
  erewrite bind_raise.
  2: { erewrite bind_raise; [reflexivity|]. apply event_helper_value_error, Hdate. }
  reflexivity.
Qed.

(** C5.  A row whose first event is dated "13/45/2024" and whose second
    event is in order: the [ValueError] of the first slot passes every
    handler of the event recorder, [post_events] raises it having posted
    nothing, the row is not written and the run ends there, in the
    handler of [main], which logs the error and then the row: the record
    was posted, no event was.  With a first date that [check_dates]
    itself refuses, "March 4", the first slot is [None] in the mapping
    and the second is posted. *)
Theorem bad_event_date_ends_the_run :
  post_events demo_remote (event_row "13/45/2024") (JStr "/agents/people/5") (JStr "11")
    (JStr "/repositories/11/archival_objects/900") "https://aspace/api" fresh
  = (Raise ValueError, fresh)
  /\ (let run := main demo_remote demo_config ["box_create.csv"]
                  (fun _ => [event_row "13/45/2024"]) fresh in
      run.1 = Ok false
      /\ outputs run.2 !! "/drive/outputs/box_create_out.csv" = Some [Header]
      /\ calls run.2
         = [(POST, "https://aspace/api/users/das/login?password=secret");
            (GET, "https://aspace/api/repositories");
            (GET, "https://aspace/api/users/current-user");
            (POST, "https://aspace/api/repositories/11/archival_objects")]
      /\ logged run.2
         = [log_debug "Login successful!: https://aspace/api";
            log_debug "/drive/box_create.csv";
            log_exception ValueError;
            log_debug_row
              (set_New_Component_URI (JStr "/repositories/11/archival_objects/900")
                 (event_row "13/45/2024"))]
      /\ file_results run.2 = ∅)
  /\ (let res := post_events demo_remote (event_row "March 4") (JStr "/agents/people/5")
                  (JStr "11") (JStr "/repositories/11/archival_objects/900")
                  "https://aspace/api" fresh in
      res.1 = Ok (Some (<["Event_URI_2" := JStr "/repositories/11/events/1"]>
                          (<["Event_URI_1" := JNull]> ∅)))
      /\ calls res.2 = [(POST, "https://aspace/api/repositories/11/events")]
      /\ logged res.2
         = [log_exception (DataValidationError (JStr "March 4") "YYYY-MM-DD");
            log_exception (DataValidationError JNull "")]).
Proof. vm_compute. repeat split; reflexivity. Qed.

(** ** Row pipeline: the container cache *)

(** C4.  Three rows in boxes "1", "2" and "2".  The box of every row
    is compared with the box of the first row of the file, so the third
    row, in the same box as the second, has its containers looked up
    again: the archival object is fetched for the second row and for the
    third. *)
Theorem same_box_looked_up_twice :
  let run := main demo_remote demo_config ["box_create.csv"]
               (fun _ => [box_row "https://aspace/resources/77#tree::archival_object_101" "c1" "1";
                          box_row "https://aspace/resources/77#tree::archival_object_102" "c2" "2";
                          box_row "https://aspace/resources/77#tree::archival_object_103" "c3" "2"])
               fresh in
  run.1 = Ok true
  /\ calls run.2
     = [(POST, "https://aspace/api/users/das/login?password=secret");
        (GET, "https://aspace/api/repositories");
        (GET, "https://aspace/api/users/current-user");
        (GET, "https://aspace/api/repositories/11/archival_objects/101");
        (GET, "https://aspace/api/repositories/11/top_containers/1");
        (GET, "https://aspace/api/repositories/11/top_containers/2");
        (POST, "https://aspace/api/repositories/11/archival_objects");
        (GET, "https://aspace/api/repositories/11/archival_objects/102");
        (GET, "https://aspace/api/repositories/11/top_containers/1");
        (GET, "https://aspace/api/repositories/11/top_containers/2");
        (POST, "https://aspace/api/repositories/11/archival_objects");
        (GET, "https://aspace/api/repositories/11/archival_objects/103");
        (GET, "https://aspace/api/repositories/11/top_containers/1");
        (GET, "https://aspace/api/repositories/11/top_containers/2");
        (POST, "https://aspace/api/repositories/11/archival_objects")].
Proof. vm_compute. split; reflexivity. Qed.

(** ** Row pipeline: a failure at the post step *)

Lemma process_file_as_complete remote cfg api_url read_csv vars input_csv_file first_row act
    (w w' : world) (vars' : locals) :
  process_file_as remote cfg api_url read_csv vars input_csv_file first_row act w
  = (Ok vars', w') ->
  exists l, file_results w' !! "complete" = Some (l ++ [input_csv_file]).
Proof.
  unfold process_file_as. intros H.
  apply bind_ok_inv in H as (repo & w1 & _ & H).
  apply bind_ok_inv in H as (agent & w2 & _ & H).
  apply bind_ok_inv in H as (vars1 & w3 & _ & H).
  apply bind_ok_inv in H as ([] & w4 & _ & H).
  apply bind_ok_inv in H as (vars2 & w5 & _ & H).
  apply bind_ok_inv in H as ([] & w6 & Hdone & H).
  apply ret_ok_inv in H as [_ ->].
  unfold file_result in Hdone. inversion Hdone; subst w6. cbn [file_results].
  exists (default [] (file_results w5 !! "complete")). apply lookup_insert_eq.
Qed.

Lemma post_failed_lists_errors (input_csv_file : string) (r : row) (vars : locals) (err : exn)
    (w : world) :
  exists w',
    post_failed input_csv_file r vars err w = (Ok (Break, vars), w')
    /\ outputs w' = outputs w
    /\ sent w' = sent w
    /\ file_results w' !! "errors"
       = Some (default [] (file_results w !! "errors") ++ [input_csv_file]).
Proof.
  eexists. split; [reflexivity|]. cbn. repeat split. apply lookup_insert_eq.
Qed.

(** C1.  A file of three rows whose second row the remote API refuses
    at the post step.  The first row stays in the output file, the second
    is logged, no request is made for the third, and the file is listed
    under [errors]; it is listed under [complete] as well, where the line
    after the loop puts every file. *)
Theorem post_failure_lists_file_twice :
  let run := main demo_remote demo_config ["box_create.csv"]
               (fun _ => [box_row "https://aspace/resources/77#tree::archival_object_101" "c1" "1";
                          box_row "https://aspace/resources/77#tree::archival_object_102" "bad" "1";
                          box_row "https://aspace/resources/77#tree::archival_object_103" "c3" "1"])
               fresh in
  run.1 = Ok true
  /\ outputs run.2 !! "/drive/outputs/box_create_out.csv"
     = Some [Header;
             Line (set_New_Component_URI (JStr "/repositories/11/archival_objects/900")
                     (set_Top_Container (JStr "/repositories/11/top_containers/1")
                        (box_row "https://aspace/resources/77#tree::archival_object_101"
                           "c1" "1")))]
  /\ calls run.2
     = [(POST, "https://aspace/api/users/das/login?password=secret");
        (GET, "https://aspace/api/repositories");
        (GET, "https://aspace/api/users/current-user");
        (GET, "https://aspace/api/repositories/11/archival_objects/101");
        (GET, "https://aspace/api/repositories/11/top_containers/1");
        (GET, "https://aspace/api/repositories/11/top_containers/2");
        (POST, "https://aspace/api/repositories/11/archival_objects");
        (POST, "https://aspace/api/repositories/11/archival_objects")]
  /\ file_results run.2 !! "errors" = Some ["/drive/box_create.csv"]
  /\ file_results run.2 !! "complete" = Some ["/drive/box_create.csv"].
Proof. vm_compute. repeat split; reflexivity. Qed.

(** ** File sweep: a file name without [create] or [update] *)

Lemma get_action_unnamed (input_file : string) (w : world) :
  set_action_type input_file = Raise (FileNameError input_file) ->
  get_action input_file w
  = (Ok None, add_logged [log_exception (FileNameError input_file)] w).
Proof.
  intros H. unfold get_action, try_except, mbind, M_bind, bind, lift. rewrite H.
  reflexivity.
Qed.

(** A session that was opened has cost one request, the login. *)
Lemma get_session_logs_in remote (cfg : config) (api_url : string) (w w' : world) :
  get_session remote cfg w = (Ok (Some api_url), w') ->
  exists req, sent w' = sent w ++ [req] /\ req_method req = POST.
Proof.
  unfold get_session. intros H.
  apply try_ok_inv in H as [H|(e & w1 & _ & _ & H)]; [|discriminate H].
  apply bind_ok_inv in H as (url & w1 & Hstart & H).
  apply ret_ok_inv in H as [_ ->].
  unfold start_session in Hstart.
  destruct (get_credentials cfg) as [[u n] pw].
  apply bind_ok_inv in Hstart as (rep & w2 & Hsend & Hstart).
  unfold send in Hsend. inversion Hsend; subst rep w2; clear Hsend.
  exists {| req_method := POST;
            req_url := u +:+ "/users/" +:+ n +:+ "/login?password=" +:+ pw;
            req_json := None |}.
  split; [|reflexivity].
  destruct (remote (sent w) _) as [|st body]; [discriminate Hstart|].
  destruct (st =? 200); [|discriminate Hstart].
  apply bind_ok_inv in Hstart as ([] & w3 & Hlog & Hstart).
  unfold logging in Hlog. inversion Hlog; subst w3; clear Hlog.
  apply bind_ok_inv in Hstart as (tok & w4 & Htok & Hstart).
  apply lift_ok_inv in Htok as [_ ->].
  apply ret_ok_inv in Hstart as [_ ->]. reflexivity.
Qed.

(** C6, as the specification has it, fails on a drive that holds the one
    file [notes.csv]: the run has logged in, one request, before it looks
    at any file name; the [FileNameError] is logged after the login and
    caught, the repository and the agent are then asked for, and the run
    ends on another error. *)
Lemma file_name_error_after_login :
  let read_csv := fun _ : string =>
    [box_row "https://aspace/resources/77#tree::archival_object_101" "c1" ""] in
  let run := main_try demo_remote demo_config ["notes.csv"] read_csv fresh in
  ~ (exists w, run = (Raise (FileNameError "/drive/notes.csv"), w) /\ sent w = [])
  /\ sent (get_session demo_remote demo_config fresh).2 = [login_request]
  /\ run.1 = Raise (UnboundLocalError "endpoint")
  /\ calls run.2
     = [(POST, "https://aspace/api/users/das/login?password=secret");
        (GET, "https://aspace/api/repositories");
        (GET, "https://aspace/api/users/current-user")]
  /\ logged run.2
     = [log_debug "Login successful!: https://aspace/api";
        log_debug "/drive/notes.csv";
        log_exception (FileNameError "/drive/notes.csv")].
Proof.
  cbv zeta. split.
  - intros (w & Hrun & _). apply (f_equal fst) in Hrun. vm_compute in Hrun. discriminate Hrun.
  - vm_compute. repeat split; reflexivity.
Qed.

(** C6, amended.  For a file name that holds neither [create] nor
    [update], in any case of letters, [set_action_type] raises
    [FileNameError]; [get_action] logs it and returns no action, and
    sends nothing.  In the turn of the file sweep for that file the error
    is raised and logged before any request is made for the file: what
    follows [get_action] starts in the world the turn started in, two log
    entries apart.  The session the turn runs in was opened by the login
    request. *)
Theorem file_name_error_before_file_requests (input_csv_file : string) :
  PyStr.contains "create" (PyStr.lower input_csv_file) = false ->
  PyStr.contains "update" (PyStr.lower input_csv_file) = false ->
  set_action_type input_csv_file = Raise (FileNameError input_csv_file)
  /\ (forall w,
        get_action input_csv_file w
        = (Ok None, add_logged [log_exception (FileNameError input_csv_file)] w))
  /\ (forall remote cfg api_url read_csv vars first_row rest w,
        read_csv input_csv_file = first_row :: rest ->
        process_file remote cfg api_url read_csv vars input_csv_file w
        = process_file_as remote cfg api_url read_csv vars input_csv_file first_row None
            (add_logged [log_debug input_csv_file;
                         log_exception (FileNameError input_csv_file)] w))
  /\ (forall remote cfg api_url w w',
        get_session remote cfg w = (Ok (Some api_url), w') ->
        exists req, sent w' = sent w ++ [req] /\ req_method req = POST).
Proof.
  intros Hc Hu.
  assert (Hset : set_action_type input_csv_file = Raise (FileNameError input_csv_file)).
  { unfold set_action_type. rewrite Hc, Hu. reflexivity. }
  split; [exact Hset|]. split; [|split].
  - intros w. apply get_action_unnamed, Hset.
  - intros remote cfg api_url read_csv vars first_row rest w Hread.
    unfold process_file. rewrite Hread. cbn [get_row_data].
    erewrite bind_ok by reflexivity. cbn beta.
    erewrite bind_ok by reflexivity. cbn beta iota.
    erewrite bind_ok by (apply get_action_unnamed, Hset). cbn beta.
    unfold add_logged. cbn [sent logged outputs backups file_results].
    rewrite <- app_assoc. reflexivity.
  - intros remote cfg api_url w w'. apply get_session_logs_in.
Qed.

Lemma file_name_error_before_file_requests_witness :
  set_action_type "/drive/notes.csv" = Raise (FileNameError "/drive/notes.csv").
Proof.
  apply (file_name_error_before_file_requests "/drive/notes.csv"); reflexivity.
Defined.

(** ** Container resolver: matching an indicator *)

(** X1.  [match_containers] returns the URI of the first pair whose
    indicator equals the container number, and raises
    [RecordNotFoundError] with that number exactly when no pair has it. *)
Theorem match_containers_first (container_list : list (json * json)) (container_number : json) :
  match match_containers container_list container_number with
  | Ok uri =>
      exists before indicator after,
        container_list = before ++ (uri, indicator) :: after
        /\ py_eq indicator container_number = true
        /\ forall p, p ∈ before -> py_eq p.2 container_number = false
  | Raise e =>
      e = RecordNotFoundError container_number
      /\ forall p, p ∈ container_list -> py_eq p.2 container_number = false
  end.
Proof.
  induction container_list as [|[uri indicator] rest IH]; cbn [match_containers].
  - split; [reflexivity|]. intros p Hp. inversion Hp.
  - destruct (py_eq indicator container_number) eqn:E.
    + exists [], indicator, rest. repeat split; [exact E|].
      intros p Hp. inversion Hp.
    + destruct (match_containers rest container_number) as [u|e].
      * destruct IH as (before & ind & after & -> & Hind & Hbefore).
        exists ((uri, indicator) :: before), ind, after. repeat split; [exact Hind|].
        intros p Hp. apply elem_of_cons in Hp as [->|Hp]; [exact E|apply Hbefore, Hp].
      * destruct IH as [-> Hall]. split; [reflexivity|].
        intros p Hp. apply elem_of_cons in Hp as [->|Hp]; [exact E|apply Hall, Hp].
Qed.

Lemma match_containers_raises (container_list : list (json * json)) (container_number : json)
    (e : exn) :
  match_containers container_list container_number = Raise e ->
  e = RecordNotFoundError container_number.
Proof.
  induction container_list as [|[uri indicator] rest IH]; cbn [match_containers]; intros H.
  - inversion H. reflexivity.
  - destruct (py_eq indicator container_number); [discriminate H|exact (IH H)].
Qed.

(** X2.  [get_matched_containers] never raises and touches neither the
    remote API nor the files: it returns the matched URI, or [None]
    after logging the exception and the container list, also when the
    container list itself is [None]. *)
Theorem get_matched_containers_total (container_list : option (list (json * json)))
    (container_number : json) (w : world) :
  exists uri w',
    get_matched_containers container_list container_number w = (Ok uri, w')
    /\ sent w' = sent w /\ outputs w' = outputs w /\ file_results w' = file_results w
    /\ match container_list with
       | Some l =>
           match match_containers l container_number with
           | Ok found => uri = found /\ w' = w
           | Raise e =>
               uri = JNull
               /\ w' = add_logged
                         [log_exception (RecordNotFoundError container_number);
                          log_debug_json (JArr (map (fun p => JArr [p.1; p.2]) l))] w
           end
       | None =>
           uri = JNull
           /\ w' = add_logged [log_exception TypeError; log_debug_json JNull] w
       end.
Proof.
  unfold get_matched_containers, try_except, lift, raise.
  destruct container_list as [l|].
  - destruct (match_containers l container_number) as [found|e] eqn:H.
    + exists found, w. repeat split; reflexivity.
    + apply match_containers_raises in H as ->. eexists _, _. split; [reflexivity|].
      cbn. repeat split. unfold add_logged. cbn. rewrite <- app_assoc. reflexivity.
  - eexists _, _. split; [reflexivity|].
    cbn. repeat split. unfold add_logged. cbn. rewrite <- app_assoc. reflexivity.
Qed.

(** ** Container links of a record *)

Lemma get_uris_loop_app (l1 l2 acc : list json) :
  get_uris_loop (l1 ++ l2) acc = obind (get_uris_loop l1 acc) (get_uris_loop l2).
Proof.
  revert acc. induction l1 as [|inst l1 IH]; intros acc; [reflexivity|].
  cbn [app get_uris_loop].
  destruct (json_get "instance_type" inst) as [ty|e]; [|reflexivity]. cbn [obind].
  destruct (negb (py_eq ty (JStr "digital_object"))); [|apply IH].
  destruct (json_item "sub_container" inst) as [sc|e]; [|reflexivity]. cbn [obind].
  destruct (json_item "top_container" sc) as [tc|e]; [|reflexivity]. cbn [obind].
  destruct (json_item "ref" tc) as [ref|e]; [|reflexivity]. cbn [obind].
  apply IH.
Qed.

Lemma get_uris_appended (d : list (string * json)) (instances uris : list json) (u : json) :
  PyDict.lookup "instances" d = Some (JArr instances) ->
  get_uris (JObj d) = Ok uris ->
  get_uris (JObj (PyDict.set "instances" (JArr (instances ++ [create_instance u])) d))
  = Ok (uris ++ [u]).
Proof.
  intros Hl Hu. unfold get_uris, json_get in Hu. rewrite Hl in Hu.
  change (get_uris_loop instances [] = Ok uris) in Hu.
  unfold get_uris, json_get. rewrite lookup_set_eq.
  change (get_uris_loop (instances ++ [create_instance u]) [] = Ok (uris ++ [u])).
  rewrite get_uris_loop_app, Hu. reflexivity.
Qed.

(** X4.  [get_uris] lists, in order, the top-container references of
    the instances that are not digital objects.  An instance built by
    [create_instance] and added to a record is read back as its container
    URI, at the end; a digital-object instance adds nothing; there are
    never more URIs than instances. *)
Theorem get_uris_reads_back (d : list (string * json)) (instances : list json)
    (uris : list json) :
  PyDict.lookup "instances" d = Some (JArr instances) ->
  get_uris (JObj d) = Ok uris ->
  (forall u : json,
      get_uris (JObj (PyDict.set "instances" (JArr (instances ++ [create_instance u])) d))
      = Ok (uris ++ [u]))
  /\ (forall digital : list (string * json),
      PyDict.lookup "instance_type" digital = Some (JStr "digital_object") ->
      get_uris (JObj (PyDict.set "instances" (JArr (instances ++ [JObj digital])) d))
      = Ok uris)
  /\ (length uris <= length instances)%nat.
Proof.
  intros Hl Hu. split; [intros u; apply get_uris_appended; assumption|].
  unfold get_uris, json_get in Hu. rewrite Hl in Hu.
  change (get_uris_loop instances [] = Ok uris) in Hu.
  split.
  - intros digital Hd. unfold get_uris, json_get. rewrite lookup_set_eq.
    change (get_uris_loop (instances ++ [JObj digital]) [] = Ok uris).
    rewrite get_uris_loop_app, Hu. cbn [obind get_uris_loop json_get].
    rewrite Hd. reflexivity.
  - clear Hl. assert (H : forall l acc us, get_uris_loop l acc = Ok us ->
                        (length us <= length acc + length l)%nat).
    { clear. induction l as [|inst l IH]; intros acc us H; cbn [get_uris_loop] in H.
      - inversion H. cbn. lia.
      - destruct (json_get "instance_type" inst) as [ty|e]; [|discriminate H]. cbn [obind] in H.
        destruct (negb (py_eq ty (JStr "digital_object"))).
        + destruct (json_item "sub_container" inst) as [sc|e]; [|discriminate H].
          cbn [obind] in H.
          destruct (json_item "top_container" sc) as [tc|e]; [|discriminate H].
          cbn [obind] in H.
          destruct (json_item "ref" tc) as [ref|e]; [|discriminate H]. cbn [obind] in H.
          apply IH in H. rewrite length_app in H. cbn in *. lia.
        + apply IH in H. cbn. lia. }
    apply H in Hu. cbn in Hu. lia.
Qed.

Lemma get_uris_reads_back_witness :
  get_uris (JObj (PyDict.set "instances"
                    (JArr ([container_instance "/repositories/11/top_containers/1"]
                           ++ [create_instance (JStr "/repositories/11/top_containers/2")]))
                    [("instances", JArr [container_instance "/repositories/11/top_containers/1"])]))
  = Ok ([JStr "/repositories/11/top_containers/1"]
        ++ [JStr "/repositories/11/top_containers/2"]).
Proof.
  apply (proj1 (get_uris_reads_back
                  [("instances", JArr [container_instance "/repositories/11/top_containers/1"])]
                  [container_instance "/repositories/11/top_containers/1"]
                  [JStr "/repositories/11/top_containers/1"] eq_refl eq_refl)).
Defined.

(** X3.  The payload of [create_archival_object]: a blank title
    becomes "[no label]", the extents are those of [update_extents], and
    the record links one container, the row's, exactly when the row names
    one; [get_uris] reads that link back. *)
Theorem create_archival_object_payload (r : row) (repo_id : json)
    (parent_id resource_id : string) :
  let payload := (create_archival_object r repo_id parent_id resource_id).1 in
  (create_archival_object r repo_id parent_id resource_id).2
  = "/repositories/" +:+ py_str repo_id +:+ "/archival_objects"
  /\ field "title" payload
     = Some (JStr (if String.eqb (Title r) "" then "[no label]" else Title r))
  /\ field "component_id" payload = Some (JStr (Component_Unique_ID r))
  /\ field "extents" payload = Some (JArr (update_extents r))
  /\ instances_of payload
     = (if py_in (Top_Container r) [JStr ""; JNull] then []
        else [create_instance (Top_Container r)])
  /\ get_uris payload
     = Ok (if py_in (Top_Container r) [JStr ""; JNull] then [] else [Top_Container r]).
Proof.
  unfold create_archival_object.
  destruct (String.eqb (Title r) ""), (py_in (Top_Container r) [JStr ""; JNull]);
    repeat split; reflexivity.
Qed.

(** X5.  The record identifier is what follows the last underscore of
    the parent-record reference: for a reference [head_id] whose [id] has
    no underscore, [set_parent] gives [id], and the row is processed with
    [id] as its record identifier when [id] is not empty. *)
Theorem record_id_after_last_underscore (r : row) (head id : string) :
  Parent_Record r = head +:+ "_" +:+ id ->
  PyStr.contains "_" id = false ->
  set_parent r = id
  /\ (forall remote api_url drive_path input_csv_file output_csv_file act repo_identifier
        agent_uri previous_container vars,
        id <> "" ->
        process_row remote api_url drive_path input_csv_file output_csv_file act
          repo_identifier agent_uri previous_container vars r
        = row_body remote api_url drive_path input_csv_file output_csv_file act
            repo_identifier agent_uri previous_container id vars r).
Proof.
  intros HP Hid.
  assert (H : (PyStr.rpartition "_" (Parent_Record r)).2 = id).
  { unfold PyStr.rpartition. rewrite HP.
    change ("_" +:+ id) with (String "_" id). rewrite (find_last_app _ _ _ Hid). reflexivity. }
  split; [exact H|].
  intros. unfold process_row. rewrite H.
  destruct (String.eqb_spec id ""); [contradiction|reflexivity].
Qed.

Lemma record_id_after_last_underscore_witness :
  set_parent (box_row "https://aspace/resources/77#tree::archival_object_123" "c" "") = "123".
Proof.
  apply (record_id_after_last_underscore _ "https://aspace/resources/77#tree::archival_object"
           "123"); reflexivity.
Defined.

(** [s.endswith(suffix)] *)
Lemma endswith_spec (suffix s : string) :
  PyStr.endswith suffix s = true <-> exists p, s = p +:+ suffix.
Proof.
  split.
  - induction s as [|c s IH]; cbn [PyStr.endswith]; intros H.
    + apply orb_true_iff in H as [H|H]; [|discriminate H].
      apply String.eqb_eq in H. subst. exists "". reflexivity.
    + apply orb_true_iff in H as [H|H].
      * apply String.eqb_eq in H. subst. exists "". reflexivity.
      * destruct (IH H) as [p ->]. exists (String c p). reflexivity.
  - intros [p ->]. induction p as [|c p IH].
    + rewrite app_nil. destruct suffix; cbn [PyStr.endswith]; rewrite String.eqb_refl;
        reflexivity.
    + rewrite app_cons. cbn [PyStr.endswith]. rewrite IH. apply orb_true_r.
Qed.

(** X6.  [get_spreadsheet_list] keeps exactly the directory entries
    that end in [.csv], each behind the drive path and a slash. *)
Theorem get_spreadsheet_list_csv_only (drive_path : string) (listdir : list string)
    (path : string) :
  In path (get_spreadsheet_list drive_path listdir)
  <-> exists filename stem,
        In filename listdir /\ filename = stem +:+ ".csv"
        /\ path = drive_path +:+ "/" +:+ filename.
Proof.
  unfold get_spreadsheet_list. rewrite in_map_iff. split.
  - intros (filename & <- & Hin). apply list_elem_of_In, list_elem_of_filter in Hin as [Hcsv Hin].
    apply Is_true_true, endswith_spec in Hcsv as [stem ->].
    exists (stem +:+ ".csv"), stem. repeat split. apply list_elem_of_In, Hin.
  - intros (filename & stem & Hin & -> & ->). exists (stem +:+ ".csv"). split; [reflexivity|].
    apply list_elem_of_In, list_elem_of_filter. split; [|apply list_elem_of_In, Hin].
    apply Is_true_true, endswith_spec. exists stem. reflexivity.
Qed.

(** ** Record builder: updating again *)

Lemma set_same (k : string) (v : json) (d : list (string * json)) :
  PyDict.lookup k d = Some v -> PyDict.set k v d = d.
Proof.
  induction d as [|[k' v'] d IH]; cbn [PyDict.lookup PyDict.set]; intros H.
  - discriminate H.
  - destruct (String.eqb k k'); [inversion H; reflexivity|]. rewrite (IH H). reflexivity.
Qed.

Lemma bind_raise_inv {A B} (m : M A) (k : A -> M B) (w w' : world) (e : exn) :
  (m ≫= k) w = (Raise e, w') ->
  m w = (Raise e, w') \/ exists a w1, m w = (Ok a, w1) /\ k a w1 = (Raise e, w').
Proof.
  unfold mbind, M_bind, bind. destruct (m w) as [[a|e0] w1]; intros H.
  - right. exists a, w1. split; [reflexivity|exact H].
  - left. inversion H. reflexivity.
Qed.

Lemma try_raise {A} (m : M A) (classes : exn -> bool) (h : exn -> M A) (w w' : world)
    (e : exn) :
  m w = (Raise e, w') -> try_except m classes h w = if classes e then h e w' else (Raise e, w').
Proof. intros H. unfold try_except. rewrite H. reflexivity. Qed.

(** What the update path returns, by cases. *)
Lemma update_archival_object_returns remote api_url r ao_id repo_id dirpath w record' endpoint
    w' :
  update_archival_object remote api_url r ao_id repo_id dirpath w
  = (Ok (Some (record', endpoint)), w') ->
  exists d,
    remote (sent w) (update_url api_url repo_id ao_id) = Response 200 (JObj d)
    /\ let d2 := PyDict.set "extents" (JArr (update_extents r))
                   (PyDict.set "component_id" (JStr (Component_Unique_ID r)) d) in
       (py_in (Top_Container r) [JStr ""; JNull] = true /\ record' = JObj d2)
       \/ (py_in (Top_Container r) [JStr ""; JNull] = false
           /\ exists uris,
               get_uris (JObj d) = Ok uris
               /\ ((py_in (Top_Container r) uris = true /\ record' = JObj d2)
                   \/ (py_in (Top_Container r) uris = false
                       /\ exists items,
                           PyDict.lookup "instances" d = Some (JArr items)
                           /\ record'
                              = JObj (PyDict.set "instances"
                                        (JArr (items ++ [create_instance (Top_Container r)]))
                                        d2)))).
Proof.
  unfold update_archival_object. intros H.
  apply try_ok_inv in H as [H|(e & w1 & _ & _ & H)]; [|discriminate H].
  apply bind_ok_inv in H as (fetched & w1 & Hget & H).
  apply get_record_ok_inv in Hget as [Hget ->].
  apply bind_ok_inv in H as ([] & w2 & _ & H).
  apply bind_ok_inv in H as (rec1 & w3 & H1 & H).
  apply lift_ok_inv in H1 as [H1 ->].
  apply bind_ok_inv in H as (rec2 & w4 & H2 & H).
  apply lift_ok_inv in H2 as [H2 ->].
  apply bind_ok_inv in H as (rec3 & w5 & H3 & H).
  apply ret_ok_inv in H as [H _]. inversion H; subst record' endpoint; clear H.
  destruct fetched as [| | | | |d]; try discriminate H1.
  cbn [json_setitem] in H1. inversion H1; subst rec1; clear H1.
  cbn [json_setitem] in H2. inversion H2; subst rec2; clear H2.
  exists d. split; [exact Hget|]. cbv zeta.
  destruct (py_in (Top_Container r) [JStr ""; JNull]); cbn [negb] in H3.
  - left. apply ret_ok_inv in H3 as [-> _]. split; reflexivity.
  - right. split; [reflexivity|].
    apply bind_ok_inv in H3 as (uris & w6 & Hu & H3).
    apply lift_ok_inv in Hu as [Hu ->].
    rewrite !get_uris_set in Hu by discriminate. exists uris. split; [exact Hu|].
    destruct (py_in (Top_Container r) uris); cbn [negb] in H3.
    + left. apply ret_ok_inv in H3 as [-> _]. split; reflexivity.
    + right. split; [reflexivity|].
      apply lift_ok_inv in H3 as [H3 _].
      unfold json_append_at, obind, json_item in H3.
      destruct (PyDict.lookup "instances" _) as [l|] eqn:El; [|discriminate H3].
      destruct l as [| | | |items|]; try discriminate H3.
      cbn [json_setitem] in H3. inversion H3; subst rec3; clear H3.
      rewrite !lookup_set_ne in El by discriminate.
      exists items. split; [exact El|reflexivity].
Qed.

(** The update path on a record whose container links need no change. *)
Lemma update_archival_object_unchanged remote api_url r ao_id repo_id dirpath w d :
  remote (sent w) (update_url api_url repo_id ao_id) = Response 200 (JObj d) ->
  (py_in (Top_Container r) [JStr ""; JNull] = true
   \/ exists uris, get_uris (JObj d) = Ok uris /\ py_in (Top_Container r) uris = true) ->
  exists w',
    update_archival_object remote api_url r ao_id repo_id dirpath w
    = (Ok (Some (JObj (PyDict.set "extents" (JArr (update_extents r))
                         (PyDict.set "component_id" (JStr (Component_Unique_ID r)) d)),
                 "/repositories/" +:+ py_str repo_id +:+ "/archival_objects/" +:+ ao_id)),
       w').
Proof.
  intros Hget Hcase. eexists. unfold update_archival_object. apply try_ok.
  erewrite bind_ok by (apply get_record_ok; exact Hget).
  erewrite bind_ok by reflexivity.
  erewrite bind_ok by reflexivity.
  erewrite bind_ok by reflexivity.
  destruct (py_in (Top_Container r) [JStr ""; JNull]) eqn:Hin; cbn [negb].
  - erewrite bind_ok by reflexivity. reflexivity.
  - destruct Hcase as [Hcase|(uris & Hu & Hin')]; [discriminate Hcase|].
    erewrite bind_ok; [reflexivity|].
    erewrite bind_ok by (unfold lift; rewrite !get_uris_set by discriminate; rewrite Hu;
                         reflexivity).
    rewrite Hin'. reflexivity.
Qed.

Lemma py_in_app (x : json) (l1 l2 : list json) :
  py_in x (l1 ++ l2) = py_in x l1 || py_in x l2.
Proof. unfold py_in. apply existsb_app. Qed.

(** X7.  Updating twice is updating once: when [update_archival_object]
    has built a record for a row that names a container, and the remote
    API then serves that record, a second update for the same row builds
    the same record and the same endpoint.  The container is linked
    once, the extents and the component identifier stay. *)
Theorem update_archival_object_idempotent remote api_url r ao_id repo_id dirpath
    (container : string) w record' endpoint w' w2 :
  Top_Container r = JStr container ->
  update_archival_object remote api_url r ao_id repo_id dirpath w
  = (Ok (Some (record', endpoint)), w') ->
  remote (sent w2) (update_url api_url repo_id ao_id) = Response 200 record' ->
  exists w2',
    update_archival_object remote api_url r ao_id repo_id dirpath w2
    = (Ok (Some (record', endpoint)), w2').
Proof.
  intros Htc H Hget2.
  assert (Hep : endpoint = "/repositories/" +:+ py_str repo_id +:+ "/archival_objects/"
                           +:+ ao_id).
  { unfold update_archival_object in H.
    apply try_ok_inv in H as [H|(e & w1 & _ & _ & H)]; [|discriminate H].
    apply bind_ok_inv in H as (? & ? & _ & H). apply bind_ok_inv in H as (? & ? & _ & H).
    apply bind_ok_inv in H as (? & ? & _ & H). apply bind_ok_inv in H as (? & ? & _ & H).
    apply bind_ok_inv in H as (? & ? & _ & H). apply ret_ok_inv in H as [H _].
    inversion H. reflexivity. }
  apply update_archival_object_returns in H as (d & _ & H). cbv zeta in H.
  set (d2 := PyDict.set "extents" (JArr (update_extents r))
               (PyDict.set "component_id" (JStr (Component_Unique_ID r)) d)) in *.
  assert (Hsame : forall d', PyDict.lookup "component_id" d' = Some (JStr (Component_Unique_ID r)) ->
            PyDict.lookup "extents" d' = Some (JArr (update_extents r)) ->
            PyDict.set "extents" (JArr (update_extents r))
              (PyDict.set "component_id" (JStr (Component_Unique_ID r)) d') = d').
  { intros d' Hc He. rewrite (set_same _ _ _ Hc). apply set_same, He. }
  assert (Hc2 : PyDict.lookup "component_id" d2 = Some (JStr (Component_Unique_ID r))).
  { unfold d2. rewrite lookup_set_ne by discriminate. apply lookup_set_eq. }
  assert (He2 : PyDict.lookup "extents" d2 = Some (JArr (update_extents r))).
  { unfold d2. apply lookup_set_eq. }
  subst endpoint.
  destruct H as [[Hin ->]|(Hin & uris & Hu & [[Hin' ->]|(Hin' & items & Hitems & ->)])].
  - destruct (update_archival_object_unchanged remote api_url r ao_id repo_id dirpath w2 d2
                Hget2 (or_introl Hin)) as [w2' H2].
    exists w2'. rewrite H2, (Hsame _ Hc2 He2). reflexivity.
  - assert (Hu2 : get_uris (JObj d2) = Ok uris).
    { unfold d2. rewrite !get_uris_set by discriminate. exact Hu. }
    destruct (update_archival_object_unchanged remote api_url r ao_id repo_id dirpath w2 d2
                Hget2 (or_intror (ex_intro _ uris (conj Hu2 Hin')))) as [w2' H2].
    exists w2'. rewrite H2, (Hsame _ Hc2 He2). reflexivity.
  - set (d3 := PyDict.set "instances" (JArr (items ++ [create_instance (Top_Container r)])) d2)
      in *.
    assert (Hi2 : PyDict.lookup "instances" d2 = Some (JArr items)).
    { unfold d2. rewrite !lookup_set_ne by discriminate. exact Hitems. }
    assert (Hu2 : get_uris (JObj d2) = Ok uris).
    { unfold d2. rewrite !get_uris_set by discriminate. exact Hu. }
    assert (Hu3 : get_uris (JObj d3) = Ok (uris ++ [Top_Container r])).
    { apply get_uris_appended; assumption. }
    assert (Hin3 : py_in (Top_Container r) (uris ++ [Top_Container r]) = true).
    { rewrite py_in_app. apply orb_true_iff. right. rewrite Htc. cbn.
      rewrite String.eqb_refl. reflexivity. }
    destruct (update_archival_object_unchanged remote api_url r ao_id repo_id dirpath w2 d3
                Hget2 (or_intror (ex_intro _ _ (conj Hu3 Hin3)))) as [w2' H2].
    exists w2'. rewrite H2. rewrite Hsame; [reflexivity| |].
    + unfold d3. rewrite lookup_set_ne by discriminate. exact Hc2.
    + unfold d3. rewrite lookup_set_ne by discriminate. exact He2.
Qed.

Lemma update_archival_object_idempotent_witness :
  let r := box_row "https://aspace/resources/77#tree::archival_object_101" "c1"
             "/repositories/11/top_containers/3" in
  let update := update_archival_object storing_remote "https://aspace/api" r "101" (JStr "11")
                  "/drive/backups" in
  exists record' endpoint w' w2',
    update fresh = (Ok (Some (record', endpoint)), w')
    /\ update (add_sent (post_request ("https://aspace/api" +:+ endpoint) record') w')
       = (Ok (Some (record', endpoint)), w2').
Proof.
  cbv zeta. do 3 eexists.
  match goal with
  | |- exists w2', ?A /\ _ => assert (H1 : A) by (vm_compute; reflexivity)
  end.
  match type of H1 with
  | _ = (Ok (Some (?rec, ?ep)), ?w1) =>
      assert (H3 : storing_remote
                     (sent (add_sent (post_request ("https://aspace/api" +:+ ep) rec) w1))
                     (update_url "https://aspace/api" (JStr "11") "101")
                   = Response 200 rec) by (vm_compute; reflexivity);
      destruct (update_archival_object_idempotent storing_remote "https://aspace/api"
                  (box_row "https://aspace/resources/77#tree::archival_object_101" "c1"
                     "/repositories/11/top_containers/3")
                  "101" (JStr "11") "/drive/backups"
                  "/repositories/11/top_containers/3" fresh rec ep w1 _ eq_refl H1 H3)
        as [w2' H2]
  end.
  exists w2'. split; [exact H1|exact H2].
Defined.

(** ** Steps that respect a relation between worlds *)

Lemma keeps_preorder {B} (f : world -> B) : PreOrder (keeps f).
Proof.
  split.
  - intros w. reflexivity.
  - intros a b c Hab Hbc. unfold keeps in *. congruence.
Qed.

#[export] Existing Instance keeps_preorder.

Lemma longer_preorder {A} : PreOrder (@longer A).
Proof.
  split.
  - intros m k. reflexivity.
  - intros a b c Hab Hbc k. etrans; [apply Hab|apply Hbc].
Qed.

#[export] Existing Instance longer_preorder.

Lemma grows_preorder : PreOrder grows.
Proof.
  split.
  - intros w. repeat split; reflexivity.
  - intros a b c (H1 & H2 & H3 & H4 & H5) (G1 & G2 & G3 & G4 & G5).
    repeat split; etrans; eassumption.
Qed.

#[export] Existing Instance grows_preorder.

Section Steps.
Context (R : relation world) `{!PreOrder R}.

Lemma steps_ret {A} (a : A) : steps R (mret a).
Proof. intros w. reflexivity. Qed.

Lemma steps_raise {A} (e : exn) : steps R (@raise A e).
Proof. intros w. reflexivity. Qed.

Lemma steps_lift {A} (o : outcome A) : steps R (lift o).
Proof. intros w. reflexivity. Qed.

Lemma steps_bind_from {A B} (m : M A) (k : A -> M B) (w : world) :
  (forall a, steps R (k a)) -> R (m w).2 ((m ≫= k) w).2.
Proof.
  intros Hk. unfold mbind, M_bind, bind.
  destruct (m w) as [[a|e] w1]; [apply Hk|reflexivity].
Qed.

Lemma steps_try_from {A} (m : M A) (classes : exn -> bool) (h : exn -> M A) (w : world) :
  (forall e, steps R (h e)) -> R (m w).2 (try_except m classes h w).2.
Proof.
  intros Hh. unfold try_except.
  destruct (m w) as [[a|e] w1]; [reflexivity|].
  destruct (classes e); [apply Hh|reflexivity].
Qed.

Lemma steps_bind {A B} (m : M A) (k : A -> M B) :
  steps R m -> (forall a, steps R (k a)) -> steps R (m ≫= k).
Proof. intros Hm Hk w. etrans; [apply Hm|]. apply steps_bind_from, Hk. Qed.

Lemma steps_try {A} (m : M A) (classes : exn -> bool) (h : exn -> M A) :
  steps R m -> (forall e, steps R (h e)) -> steps R (try_except m classes h).
Proof. intros Hm Hh w. etrans; [apply Hm|]. apply steps_try_from, Hh. Qed.

End Steps.

Create HintDb steps.
#[export] Hint Resolve steps_ret steps_raise steps_lift : steps.

Ltac steps_step :=
  match goal with
  | |- steps _ (_ ≫= _) => apply steps_bind; [typeclasses eauto| |intros ?]
  | |- steps _ (try_except _ _ _) => apply steps_try; [typeclasses eauto| |intros ?]
  | |- steps _ (if ?b then _ else _) => destruct b
  | |- steps _ (match ?x with _ => _ end) => destruct x
  | |- steps _ _ => solve [auto with steps typeclass_instances]
  end.

Ltac steps_all := repeat steps_step.

(** The resolvers, the record builder and the event recorder, for any
    relation that the primitive steps respect. *)
Section Resolvers.
Context (R : relation world) `{!PreOrder R}.
Context (remote : list request -> request -> reply).
Hypothesis R_send : forall req, steps R (send remote req).
Hypothesis R_logging : forall entry, steps R (logging entry).
Hypothesis R_create_backups : forall dirpath uri j, steps R (create_backups dirpath uri j).

Lemma steps_get_record (url : string) : steps R (get_record remote url).
Proof. unfold get_record. steps_all. Qed.
#[local] Hint Resolve steps_get_record : steps.

Lemma steps_post_record (url : string) (j : json) : steps R (post_record remote url j).
Proof. unfold post_record. steps_all. Qed.
#[local] Hint Resolve steps_post_record : steps.

Lemma steps_get_json (url : string) : steps R (get_json remote url).
Proof. unfold get_json. steps_all. Qed.
#[local] Hint Resolve steps_get_json : steps.

Lemma steps_generate_container_loop (api_url : string) (uris : list json)
    (store : list (json * json)) (bound : bool) :
  steps R (generate_container_loop remote api_url uris store bound).
Proof.
  revert store bound. induction uris as [|u uris IH]; intros store bound;
    cbn [generate_container_loop]; steps_all.
Qed.
#[local] Hint Resolve steps_generate_container_loop : steps.

Lemma steps_generate_container_list (api_url : string) (j : json) :
  steps R (generate_container_list remote api_url j).
Proof. unfold generate_container_list. steps_all. Qed.
#[local] Hint Resolve steps_generate_container_list : steps.

Lemma steps_get_instance_data (api_url : string) (j : json) :
  steps R (get_instance_data remote api_url j).
Proof. unfold get_instance_data. steps_all. Qed.
#[local] Hint Resolve steps_get_instance_data : steps.

Lemma steps_get_containers (api_url parent_id : string) (repo_id : json) :
  steps R (get_containers remote api_url parent_id repo_id).
Proof. unfold get_containers. steps_all. Qed.

Lemma steps_get_matched_containers (cl : option (list (json * json))) (n : json) :
  steps R (get_matched_containers cl n).
Proof. unfold get_matched_containers. steps_all. Qed.

Lemma steps_update_archival_object (api_url : string) (r : row) (ao_id : string)
    (repo_id : json) (dirpath : string) :
  steps R (update_archival_object remote api_url r ao_id repo_id dirpath).
Proof. unfold update_archival_object. steps_all. Qed.

Lemma steps_create_event (agent_uri ao_id repo_id : json) (ty out d note : string) :
  steps R (create_event agent_uri ao_id repo_id ty out d note).
Proof. unfold create_event. steps_all. Qed.
#[local] Hint Resolve steps_create_event : steps.

Lemma steps_event_helper (api_url : string) (agent_uri record_uri repo_id : json)
    (ty out d note : string) :
  steps R (event_helper remote api_url agent_uri record_uri repo_id ty out d note).
Proof. unfold event_helper. steps_all. Qed.
#[local] Hint Resolve steps_event_helper : steps.

Lemma steps_post_events (r : row) (agent_uri repo_id record_uri : json) (api_url : string) :
  steps R (post_events remote r agent_uri repo_id record_uri api_url).
Proof. unfold post_events. steps_all. Qed.

Lemma steps_get_session (cfg : config) : steps R (get_session remote cfg).
Proof. unfold get_session, start_session. destruct (get_credentials cfg) as [[u n] p]. steps_all. Qed.

Lemma steps_get_repo (first_row : row) (api_url : string) :
  steps R (get_repo remote first_row api_url).
Proof. unfold get_repo, set_repository, get_repositories. steps_all. Qed.

Lemma steps_get_agent (api_url : string) (a u : option string) :
  steps R (get_agent remote api_url a u).
Proof. unfold get_agent, set_agent, get_current_user. steps_all. Qed.

Lemma steps_get_action (f : string) : steps R (get_action f).
Proof. unfold get_action. steps_all. Qed.

End Resolvers.

(** ** Steps that only append *)

Lemma longer_insert_app {A} (m : gmap string (list A)) (k : string) (x : A) :
  longer m (<[k := default [] (m !! k) ++ [x]]> m).
Proof.
  intros k'. destruct (decide (k = k')) as [->|Hne].
  - rewrite lookup_insert_eq. cbn [default from_option]. apply prefix_app_r. reflexivity.
  - rewrite lookup_insert_ne by exact Hne. reflexivity.
Qed.

Lemma grows_send remote (req : request) : steps grows (send remote req).
Proof.
  intros w. cbn. repeat split; try reflexivity. apply prefix_app_r. reflexivity.
Qed.

Lemma grows_logging (entry : log_entry) : steps grows (logging entry).
Proof.
  intros w. cbn. repeat split; try reflexivity. apply prefix_app_r. reflexivity.
Qed.

Lemma grows_write_line (path : string) (l : out_line) : steps grows (write_line path l).
Proof.
  intros w. cbn. repeat split; try reflexivity. apply longer_insert_app.
Qed.

Lemma grows_file_result (key path : string) : steps grows (file_result key path).
Proof.
  intros w. cbn. repeat split; try reflexivity. apply longer_insert_app.
Qed.

Lemma grows_create_backups (dirpath uri : string) (j : json) :
  steps grows (create_backups dirpath uri j).
Proof.
  intros w. cbn. repeat split; try reflexivity. apply longer_insert_app.
Qed.

Lemma grows_bind_row (r : row) : steps grows (bind_row r).
Proof. intros w. cbn. repeat split; reflexivity. Qed.

Section Pipeline.
Context (remote : list request -> request -> reply).

#[local] Hint Resolve grows_logging grows_write_line grows_file_result grows_bind_row : steps.
#[local] Hint Extern 1 (steps grows (get_containers _ _ _ _)) =>
  apply steps_get_containers; auto using grows_send, grows_logging, grows_create_backups
  : steps.
#[local] Hint Extern 1 (steps grows (get_matched_containers _ _)) =>
  apply steps_get_matched_containers; auto using grows_send, grows_logging, grows_create_backups
  : steps.
#[local] Hint Extern 1 (steps grows (update_archival_object _ _ _ _ _ _)) =>
  apply steps_update_archival_object; auto using grows_send, grows_logging, grows_create_backups
  : steps.
#[local] Hint Extern 1 (steps grows (get_record _ _)) =>
  apply steps_get_record; auto using grows_send, grows_logging, grows_create_backups
  : steps.
#[local] Hint Extern 1 (steps grows (post_record _ _ _)) =>
  apply steps_post_record; auto using grows_send, grows_logging, grows_create_backups
  : steps.
#[local] Hint Extern 1 (steps grows (post_events _ _ _ _ _ _)) =>
  apply steps_post_events; auto using grows_send, grows_logging, grows_create_backups
  : steps.
#[local] Hint Extern 1 (steps grows (get_session _ _)) =>
  apply steps_get_session; auto using grows_send, grows_logging, grows_create_backups
  : steps.
#[local] Hint Extern 1 (steps grows (get_repo _ _ _)) =>
  apply steps_get_repo; auto using grows_send, grows_logging, grows_create_backups
  : steps.
#[local] Hint Extern 1 (steps grows (get_agent _ _ _ _)) =>
  apply steps_get_agent; auto using grows_send, grows_logging, grows_create_backups
  : steps.
#[local] Hint Extern 1 (steps grows (get_action _)) =>
  apply steps_get_action; auto using grows_send, grows_logging, grows_create_backups
  : steps.

Lemma grows_get_record url : steps grows (get_record remote url).
Proof. steps_all. Qed.

Lemma grows_post_record url j : steps grows (post_record remote url j).
Proof. steps_all. Qed.

Lemma grows_get_instance_data api_url j : steps grows (get_instance_data remote api_url j).
Proof.
  apply steps_get_instance_data; auto using grows_send, grows_logging; typeclasses eauto.
Qed.

Lemma grows_get_containers api_url parent_id repo_id :
  steps grows (get_containers remote api_url parent_id repo_id).
Proof. steps_all. Qed.

Lemma grows_get_matched_containers found n : steps grows (get_matched_containers found n).
Proof. steps_all. Qed.

Lemma grows_update_archival_object api_url r ao_id repo_id dirpath :
  steps grows (update_archival_object remote api_url r ao_id repo_id dirpath).
Proof. steps_all. Qed.

Lemma grows_post_events r agent_uri repo_id record_uri api_url :
  steps grows (post_events remote r agent_uri repo_id record_uri api_url).
Proof. steps_all. Qed.

Lemma grows_get_repo first_row api_url : steps grows (get_repo remote first_row api_url).
Proof. steps_all. Qed.

Lemma grows_get_agent api_url a u : steps grows (get_agent remote api_url a u).
Proof. steps_all. Qed.

Lemma grows_post_failed f r vars err : steps grows (post_failed f r vars err).
Proof. unfold post_failed. steps_all. Qed.
#[local] Hint Resolve grows_post_failed : steps.

Lemma grows_post_step api_url f out repo agent r vars :
  steps grows (post_step remote api_url f out repo agent r vars).
Proof. unfold post_step. steps_all. Qed.
#[local] Hint Resolve grows_post_step : steps.

Lemma grows_row_body api_url drive f out act repo agent prev id vars r :
  steps grows (row_body remote api_url drive f out act repo agent prev id vars r).
Proof. unfold row_body. steps_all. Qed.
#[local] Hint Resolve grows_row_body : steps.

Lemma grows_process_row api_url drive f out act repo agent prev vars r :
  steps grows (process_row remote api_url drive f out act repo agent prev vars r).
Proof. unfold process_row, skip_row. steps_all. Qed.
#[local] Hint Resolve grows_process_row : steps.

Lemma grows_process_rows api_url drive f out act repo agent prev vars rows :
  steps grows (process_rows remote api_url drive f out act repo agent prev vars rows).
Proof.
  revert vars. induction rows as [|r rows IH]; intros vars; cbn [process_rows]; steps_all.
Qed.
#[local] Hint Resolve grows_process_rows : steps.

End Pipeline.

(** ** Record builder: the backup and a refused fetch *)
Lemma replace_char_cons (c x : ascii) (new s : string) :
  PyStr.replace (String c "") new (String x s)
  = if Ascii.eqb c x then new +:+ PyStr.replace (String c "") new s
    else String x (PyStr.replace (String c "") new s).
Proof. unfold PyStr.replace. cbn [PyStr.replace_aux]. rewrite prefix_char. reflexivity. Qed.

Lemma replace_char_app (c : ascii) (new a b : string) :
  PyStr.replace (String c "") new (a +:+ b)
  = PyStr.replace (String c "") new a +:+ PyStr.replace (String c "") new b.
Proof.
  induction a as [|x a IH]; [reflexivity|].
  rewrite app_cons, !replace_char_cons, IH.
  destruct (Ascii.eqb c x); [rewrite app_assoc_s|]; reflexivity.
Qed.

Lemma replace_char_absent (c : ascii) (new s : string) :
  PyStr.contains (String c "") s = false -> PyStr.replace (String c "") new s = s.
Proof.
  induction s as [|x s IH]; intros H; [reflexivity|].
  rewrite contains_char_cons in H. apply orb_false_iff in H as [Hx Hs].
  rewrite replace_char_cons, Hx, (IH Hs). reflexivity.
Qed.

Lemma get_record_refused remote (url : string) (w : world) (st : Z) (body : json) :
  remote (sent w) {| req_method := GET; req_url := url; req_json := None |} = Response st body ->
  st <> 200 ->
  get_record remote url w
  = (Raise (ArchivesSpaceError url st body),
     add_sent {| req_method := GET; req_url := url; req_json := None |} w).
Proof.
  intros H Hst. unfold get_record, send, mbind, M_bind, bind. rewrite H.
  apply Z.eqb_neq in Hst. rewrite Hst. reflexivity.
Qed.

Lemma post_record_refused remote (url : string) (j : json) (w : world) (st : Z) (body : json) :
  remote (sent w) {| req_method := POST; req_url := url; req_json := Some j |}
  = Response st body ->
  st <> 200 ->
  post_record remote url j w
  = (Raise (ArchivesSpaceError url st body),
     add_sent {| req_method := POST; req_url := url; req_json := Some j |} w).
Proof.
  intros H Hst. unfold post_record, send, mbind, M_bind, bind. rewrite H.
  apply Z.eqb_neq in Hst. rewrite Hst. reflexivity.
Qed.

(** X8.  An update whose fetch succeeds appends the fetched record, as
    it was before any change, to the backup file of that record: the
    file under [dirpath] named after the record's URI without its first
    slash and with the others as underscores.  Nothing else is written
    to the backups, whatever the rest of the update does. *)
Theorem update_archival_object_backup remote api_url r ao_id repo_id dirpath w fetched :
  PyStr.contains "/" (py_str repo_id) = false ->
  PyStr.contains "/" ao_id = false ->
  remote (sent w) (update_url api_url repo_id ao_id) = Response 200 fetched ->
  let path := dirpath +:+ "/repositories_" +:+ py_str repo_id +:+ "_archival_objects_"
              +:+ ao_id +:+ ".json" in
  backups (update_archival_object remote api_url r ao_id repo_id dirpath w).2
  = <[path := default [] (backups w !! path) ++ [fetched]]> (backups w).
Proof.
  intros Hrepo Hao Hget path. unfold update_archival_object.
  etrans.
  { apply (steps_try_from (keeps backups)). intros e. steps_all; intros ?; reflexivity. }
  erewrite bind_ok by (apply get_record_ok; exact Hget).
  etrans.
  { apply (steps_bind_from (keeps backups)). intros []. steps_all; intros ?; reflexivity. }
  cbn [create_backups snd backups add_sent].
  assert (Hpath : dirpath +:+ "/"
                  +:+ PyStr.replace "/" "_"
                        (PyStr.drop 1 ("/repositories/" +:+ py_str repo_id
                                        +:+ "/archival_objects/" +:+ ao_id))
                  +:+ ".json" = path).
  { assert (Hrep : PyStr.replace "/" "_"
                     (PyStr.drop 1 ("/repositories/" +:+ py_str repo_id
                                     +:+ "/archival_objects/" +:+ ao_id))
                   = "repositories_" +:+ py_str repo_id +:+ "_archival_objects_" +:+ ao_id).
    { change (PyStr.drop 1 ("/repositories/" +:+ py_str repo_id +:+ "/archival_objects/"
                             +:+ ao_id))
        with ("repositories/" +:+ py_str repo_id +:+ "/archival_objects/" +:+ ao_id).
      rewrite !replace_char_app.
      rewrite (replace_char_absent _ _ _ Hrepo), (replace_char_absent _ _ _ Hao).
      reflexivity. }
    rewrite Hrep. unfold path. rewrite !app_assoc_s. reflexivity. }
  rewrite Hpath. reflexivity.
Qed.

Lemma update_archival_object_backup_witness :
  backups (update_archival_object demo_remote "https://aspace/api"
             (box_row "https://aspace/resources/77#tree::archival_object_101" "c1" "")
             "101" (JStr "11") "/drive/backups" fresh).2
  = <["/drive/backups/repositories_11_archival_objects_101.json" := [demo_record]]> ∅.
Proof.
  exact (update_archival_object_backup demo_remote "https://aspace/api" _ "101" (JStr "11")
           "/drive/backups" fresh demo_record eq_refl eq_refl eq_refl).
Defined.

(** X9.  When the remote API refuses the fetch, [update_archival_object]
    catches the error: it logs it, writes no backup and returns [None].
    The row loop unpacks that result into two names, so a row to update
    without a container then ends in a TypeError, before any post. *)
Theorem update_archival_object_refused remote api_url r ao_id repo_id dirpath w st body :
  remote (sent w) (update_url api_url repo_id ao_id) = Response st body ->
  st <> 200 ->
  let w' := add_logged
              [log_exception (ArchivesSpaceError (req_url (update_url api_url repo_id ao_id))
                                st body)]
              (add_sent (update_url api_url repo_id ao_id) w) in
  update_archival_object remote api_url r ao_id repo_id dirpath w = (Ok None, w')
  /\ backups w' = backups w
  /\ (forall drive_path input_csv_file output_csv_file agent_uri previous_container vars,
        Top_Container r = JStr "" ->
        dirpath = drive_path +:+ "/backups" ->
        row_body remote api_url drive_path input_csv_file output_csv_file (Some Update)
          repo_id agent_uri previous_container ao_id vars r w
        = (Raise TypeError, w')).
Proof.
  intros Hget Hst w'.
  assert (H : update_archival_object remote api_url r ao_id repo_id dirpath w = (Ok None, w')).
  { unfold update_archival_object.
    erewrite try_raise.
    2: { erewrite bind_raise; [reflexivity|]. apply get_record_refused; eassumption. }
    reflexivity. }
  split; [exact H|]. split; [reflexivity|].
  intros drive_path input_csv_file output_csv_file agent_uri previous_container vars Htc ->.
  unfold row_body. rewrite Htc. cbn [py_eq String.eqb negb].
  erewrite bind_ok by reflexivity. cbn beta iota.
  erewrite bind_raise; [reflexivity|].
  erewrite bind_ok by exact H. reflexivity.
Qed.

Lemma update_archival_object_refused_witness :
  (update_archival_object refusing_remote "https://aspace/api"
     (box_row "https://aspace/resources/77#tree::archival_object_101" "c1" "")
     "101" (JStr "11") "/drive/backups" fresh).1
  = Ok None.
Proof.
  rewrite (proj1 (update_archival_object_refused refusing_remote "https://aspace/api"
                    (box_row "https://aspace/resources/77#tree::archival_object_101" "c1" "")
                    "101" (JStr "11") "/drive/backups" fresh 404
                    (JObj [("error", JStr "Not found")]) eq_refl ltac:(lia))).
  reflexivity.
Defined.

(** ** Row pipeline: the result lists *)

Lemma steps_at (R : relation world) {A} (m : M A) (w w' : world) (x : outcome A) :
  steps R m -> m w = (x, w') -> R w w'.
Proof. intros Hm H. specialize (Hm w). rewrite H in Hm. exact Hm. Qed.

Lemma try_raise_inv {A} (m : M A) (classes : exn -> bool) (h : exn -> M A) (w w' : world)
    (e : exn) :
  try_except m classes h w = (Raise e, w') ->
  (m w = (Raise e, w') /\ classes e = false)
  \/ exists e0 w0, m w = (Raise e0, w0) /\ classes e0 = true /\ h e0 w0 = (Raise e, w').
Proof.
  unfold try_except. destruct (m w) as [[a|e0] w0]; intros H; [discriminate H|].
  destruct (classes e0) eqn:E.
  - right. exists e0, w0. repeat split; [exact E|exact H].
  - left. inversion H; subst. split; [reflexivity|exact E].
Qed.

(** Steps that leave [file_results] alone. *)
Section KeepsResults.
Context (remote : list request -> request -> reply).

Lemma kr_send req : steps (keeps file_results) (send remote req).
Proof. intros w. reflexivity. Qed.
Lemma kr_logging entry : steps (keeps file_results) (logging entry).
Proof. intros w. reflexivity. Qed.
Lemma kr_create_backups d u j : steps (keeps file_results) (create_backups d u j).
Proof. intros w. reflexivity. Qed.
Lemma kr_write_line p l : steps (keeps file_results) (write_line p l).
Proof. intros w. reflexivity. Qed.
Lemma kr_bind_row r : steps (keeps file_results) (bind_row r).
Proof. intros w. reflexivity. Qed.

#[local] Hint Resolve kr_send kr_logging kr_create_backups kr_write_line kr_bind_row : steps.
#[local] Hint Extern 1 (steps (keeps file_results) (get_containers _ _ _ _)) =>
  apply steps_get_containers; auto with steps typeclass_instances : steps.
#[local] Hint Extern 1 (steps (keeps file_results) (get_matched_containers _ _)) =>
  apply steps_get_matched_containers; auto with steps typeclass_instances : steps.
#[local] Hint Extern 1 (steps (keeps file_results) (update_archival_object _ _ _ _ _ _)) =>
  apply steps_update_archival_object; auto with steps typeclass_instances : steps.
#[local] Hint Extern 1 (steps (keeps file_results) (post_record _ _ _)) =>
  apply steps_post_record; auto with steps typeclass_instances : steps.
#[local] Hint Extern 1 (steps (keeps file_results) (post_events _ _ _ _ _ _)) =>
  apply steps_post_events; auto with steps typeclass_instances : steps.
#[local] Hint Extern 1 (steps (keeps file_results) (get_repo _ _ _)) =>
  apply steps_get_repo; auto with steps typeclass_instances : steps.
#[local] Hint Extern 1 (steps (keeps file_results) (get_agent _ _ _ _)) =>
  apply steps_get_agent; auto with steps typeclass_instances : steps.

Lemma post_failed_results f r vars err w fl vars' w' :
  post_failed f r vars err w = (Ok (fl, vars'), w') ->
  fl = Break /\ file_results w' = listed_errors f w.
Proof. intros H. inversion H. split; reflexivity. Qed.

Lemma post_step_results api_url f out repo agent r vars w fl vars' w' :
  post_step remote api_url f out repo agent r vars w = (Ok (fl, vars'), w') ->
  (fl = Next /\ file_results w' = file_results w)
  \/ (fl = Break /\ file_results w' = listed_errors f w).
Proof.
  unfold post_step. destruct (built vars) as [[rj ep]|]; [|discriminate].
  intros H. apply try_ok_inv in H as [H|(e & w1 & Hbody & Hcls & H)].
  - apply bind_ok_inv in H as (rp & w1 & Hpost & H).
    apply (steps_at (keeps file_results)) in Hpost; [|steps_all].
    apply bind_ok_inv in H as (uri & w2 & Huri & H).
    apply lift_ok_inv in Huri as [_ ->].
    apply bind_ok_inv in H as ([] & w2 & Hbound & H).
    apply (steps_at (keeps file_results)) in Hbound; [|steps_all].
    apply try_ok_inv in H as [H|(e & w3 & Hin & _ & H)].
    + left. apply bind_ok_inv in H as (ev & w3 & Hev & H).
      apply (steps_at (keeps file_results)) in Hev; [|steps_all].
      destruct ev as [ev|]; [|discriminate H].
      apply bind_ok_inv in H as ([] & w4 & Hbound' & H).
      apply (steps_at (keeps file_results)) in Hbound'; [|steps_all].
      apply bind_ok_inv in H as ([] & w5 & Hw & H).
      apply (steps_at (keeps file_results)) in Hw; [|steps_all].
      apply ret_ok_inv in H as [H ->]. inversion H. split; [reflexivity|].
      unfold keeps in *. congruence.
    + right. apply (steps_at (keeps file_results)) in Hin; [|steps_all].
      apply post_failed_results in H as [-> H]. split; [reflexivity|].
      rewrite H. unfold listed_errors, keeps in *. rewrite Hin, Hbound, Hpost. reflexivity.
  - right. apply post_failed_results in H as [-> H]. split; [reflexivity|].
    rewrite H. unfold listed_errors.
    assert (Hw1 : file_results w1 = file_results w).
    { apply bind_raise_inv in Hbody as [Hpost|(rp & w0 & Hpost & Hbody)].
      { apply (steps_at (keeps file_results)) in Hpost; [exact Hpost|steps_all]. }
      apply (steps_at (keeps file_results)) in Hpost; [|steps_all].
      apply bind_raise_inv in Hbody as [Hlift|(uri & w2 & Hlift & Hbody)].
      { unfold lift in Hlift. inversion Hlift; subst. exact Hpost. }
      apply lift_ok_inv in Hlift as [_ ->].
      apply bind_raise_inv in Hbody as [Hbound|([] & w3 & _ & Hbody)];
        [unfold bind_row in Hbound; discriminate Hbound|].
      apply try_raise_inv in Hbody as [[_ Hno]|(e0 & w4 & _ & _ & Hh)];
        [rewrite Hno in Hcls; discriminate Hcls|discriminate Hh]. }
    rewrite Hw1. reflexivity.
Qed.

Lemma process_row_results api_url drive f out act repo agent prev vars r w fl vars' w' :
  process_row remote api_url drive f out act repo agent prev vars r w = (Ok (fl, vars'), w') ->
  (fl = Next /\ file_results w' = file_results w)
  \/ (fl = Break /\ file_results w' = listed_errors f w).
Proof.
  unfold process_row. destruct (negb _).
  - unfold row_body. intros H.
    apply bind_ok_inv in H as ([r1 vars1] & w1 & H1 & H).
    apply (steps_at (keeps file_results)) in H1; [|steps_all].
    apply bind_ok_inv in H as (vars2 & w2 & H2 & H).
    apply (steps_at (keeps file_results)) in H2; [|steps_all].
    apply post_step_results in H. unfold listed_errors, keeps in *.
    rewrite H2, H1 in H. exact H.
  - intros H. left. inversion H. split; reflexivity.
Qed.

Lemma process_rows_results api_url drive f out act repo agent prev vars rows w vars' w' :
  process_rows remote api_url drive f out act repo agent prev vars rows w = (Ok vars', w') ->
  file_results w' = file_results w \/ file_results w' = listed_errors f w.
Proof.
  revert vars w. induction rows as [|r rows IH]; intros vars w H; cbn [process_rows] in H.
  - left. inversion H. reflexivity.
  - apply bind_ok_inv in H as ([] & w0 & Hbound & H).
    apply (steps_at (keeps file_results)) in Hbound; [|steps_all].
    apply bind_ok_inv in H as ([fl vars1] & w1 & Hrow & H).
    unfold keeps in Hbound.
    apply process_row_results in Hrow as [[-> Hw]|[-> Hw]].
    + apply IH in H. unfold listed_errors in *. rewrite Hw, Hbound in H. exact H.
    + right. apply ret_ok_inv in H as [_ ->].
      unfold listed_errors in *. rewrite Hw, Hbound. reflexivity.
Qed.

(** X11.  A file whose turn completes is listed once under
    ["complete"], and at most once under ["errors"], however many rows
    it has; the other result lists are left alone. *)
Theorem process_file_as_results cfg api_url read_csv vars f first_row act w vars' w' :
  process_file_as remote cfg api_url read_csv vars f first_row act w = (Ok vars', w') ->
  let listed := fun fr : gmap string (list string) =>
                  <["complete" := default [] (file_results w !! "complete") ++ [f]]> fr in
  file_results w' = listed (file_results w)
  \/ file_results w' = listed (listed_errors f w).
Proof.
  unfold process_file_as. intros H.
  apply bind_ok_inv in H as (repo & w1 & H1 & H).
  apply (steps_at (keeps file_results)) in H1; [|steps_all].
  apply bind_ok_inv in H as (agent & w2 & H2 & H).
  apply (steps_at (keeps file_results)) in H2; [|steps_all].
  apply bind_ok_inv in H as (vars1 & w3 & H3 & H).
  apply (steps_at (keeps file_results)) in H3; [|steps_all].
  apply bind_ok_inv in H as ([] & w4 & H4 & H).
  apply (steps_at (keeps file_results)) in H4; [|steps_all].
  apply bind_ok_inv in H as (vars2 & w5 & Hrows & H).
  apply process_rows_results in Hrows.
  apply bind_ok_inv in H as ([] & w6 & Hdone & H).
  apply ret_ok_inv in H as [_ ->].
  unfold file_result in Hdone. inversion Hdone; subst w6; clear Hdone. cbn [file_results].
  assert (H0 : file_results w4 = file_results w) by (unfold keeps in *; congruence).
  unfold listed_errors in *. rewrite H0 in Hrows.
  destruct Hrows as [Hr|Hr]; rewrite Hr; [left; reflexivity|right].
  rewrite lookup_insert_ne by discriminate. reflexivity.
Qed.

End KeepsResults.

Lemma process_file_as_results_witness :
  let f := "/drive/box_create.csv" in
  let rows := [box_row "https://aspace/resources/77#tree::archival_object_101" "c1" "1";
               box_row "https://aspace/resources/77#tree::archival_object_102" "bad" "1"] in
  let w' := (process_file_as demo_remote demo_config "https://aspace/api" (fun _ => rows)
               {| container_list := None; built := None |} f
               (box_row "https://aspace/resources/77#tree::archival_object_101" "c1" "1")
               (Some Create) fresh).2 in
  file_results w' = <["complete" := [f]]> ∅
  \/ file_results w' = <["complete" := [f]]> (listed_errors f fresh).
Proof.
  cbv zeta.
  eapply (process_file_as_results demo_remote demo_config "https://aspace/api"
            (fun _ => [box_row "https://aspace/resources/77#tree::archival_object_101" "c1" "1";
                       box_row "https://aspace/resources/77#tree::archival_object_102" "bad"
                         "1"])
            {| container_list := None; built := None |} "/drive/box_create.csv"
            (box_row "https://aspace/resources/77#tree::archival_object_101" "c1" "1")
            (Some Create) fresh).
  vm_compute. reflexivity.
Defined.

(** ** Row pipeline: a refused post *)

(** X12.  In a file of records to create, a row without a container
    whose post the remote API refuses ends the file: that one request
    is sent, the error and the row are logged, the file is listed under
    ["errors"], nothing is written to the output file and the rows after
    it are not looked at. *)
Theorem refused_post_ends_the_file remote api_url drive_path input_csv_file output_csv_file
    repo_identifier agent_uri previous_container vars (r : row) (rest : list row)
    (record_id : string) (w : world) (st : Z) (body : json) :
  (PyStr.rpartition "_" (Parent_Record r)).2 = record_id ->
  record_id <> "" ->
  Top_Container r = JStr "" ->
  let built_ := create_archival_object r repo_identifier record_id (set_resource r) in
  let req := post_request (api_url +:+ built_.2) built_.1 in
  remote (sent w) req = Response st body ->
  st <> 200 ->
  exists w',
    process_rows remote api_url drive_path input_csv_file output_csv_file (Some Create)
      repo_identifier agent_uri previous_container vars (r :: rest) w
    = (Ok {| container_list := container_list vars; built := Some built_ |}, w')
    /\ sent w' = sent w ++ [req]
    /\ outputs w' = outputs w
    /\ file_results w' = listed_errors input_csv_file w
    /\ logged w'
       = logged w ++ [log_exception (ArchivesSpaceError (api_url +:+ built_.2) st body);
                      log_debug_row r].
Proof.
  intros Hid Hne Htc built_ req Hpost Hst.
  set (vars' := {| container_list := container_list vars; built := Some built_ |}).
  assert (Hrow : process_row remote api_url drive_path input_csv_file output_csv_file
                   (Some Create) repo_identifier agent_uri previous_container vars r
                   (bind_row r w).2
                 = (Ok (Break, vars'),
                    (post_failed input_csv_file r vars'
                       (ArchivesSpaceError (api_url +:+ built_.2) st body)
                       (add_sent req (bind_row r w).2)).2)).
  { unfold process_row. rewrite Hid.
    apply String.eqb_neq in Hne. rewrite Hne. cbn [negb].
    unfold row_body. rewrite Htc. cbn [py_eq String.eqb negb].
    erewrite bind_ok by reflexivity. cbn beta iota.
    erewrite bind_ok by reflexivity. cbn beta.
    unfold post_step. fold built_. fold vars'. cbn [built vars'].
    destruct built_ as [record_json endpoint] eqn:Eb.
    erewrite try_raise.
    2: { erewrite bind_raise; [reflexivity|].
         apply post_record_refused; [exact Hpost|exact Hst]. }
    reflexivity. }
  eexists. split.
  - cbn [process_rows]. erewrite bind_ok by reflexivity.
    erewrite bind_ok by exact Hrow. reflexivity.
  - unfold post_failed, mbind, M_bind, bind, logging, file_result, mret, M_ret, ret,
      add_sent, listed_errors, bind_row.
    cbn [fst snd sent logged outputs backups file_results].
    repeat split. rewrite <- app_assoc. reflexivity.
Qed.

Lemma refused_post_ends_the_file_witness :
  let r := box_row "https://aspace/resources/77#tree::archival_object_102" "bad" "" in
  let built_ := create_archival_object r (JStr "11") "102" (set_resource r) in
  exists w',
    process_rows demo_remote "https://aspace/api" "/drive" "/drive/box_create.csv"
      "/drive/outputs/box_create_out.csv" (Some Create) (JStr "11")
      (JStr "/agents/people/5") (JStr "") {| container_list := None; built := None |}
      [r; box_row "https://aspace/resources/77#tree::archival_object_103" "c3" ""] fresh
    = (Ok {| container_list := None; built := Some built_ |}, w')
    /\ sent w' = [post_request ("https://aspace/api" +:+ built_.2) built_.1]
    /\ outputs w' = ∅.
Proof.
  cbv zeta.
  destruct (refused_post_ends_the_file demo_remote "https://aspace/api" "/drive"
              "/drive/box_create.csv" "/drive/outputs/box_create_out.csv" (JStr "11")
              (JStr "/agents/people/5") (JStr "") {| container_list := None; built := None |}
              (box_row "https://aspace/resources/77#tree::archival_object_102" "bad" "")
              [box_row "https://aspace/resources/77#tree::archival_object_103" "c3" ""]
              "102" fresh 400 (JObj [("error", JStr "Invalid record")])
              eq_refl ltac:(discriminate) eq_refl eq_refl ltac:(lia))
    as (w' & Hrun & Hsent & Hout & _).
  exists w'. split; [exact Hrun|]. split; [exact Hsent|exact Hout].
Defined.

(** ** Row pipeline: the first request of a row *)

Lemma sent_grows (w w' : world) : grows w w' -> sent w `prefix_of` sent w'.
Proof. intros H. apply H. Qed.

Lemma first_bind_from {A B} (m : M A) (k : A -> M B) (w : world) (l : list request) :
  (forall a, steps grows (k a)) ->
  l `prefix_of` sent (m w).2 ->
  l `prefix_of` sent ((m ≫= k) w).2.
Proof.
  intros Hk H. etrans; [exact H|]. apply sent_grows. apply (steps_bind_from grows _ k w Hk).
Qed.

Lemma first_try_from {A} (m : M A) (classes : exn -> bool) (h : exn -> M A) (w : world)
    (l : list request) :
  (forall e, steps grows (h e)) ->
  l `prefix_of` sent (m w).2 ->
  l `prefix_of` sent (try_except m classes h w).2.
Proof.
  intros Hh H. etrans; [exact H|]. apply sent_grows.
  apply (steps_try_from grows _ classes h w Hh).
Qed.

Lemma first_bind_after {A B} (m : M A) (k : A -> M B) (w w1 : world) (a : A)
    (req : request) :
  m w = (Ok a, w1) ->
  sent w1 = sent w ->
  sent w1 ++ [req] `prefix_of` sent (k a w1).2 ->
  sent w ++ [req] `prefix_of` sent ((m ≫= k) w).2.
Proof. intros Hm Hs H. erewrite bind_ok by exact Hm. rewrite <- Hs. exact H. Qed.

Lemma get_matched_containers_ok (found : option (list (json * json))) (n : json) (w : world) :
  exists uri w',
    get_matched_containers found n w = (Ok uri, w') /\ sent w' = sent w.
Proof.
  unfold get_matched_containers, try_except, lift, raise.
  destruct found as [l|]; [destruct (match_containers l n)|];
    eexists _, _; split; reflexivity.
Qed.

Lemma create_archival_object_endpoint (r : row) (repo_id : json) (parent_id resource_id : string) :
  (create_archival_object r repo_id parent_id resource_id).2
  = "/repositories/" +:+ py_str repo_id +:+ "/archival_objects".
Proof. reflexivity. Qed.

Lemma create_archival_object_parent (r : row) (repo_id : json)
    (parent_id resource_id : string) :
  (field "parent" (create_archival_object r repo_id parent_id resource_id).1 ≫= field "ref")
  = Some (JStr ("/repositories/" +:+ py_str repo_id +:+ "/archival_objects/" +:+ parent_id)).
Proof.
  unfold create_archival_object.
  destruct (String.eqb (Title r) ""), (negb (py_in (Top_Container r) [JStr ""; JNull]));
    reflexivity.
Qed.

Lemma listed_errors_changes (f : string) (w : world) : listed_errors f w <> file_results w.
Proof.
  intros H. apply (f_equal (fun m => m !! "errors")) in H.
  unfold listed_errors in H. rewrite lookup_insert_eq in H.
  destruct (file_results w !! "errors") as [l|]; [|discriminate H].
  cbn in H. inversion H as [Hl]. apply (f_equal length) in Hl.
  rewrite length_app in Hl. cbn in Hl. lia.
Qed.

Section Lookups.
Context (remote : list request -> request -> reply).

#[local] Hint Resolve grows_logging grows_write_line grows_file_result grows_bind_row : steps.
#[local] Hint Resolve grows_get_record grows_post_record grows_get_instance_data
  grows_get_containers grows_get_matched_containers grows_update_archival_object
  grows_post_events grows_get_repo grows_get_agent grows_post_step grows_process_row
  grows_process_rows : steps.

(** A row in a box other than [previous_container] has its own record
    fetched first. *)
Lemma row_body_lookup api_url drive_path input_csv_file output_csv_file act
    repo_identifier agent_uri previous_container record_id vars (r : row) (w : world) :
  py_eq (Top_Container r) (JStr "") = false ->
  py_eq (Top_Container r) previous_container = false ->
  sent w ++ [get_request (api_url +:+ "/repositories/" +:+ py_str repo_identifier
                          +:+ "/archival_objects/" +:+ record_id)]
    `prefix_of` sent (row_body remote api_url drive_path input_csv_file output_csv_file act
                        repo_identifier agent_uri previous_container record_id vars r w).2.
Proof.
  intros Hbox Hdiff. unfold row_body. rewrite Hbox, Hdiff. cbn [negb].
  apply first_bind_from; [intros [r1 vars1]; steps_all|].
  apply first_bind_from; [intros vars1; steps_all|].
  apply first_bind_from; [intros found; steps_all|].
  unfold get_containers.
  apply first_try_from; [intros e; steps_all|].
  apply first_bind_from; [intros record_json; steps_all|].
  unfold get_request. rewrite sent_get_record. reflexivity.
Qed.

(** What a row sends first once its container is settled: the update
    path fetches the record, the create path posts the new one. *)
Lemma built_first_request api_url drive_path input_csv_file output_csv_file (a : action)
    repo_identifier agent_uri record_id resource_identifier vars (r : row) (w : world) :
  exists req,
    sent w ++ [req]
      `prefix_of`
      sent ((vars ←
               match Some a with
               | Some Update =>
                   res ← update_archival_object remote api_url r record_id repo_identifier
                           (drive_path +:+ "/backups");
                   match res with
                   | Some p => mret {| container_list := container_list vars;
                                       built := Some p |}
                   | None => raise TypeError
                   end
               | Some Create =>
                   mret {| container_list := container_list vars;
                           built := Some (create_archival_object r repo_identifier record_id
                                            resource_identifier) |}
               | None => mret vars
               end;
             post_step remote api_url input_csv_file output_csv_file repo_identifier
               agent_uri r vars) w).2
    /\ (req = get_request (api_url +:+ "/repositories/" +:+ py_str repo_identifier
                           +:+ "/archival_objects/" +:+ record_id)
        \/ (a = Create
            /\ req = post_request
                       (api_url +:+ "/repositories/" +:+ py_str repo_identifier
                        +:+ "/archival_objects")
                       (create_archival_object r repo_identifier record_id
                          resource_identifier).1)).
Proof.
  destruct a.
  - eexists. split; [|right; split; reflexivity].
    erewrite bind_ok by reflexivity. cbn beta.
    unfold post_step. cbn [built].
    rewrite (surjective_pairing (create_archival_object r repo_identifier record_id
                                   resource_identifier)).
    rewrite create_archival_object_endpoint.
    apply first_try_from; [intros e; unfold post_failed; steps_all|].
    apply first_bind_from; [intros record_post; unfold post_failed; steps_all|].
    unfold post_request. rewrite sent_post_record. reflexivity.
  - eexists. split; [|left; reflexivity].
    apply first_bind_from; [intros vars1; steps_all|].
    apply first_bind_from; [intros res; steps_all|].
    unfold get_request. rewrite sent_update_archival_object. reflexivity.
Qed.

(** The first request of a row to create or to update names the
    record identifier: it fetches the archival object of that
    identifier, or posts a record whose parent is that object. *)
Lemma row_body_first_request api_url drive_path input_csv_file output_csv_file (a : action)
    repo_identifier agent_uri previous_container record_id vars (r : row) (w : world) :
  previous_container = JStr "" \/ container_list vars <> None ->
  exists req,
    sent w ++ [req]
      `prefix_of`
      sent (row_body remote api_url drive_path input_csv_file output_csv_file (Some a)
              repo_identifier agent_uri previous_container record_id vars r w).2
    /\ (req = get_request (api_url +:+ "/repositories/" +:+ py_str repo_identifier
                           +:+ "/archival_objects/" +:+ record_id)
        \/ (a = Create
            /\ req_method req = POST
            /\ req_url req = api_url +:+ "/repositories/" +:+ py_str repo_identifier
                             +:+ "/archival_objects"
            /\ ((req_json req ≫= field "parent") ≫= field "ref")
               = Some (JStr ("/repositories/" +:+ py_str repo_identifier
                             +:+ "/archival_objects/" +:+ record_id)))).
Proof.
  intros Hbound.
  assert (Hnames : forall (r' : row) (req : request),
             req = get_request (api_url +:+ "/repositories/" +:+ py_str repo_identifier
                                +:+ "/archival_objects/" +:+ record_id)
             \/ (a = Create
                 /\ req = post_request
                            (api_url +:+ "/repositories/" +:+ py_str repo_identifier
                             +:+ "/archival_objects")
                            (create_archival_object r' repo_identifier record_id
                               (set_resource r)).1) ->
             req = get_request (api_url +:+ "/repositories/" +:+ py_str repo_identifier
                                +:+ "/archival_objects/" +:+ record_id)
             \/ (a = Create
                 /\ req_method req = POST
                 /\ req_url req = api_url +:+ "/repositories/" +:+ py_str repo_identifier
                                  +:+ "/archival_objects"
                 /\ ((req_json req ≫= field "parent") ≫= field "ref")
                    = Some (JStr ("/repositories/" +:+ py_str repo_identifier
                                  +:+ "/archival_objects/" +:+ record_id)))).
  { intros r' req [->|[-> ->]]; [left; reflexivity|right].
    repeat split. cbn [req_json post_request]. apply create_archival_object_parent. }
  destruct (py_eq (Top_Container r) (JStr "")) eqn:Hbox.
  - destruct (built_first_request api_url drive_path input_csv_file output_csv_file a
                repo_identifier agent_uri record_id (set_resource r) vars r w)
      as (req & Hreq & Hwhich).
    exists req. split; [|apply (Hnames r), Hwhich].
    unfold row_body. rewrite Hbox. cbn [negb].
    erewrite bind_ok by reflexivity. exact Hreq.
  - destruct (py_eq (Top_Container r) previous_container) eqn:Hprev.
    + destruct (container_list vars) as [found|] eqn:Hfound.
      2: { destruct Hbound as [->|Hbound]; [|contradiction].
           rewrite Hprev in Hbox. discriminate Hbox. }
      destruct (get_matched_containers_ok found (Top_Container r) w)
        as (uri & w1 & Hmatch & Hsent).
      destruct (built_first_request api_url drive_path input_csv_file output_csv_file a
                  repo_identifier agent_uri record_id (set_resource r) vars
                  (set_Top_Container uri r) (bind_row (set_Top_Container uri r) w1).2)
        as (req & Hreq & Hwhich).
      exists req. split; [|apply (Hnames (set_Top_Container uri r)), Hwhich].
      unfold row_body. rewrite Hbox, Hprev. cbn [negb].
      eapply (first_bind_after _ _ w (bind_row (set_Top_Container uri r) w1).2
                (set_Top_Container uri r, vars) req); [| |exact Hreq].
      * erewrite bind_ok by reflexivity. cbn beta. rewrite Hfound.
        erewrite bind_ok by exact Hmatch. cbn beta zeta.
        erewrite bind_ok by reflexivity. reflexivity.
      * exact Hsent.
    + eexists. split; [|left; reflexivity].
      apply row_body_lookup; assumption.
Qed.

Lemma process_row_lookup api_url drive_path input_csv_file output_csv_file act
    repo_identifier agent_uri previous_container vars (r : row) (w : world) :
  (PyStr.rpartition "_" (Parent_Record r)).2 <> "" ->
  py_eq (Top_Container r) (JStr "") = false ->
  py_eq (Top_Container r) previous_container = false ->
  sent w ++ [get_request (api_url +:+ "/repositories/" +:+ py_str repo_identifier
                          +:+ "/archival_objects/"
                          +:+ (PyStr.rpartition "_" (Parent_Record r)).2)]
    `prefix_of` sent (process_row remote api_url drive_path input_csv_file output_csv_file
                        act repo_identifier agent_uri previous_container vars r w).2.
Proof.
  intros Hid Hbox Hdiff. unfold process_row.
  apply String.eqb_neq in Hid. rewrite Hid. cbn [negb].
  apply row_body_lookup; assumption.
Qed.

(** Rows that are all gone through, none of them ending the file:
    every row in a box other than [previous_container] had its record
    fetched. *)
Lemma process_rows_lookups api_url drive_path input_csv_file output_csv_file act
    repo_identifier agent_uri previous_container (rows : list row) :
  forall vars w vars' w',
    process_rows remote api_url drive_path input_csv_file output_csv_file act
      repo_identifier agent_uri previous_container vars rows w = (Ok vars', w') ->
    file_results w' = file_results w ->
    forall r,
      In r rows ->
      (PyStr.rpartition "_" (Parent_Record r)).2 <> "" ->
      py_eq (Top_Container r) (JStr "") = false ->
      py_eq (Top_Container r) previous_container = false ->
      exists l,
        sent w' = sent w ++ l
        /\ In (get_request (api_url +:+ "/repositories/" +:+ py_str repo_identifier
                            +:+ "/archival_objects/"
                            +:+ (PyStr.rpartition "_" (Parent_Record r)).2)) l.
Proof.
  induction rows as [|r0 rows IH]; intros vars w vars' w' H Hres r Hin Hid Hbox Hdiff;
    [destruct Hin|].
  cbn [process_rows] in H.
  apply bind_ok_inv in H as ([] & w0 & Hbound & H).
  unfold bind_row in Hbound. inversion Hbound; subst w0; clear Hbound.
  apply bind_ok_inv in H as ([fl vars1] & w1 & Hrow & H).
  pose proof (process_row_results remote _ _ _ _ _ _ _ _ _ _ _ _ _ _ Hrow) as Hfr.
  cbn [file_results] in Hfr.
  destruct Hfr as [[-> Hw1]|[-> Hw1]].
  2: { apply ret_ok_inv in H as [_ ->]. rewrite Hres in Hw1.
       destruct (listed_errors_changes input_csv_file w). symmetry. exact Hw1. }
  assert (Hgrows1 : sent w1 = (process_row remote api_url drive_path input_csv_file
                                 output_csv_file act repo_identifier agent_uri
                                 previous_container vars r0
                                 {| sent := sent w; logged := logged w; outputs := outputs w;
                                    backups := backups w; file_results := file_results w;
                                    bound_row := Some r0 |}).2.(sent)).
  { rewrite Hrow. reflexivity. }
  pose proof (steps_at grows _ _ _ _ (grows_process_rows remote _ _ _ _ _ _ _ _ _ _) H)
    as (Hs2 & _).
  destruct Hs2 as [l2 Hl2].
  destruct Hin as [<-|Hin].
  - destruct (process_row_lookup api_url drive_path input_csv_file output_csv_file act
                repo_identifier agent_uri previous_container vars r0
                {| sent := sent w; logged := logged w; outputs := outputs w;
                   backups := backups w; file_results := file_results w;
                   bound_row := Some r0 |} Hid Hbox Hdiff) as [l1 Hl1].
    rewrite <- Hgrows1 in Hl1. cbn [sent] in Hl1.
    eexists. split.
    + rewrite Hl2, Hl1, <- !app_assoc. reflexivity.
    + apply in_or_app. left. left. reflexivity.
  - pose proof (steps_at grows _ _ _ _ (grows_process_row remote _ _ _ _ _ _ _ _ _ _) Hrow)
      as (Hs1 & _).
    destruct Hs1 as [l1 Hl1]. cbn [sent] in Hl1.
    destruct (IH vars1 w1 vars' w' H (eq_trans Hres (eq_sym Hw1)) r Hin Hid Hbox Hdiff)
      as (l & Hl & Hinl).
    exists (l1 ++ l). split.
    + rewrite Hl, Hl1, <- app_assoc. reflexivity.
    + apply in_or_app. right. exact Hinl.
Qed.

(** The repository that [get_repo] answers with depends on the
    requests made so far only. *)
Lemma get_repo_by_requests (first_row : row) (api_url : string) (w w0 : world) :
  sent w0 = sent w ->
  (get_repo remote first_row api_url w0).1 = (get_repo remote first_row api_url w).1.
Proof.
  intros Hs.
  unfold get_repo, set_repository, get_repositories, get_record, send, try_except, mbind,
    M_bind, bind, lift, raise, logging, mret, M_ret, ret.
  rewrite Hs. destruct (remote (sent w) _) as [|st body]; [reflexivity|].
  destruct (st =? 200); [|reflexivity].
  destruct (py_iter body) as [items|e].
  - destruct (repo_dict_of items []) as [repo_dict|e].
    + destruct (repo_lookup (Repository_Name first_row) repo_dict); reflexivity.
    + destruct (is_ArchivesSpaceError e); [reflexivity|].
      destruct (is_ArchivesSpaceError e || is_RecordNotFoundError e); reflexivity.
  - destruct (is_ArchivesSpaceError e); [reflexivity|].
    destruct (is_ArchivesSpaceError e || is_RecordNotFoundError e); reflexivity.
Qed.


End Lookups.


(** ** Rows without a record identifier *)

(** C10.  The record identifier of a row is what follows the last
    underscore of its parent-record reference.  It is empty, and the row
    skipped, only for an empty reference and for one that ends with an
    underscore.  A reference without any underscore is its own
    identifier: such a row, when the reference is not empty, goes through
    the pipeline, and the whole reference is the last segment of the
    archival-object URL that the create path names as parent and that the
    update path fetches.  The row's processing uses it so: the first
    request that a row to create or to update sends fetches the
    archival object at that URL, or, for a row to create whose
    containers need no lookup, posts a record whose parent is that
    URL. *)
Theorem record_id_without_underscore :
  (forall r : row,
      (PyStr.rpartition "_" (Parent_Record r)).2 = ""
      <-> Parent_Record r = "" \/ exists p, Parent_Record r = p +:+ "_")
  /\ (forall remote api_url drive_path input_csv_file output_csv_file act repo_identifier
        agent_uri previous_container vars (r : row),
      Parent_Record r <> "" ->
      (forall p, Parent_Record r <> p +:+ "_") ->
      process_row remote api_url drive_path input_csv_file output_csv_file act
        repo_identifier agent_uri previous_container vars r
      = row_body remote api_url drive_path input_csv_file output_csv_file act
          repo_identifier agent_uri previous_container
          (PyStr.rpartition "_" (Parent_Record r)).2 vars r)
  /\ (forall r : row,
      PyStr.contains "_" (Parent_Record r) = false ->
      (PyStr.rpartition "_" (Parent_Record r)).2 = Parent_Record r)
  /\ (forall remote api_url drive_path input_csv_file output_csv_file act repo_identifier
        agent_uri previous_container vars (r : row),
      PyStr.contains "_" (Parent_Record r) = false ->
      Parent_Record r <> "" ->
      process_row remote api_url drive_path input_csv_file output_csv_file act
        repo_identifier agent_uri previous_container vars r
      = row_body remote api_url drive_path input_csv_file output_csv_file act
          repo_identifier agent_uri previous_container (Parent_Record r) vars r)
  /\ (forall (r : row) (repo_id : json) (record_id resource_id : string),
      (field "parent" (create_archival_object r repo_id record_id resource_id).1
         ≫= field "ref")
      = Some (JStr ("/repositories/" +:+ py_str repo_id +:+ "/archival_objects/"
                    +:+ record_id)))
  /\ (forall remote (api_url : string) (r : row) (record_id : string) (repo_id : json)
        (dirpath : string) (w : world),
      sent (update_archival_object remote api_url r record_id repo_id dirpath w).2
      = sent w ++ [{| req_method := GET;
                      req_url := api_url +:+ "/repositories/" +:+ py_str repo_id
                                 +:+ "/archival_objects/" +:+ record_id;
                      req_json := None |}])
  /\ (forall remote api_url drive_path input_csv_file output_csv_file (a : action)
        repo_identifier agent_uri previous_container vars (r : row) (w : world),
      PyStr.contains "_" (Parent_Record r) = false ->
      Parent_Record r <> "" ->
      previous_container = JStr "" \/ container_list vars <> None ->
      let url := "/repositories/" +:+ py_str repo_identifier +:+ "/archival_objects/"
                 +:+ Parent_Record r in
      exists req,
        sent w ++ [req]
          `prefix_of`
          sent (process_row remote api_url drive_path input_csv_file output_csv_file
                  (Some a) repo_identifier agent_uri previous_container vars r w).2
        /\ (req = get_request (api_url +:+ url)
            \/ (a = Create
                /\ req_method req = POST
                /\ req_url req = api_url +:+ "/repositories/" +:+ py_str repo_identifier
                                 +:+ "/archival_objects"
                /\ ((req_json req ≫= field "parent") ≫= field "ref")
                   = Some (JStr url)))).
Proof.
  assert (Hwhole : forall s, PyStr.contains "_" s = false -> (PyStr.rpartition "_" s).2 = s).
  { intros s H. unfold PyStr.rpartition. rewrite (find_last_absent _ _ H). reflexivity. }
  assert (Hempty : forall s, (PyStr.rpartition "_" s).2 = ""
                             <-> s = "" \/ exists p, s = p +:+ "_").
  { intros s. unfold PyStr.rpartition.
    destruct (PyStr.find_last "_" s) as [[b a]|] eqn:E; cbn [snd].
    + destruct (find_last_split _ _ _ _ E) as [Hs Ha]. split.
      * intros ->. right. exists b. exact Hs.
      * intros [Hnil|[p Hp]].
        -- subst s. destruct b; discriminate Hnil.
        -- rewrite Hp in E.
           rewrite (find_last_app "_" p "" eq_refl) in E. inversion E. reflexivity.
    + split.
      * intros ->. left. reflexivity.
      * intros [Hnil|[p Hp]]; [exact Hnil|].
        rewrite Hp, (find_last_app "_" p "" eq_refl) in E. discriminate E. }
  split; [|split; [|split; [|split; [|split; [|split]]]]].
  - intros r. apply Hempty.
  - intros remote api_url drive_path input_csv_file output_csv_file act repo_identifier
      agent_uri previous_container vars r Hne Hend.
    unfold process_row.
    destruct (String.eqb_spec (PyStr.rpartition "_" (Parent_Record r)).2 "") as [E|E];
      [|reflexivity].
    apply Hempty in E as [E|[p E]]; [contradiction|]. destruct (Hend p E).
  - intros r. apply Hwhole.
  - intros remote api_url drive_path input_csv_file output_csv_file act repo_identifier
      agent_uri previous_container vars r Hno Hne.
    unfold process_row. rewrite (Hwhole _ Hno).
    apply String.eqb_neq in Hne. rewrite Hne. reflexivity.
  - intros r repo_id record_id resource_id. unfold create_archival_object.
    destruct (String.eqb (Title r) ""), (negb (py_in (Top_Container r) [JStr ""; JNull]));
      reflexivity.
  - intros. apply sent_update_archival_object.
  - intros remote api_url drive_path input_csv_file output_csv_file a repo_identifier
      agent_uri previous_container vars r w Hno Hne Hbound url.
    unfold process_row. rewrite (Hwhole _ Hno).
    apply String.eqb_neq in Hne. rewrite Hne. cbn [negb].
    apply row_body_first_request, Hbound.
Qed.

Lemma record_id_without_underscore_witness :
  (PyStr.rpartition "_" "12345").2 = "12345"
  /\ process_row demo_remote "https://aspace/api" "/drive" "/drive/update.csv"
       "/drive/outputs/update_out.csv" (Some Update) (JStr "11") JNull (JStr "")
       {| container_list := None; built := None |}
       (csv_row "BRBL" "12345" "" "" "" "" "" "" no_event no_event no_event)
     = row_body demo_remote "https://aspace/api" "/drive" "/drive/update.csv"
         "/drive/outputs/update_out.csv" (Some Update) (JStr "11") JNull (JStr "")
         "12345" {| container_list := None; built := None |}
         (csv_row "BRBL" "12345" "" "" "" "" "" "" no_event no_event no_event)
  /\ exists req,
       sent fresh ++ [req]
         `prefix_of`
         sent (process_row demo_remote "https://aspace/api" "/drive" "/drive/update.csv"
                 "/drive/outputs/update_out.csv" (Some Update) (JStr "11") JNull (JStr "")
                 {| container_list := None; built := None |}
                 (csv_row "BRBL" "12345" "" "" "" "" "" "" no_event no_event no_event)
                 fresh).2
       /\ (req = get_request "https://aspace/api/repositories/11/archival_objects/12345"
           \/ (Update = Create
               /\ req_method req = POST
               /\ req_url req = "https://aspace/api/repositories/11/archival_objects"
               /\ ((req_json req ≫= field "parent") ≫= field "ref")
                  = Some (JStr "/repositories/11/archival_objects/12345"))).
Proof.
  split; [|split].
  - apply (proj1 (proj2 (proj2 record_id_without_underscore))
             (csv_row "BRBL" "12345" "" "" "" "" "" "" no_event no_event no_event)).
    reflexivity.
  - apply (proj1 (proj2 (proj2 (proj2 record_id_without_underscore)))).
    + reflexivity.
    + discriminate.
  - apply (proj2 (proj2 (proj2 (proj2 (proj2 (proj2 record_id_without_underscore)))))
             demo_remote "https://aspace/api" "/drive" "/drive/update.csv"
             "/drive/outputs/update_out.csv" Update (JStr "11") JNull (JStr "")
             {| container_list := None; built := None |}
             (csv_row "BRBL" "12345" "" "" "" "" "" "" no_event no_event no_event) fresh).
    + reflexivity.
    + discriminate.
    + left. reflexivity.
Defined.

(** ** Event recorder: slots and handlers *)

Lemma try_caught {A} (m : M A) (classes : exn -> bool) (h : exn -> M A) (w w' : world)
    (e : exn) :
  (forall e0 w0, exists a w1, h e0 w0 = (Ok a, w1)) ->
  try_except m classes h w = (Raise e, w') ->
  m w = (Raise e, w') /\ classes e = false.
Proof.
  intros Hh H. apply try_raise_inv in H as [H|(e0 & w0 & _ & _ & H)]; [exact H|].
  destruct (Hh e0 w0) as (a & w1 & Hok). rewrite Hok in H. discriminate H.
Qed.

Lemma log_and_return {A} (entry : log_entry) (a : A) (w0 : world) :
  exists b w1, (logging entry ≫= fun _ => mret a) w0 = (Ok b, w1).
Proof. eexists _, _. reflexivity. Qed.

Lemma event_helper_raises remote api_url agent rec repo ty out d note w e w' :
  event_helper remote api_url agent rec repo ty out d note w = (Raise e, w') ->
  is_ArchivesSpaceError e = false /\ is_DataValidationError e = false.
Proof.
  unfold event_helper. intros H.
  apply try_caught in H as [_ H]; [|intros; apply log_and_return].
  apply orb_false_iff in H as [H1 H2]. split; assumption.
Qed.

(** One slot of [post_events]. *)
Lemma event_slot_ok remote api_url agent rec repo ty out d note (k : string)
    (m m' : gmap string json) w w' :
  (if negb (String.eqb ty "")
   then event_helper remote api_url agent rec repo ty out d note
        ≫= fun uri => mret (<[k := uri]> m)
   else mret m) w = (Ok m', w') ->
  forall j, is_Some (m' !! j) <-> (j = k /\ ty <> "") \/ is_Some (m !! j).
Proof.
  destruct (String.eqb_spec ty "") as [->|Hne]; cbn [negb]; intros H j.
  - apply ret_ok_inv in H as [-> _]. split; [auto|]. intros [[_ []]|H]; [reflexivity|exact H].
  - apply bind_ok_inv in H as (uri & w1 & _ & H). apply ret_ok_inv in H as [-> _].
    rewrite lookup_insert_is_Some'. split.
    + intros [->|H]; [left; split; [reflexivity|exact Hne]|right; exact H].
    + intros [[-> _]|H]; [left; reflexivity|right; exact H].
Qed.

Lemma event_slot_raises remote api_url agent rec repo ty out d note (k : string)
    (m : gmap string json) w e w' :
  (if negb (String.eqb ty "")
   then event_helper remote api_url agent rec repo ty out d note
        ≫= fun uri => mret (<[k := uri]> m)
   else mret m) w = (Raise e, w') ->
  is_ArchivesSpaceError e = false /\ is_DataValidationError e = false.
Proof.
  destruct (negb _); intros H; [|discriminate H].
  apply bind_raise_inv in H as [H|(uri & w1 & _ & H)]; [|discriminate H].
  apply event_helper_raises in H. exact H.
Qed.

(** X14.  [post_events] never returns [None]: the handler of its [try]
    is dead code, since [event_helper] has caught both error classes
    already.  The dictionary it returns has a key for exactly the event
    slots the row fills, and an exception that leaves it is neither an
    ArchivesSpaceError nor a DataValidationError. *)
Theorem post_events_slots remote (r : row) agent_uri repo_id record_uri api_url w :
  match (post_events remote r agent_uri repo_id record_uri api_url w).1 with
  | Ok (Some event_uris) =>
      forall k, is_Some (event_uris !! k)
                <-> (k = "Event_URI_1" /\ Event_Type_1 r <> "")
                    \/ (k = "Event_URI_2" /\ Event_Type_2 r <> "")
                    \/ (k = "Event_URI_3" /\ Event_Type_3 r <> "")
  | Ok None => False
  | Raise e => is_ArchivesSpaceError e = false /\ is_DataValidationError e = false
  end.
Proof.
  destruct (post_events remote r agent_uri repo_id record_uri api_url w) as [res w'] eqn:H.
  cbn [fst]. revert H.
  unfold post_events, try_except.
  match goal with |- context [let '(_, _) := ?b w in _] => destruct (b w) as [[a|e0] w1] eqn:Hb end.
  - intros H. inversion H; subst res w'; clear H.
    apply bind_ok_inv in Hb as (m1 & w2 & H1 & H).
    apply bind_ok_inv in H as (m2 & w3 & H2 & H).
    apply bind_ok_inv in H as (m3 & w4 & H3 & H).
    apply ret_ok_inv in H as [-> _].
    intros k.
    rewrite (event_slot_ok _ _ _ _ _ _ _ _ _ _ _ _ _ _ H3 k).
    rewrite (event_slot_ok _ _ _ _ _ _ _ _ _ _ _ _ _ _ H2 k).
    rewrite (event_slot_ok _ _ _ _ _ _ _ _ _ _ _ _ _ _ H1 k).
    pose proof (lookup_empty_is_Some (A:=json) (M:=gmap string) k). tauto.
  - assert (He : is_ArchivesSpaceError e0 = false /\ is_DataValidationError e0 = false).
    { apply bind_raise_inv in Hb as [H|(m1 & w2 & _ & H)];
        [eapply event_slot_raises; exact H|].
      apply bind_raise_inv in H as [H|(m2 & w3 & _ & H)];
        [eapply event_slot_raises; exact H|].
      apply bind_raise_inv in H as [H|(m3 & w4 & _ & H)];
        [eapply event_slot_raises; exact H|].
      discriminate H. }
    destruct He as [He1 He2]. rewrite He1, He2. cbn [orb].
    intros H. inversion H; subst res w'. split; assumption.
Qed.

(** ** Container resolver: error classes *)

Lemma json_get_raises k x e : json_get k x = Raise e -> is_RecordNotFoundError e = false.
Proof. destruct x; cbn; intros H; inversion H; reflexivity. Qed.

Lemma json_item_raises k x e : json_item k x = Raise e -> is_RecordNotFoundError e = false.
Proof.
  destruct x as [| | | | |d]; cbn; intros H; try (inversion H; reflexivity).
  destruct (PyDict.lookup k d); inversion H; reflexivity.
Qed.

Lemma py_iter_raises x e : py_iter x = Raise e -> is_RecordNotFoundError e = false.
Proof. destruct x; cbn; intros H; inversion H; reflexivity. Qed.

Lemma get_uris_loop_raises l acc e :
  get_uris_loop l acc = Raise e -> is_RecordNotFoundError e = false.
Proof.
  revert acc. induction l as [|inst l IH]; intros acc H; cbn [get_uris_loop] in H.
  - discriminate H.
  - destruct (json_get "instance_type" inst) as [ty|e0] eqn:E1;
      [|inversion H; subst; eapply json_get_raises; exact E1]. cbn [obind] in H.
    destruct (negb _); [|eapply IH; exact H].
    destruct (json_item "sub_container" inst) as [sc|e0] eqn:E2;
      [|inversion H; subst; eapply json_item_raises; exact E2]. cbn [obind] in H.
    destruct (json_item "top_container" sc) as [tc|e0] eqn:E3;
      [|inversion H; subst; eapply json_item_raises; exact E3]. cbn [obind] in H.
    destruct (json_item "ref" tc) as [ref|e0] eqn:E4;
      [|inversion H; subst; eapply json_item_raises; exact E4]. cbn [obind] in H.
    eapply IH; exact H.
Qed.

(** As many URIs as container instances. *)
Lemma get_uris_loop_length l acc uris cs :
  container_instances_of l = Ok cs ->
  get_uris_loop l acc = Ok uris ->
  length uris = (length acc + length cs)%nat.
Proof.
  revert acc cs. induction l as [|inst l IH]; intros acc cs Hc Hu;
    cbn [container_instances_of get_uris_loop] in Hc, Hu.
  - inversion Hc. inversion Hu. cbn. lia.
  - destruct (json_get "instance_type" inst) as [ty|e0]; [|discriminate Hc].
    cbn [obind] in Hc, Hu.
    destruct (container_instances_of l) as [cs'|e0]; [|discriminate Hc]. cbn [obind] in Hc.
    inversion Hc; subst cs; clear Hc.
    destruct (negb _).
    + destruct (json_item "sub_container" inst) as [sc|e0]; [|discriminate Hu].
      cbn [obind] in Hu.
      destruct (json_item "top_container" sc) as [tc|e0]; [|discriminate Hu].
      cbn [obind] in Hu.
      destruct (json_item "ref" tc) as [ref|e0]; [|discriminate Hu]. cbn [obind] in Hu.
      rewrite (IH _ _ eq_refl Hu), length_app. cbn. lia.
    + exact (IH _ _ eq_refl Hu).
Qed.

Lemma get_record_raises remote url w e w' :
  get_record remote url w = (Raise e, w') ->
  is_RecordNotFoundError e = false.
Proof.
  unfold get_record, send, mbind, M_bind, bind.
  destruct (remote (sent w) _) as [|st body]; [intros H; inversion H; reflexivity|].
  destruct (st =? 200); intros H; inversion H; reflexivity.
Qed.

Lemma generate_container_loop_raises remote api_url uris store bound w e w' :
  generate_container_loop remote api_url uris store bound w = (Raise e, w') ->
  is_RecordNotFoundError e = false.
Proof.
  revert store bound w. induction uris as [|u uris IH]; intros store bound w H;
    cbn [generate_container_loop] in H.
  - discriminate H.
  - apply bind_raise_inv in H as [H|(step & w1 & _ & H)]; [|eapply IH; exact H].
    apply try_raise_inv in H as [[H _]|(e0 & w0 & _ & _ & H)].
    + apply bind_raise_inv in H as [H|(rj & w1 & _ & H)];
        [eapply get_record_raises; exact H|].
      apply bind_raise_inv in H as [H|(uri & w2 & _ & H)].
      { unfold lift in H. inversion H. eapply json_item_raises. eassumption. }
      apply bind_raise_inv in H as [H|(ind & w3 & _ & H)]; [|discriminate H].
      unfold lift in H. inversion H. eapply json_item_raises. eassumption.
    + destruct bound; [discriminate H|]. inversion H. reflexivity.
Qed.

(** X15.  [get_instance_data] never returns [None]: its handler for
    RecordNotFoundError is dead code, since a record with a container
    instance has a container URI.  It raises RecordNotFoundError only
    for a record none of whose instances is a container, with the record
    as argument and without a request or a log entry. *)
Theorem get_instance_data_never_none remote api_url record_json w :
  match (get_instance_data remote api_url record_json w).1 with
  | Ok None => False
  | Ok (Some container_list) => True
  | Raise e =>
      is_RecordNotFoundError e = true ->
      e = RecordNotFoundError record_json
      /\ (get_instance_data remote api_url record_json w).2 = w
      /\ exists instances items,
           json_get "instances" record_json = Ok instances
           /\ py_iter instances = Ok items
           /\ container_instances_of items = Ok []
  end.
Proof.
  destruct (get_instance_data remote api_url record_json w) as [res w'] eqn:H.
  cbn [fst snd]. revert H.
  unfold get_instance_data. intros H.
  destruct (json_get "instances" record_json) as [instances|e0] eqn:E1.
  2: { inversion H. intros He. apply json_get_raises in E1. congruence. }
  erewrite bind_ok in H by reflexivity.
  destruct (py_iter instances) as [items|e0] eqn:E2.
  2: { inversion H. intros He. apply py_iter_raises in E2. congruence. }
  erewrite bind_ok in H by reflexivity.
  destruct (container_instances_of items) as [cs|e0] eqn:E3.
  2: { inversion H. intros He. exfalso. clear -E3 He.
       revert e0 E3 He. induction items as [|i items IH]; intros e0 E3 He;
         cbn [container_instances_of] in E3; [discriminate E3|].
       destruct (json_get "instance_type" i) as [ty|e1] eqn:E;
         [|inversion E3; subst; apply json_get_raises in E; congruence].
       cbn [obind] in E3.
       destruct (container_instances_of items) as [l|e1]; [discriminate E3|].
       inversion E3; subst. eapply IH; [reflexivity|exact He]. }
  erewrite bind_ok in H by reflexivity.
  destruct cs as [|c cs].
  - inversion H. intros _. split; [reflexivity|]. split; [reflexivity|].
    exists instances, items. repeat split; assumption.
  - assert (Hgen : forall e w1, generate_container_list remote api_url record_json w = (Raise e, w1) ->
                     is_RecordNotFoundError e = false).
    { intros e w1. unfold generate_container_list, get_uris. rewrite E1. cbn [obind].
      rewrite E2. cbn [obind].
      destruct (get_uris_loop items []) as [uris|e1] eqn:Eu.
      - erewrite bind_ok by reflexivity.
        pose proof (get_uris_loop_length _ _ _ _ E3 Eu) as Hlen.
        destruct uris as [|u uris]; [cbn in Hlen; lia|].
        apply generate_container_loop_raises.
      - intros Hr. inversion Hr; subst. eapply get_uris_loop_raises. exact Eu. }
    unfold try_except in H.
    destruct ((generate_container_list remote api_url record_json ≫= _) w)
      as [[a|e] w1] eqn:Eb.
    + inversion H; subst.
      apply bind_ok_inv in Eb as (cl & w2 & _ & Eb). apply ret_ok_inv in Eb as [-> _].
      exact I.
    + apply bind_raise_inv in Eb as [Eb|(cl & w2 & _ & Eb)]; [|discriminate Eb].
      rewrite (Hgen _ _ Eb) in H. inversion H; subst.
      intros He. rewrite (Hgen _ _ Eb) in He. discriminate He.
Qed.

Lemma get_containers_raises remote api_url parent_id repo_id w e w' :
  get_containers remote api_url parent_id repo_id w = (Raise e, w') ->
  is_ArchivesSpaceError e = false /\ is_RecordNotFoundError e = false.
Proof.
  unfold get_containers. intros H.
  apply try_caught in H as [_ H]; [|intros; apply log_and_return].
  apply orb_false_iff in H. exact H.
Qed.

(** ** Repository and agent lookups *)

Lemma py_eq_str_inv (k : json) (s : string) : py_eq k (JStr s) = true -> k = JStr s.
Proof.
  destruct k; cbn; try discriminate. intros H. apply String.eqb_eq in H. subst. reflexivity.
Qed.

Lemma repo_dict_of_entry (code uri : string) (o : json) (rest : list json)
    (acc : list (json * string)) :
  repository_entry code uri o ->
  repo_dict_of (o :: rest) acc
  = repo_dict_of rest (filter (fun kv => negb (py_eq kv.1 (JStr code))) acc
                       ++ [(JStr code, PyStr.drop 14 uri)]).
Proof.
  intros (d & -> & Hc & Hu). cbn [repo_dict_of json_get]. rewrite Hc, Hu. reflexivity.
Qed.

Lemma repo_lookup_app (name : string) (l1 l2 : list (json * string)) :
  repo_lookup name (l1 ++ l2)
  = match repo_lookup name l1 with Some v => Some v | None => repo_lookup name l2 end.
Proof.
  induction l1 as [|[k v] l1 IH]; [reflexivity|]. cbn [app repo_lookup].
  destruct (py_eq k (JStr name)); [reflexivity|exact IH].
Qed.

Lemma repo_lookup_replaced (name id : string) (acc : list (json * string)) :
  repo_lookup name (filter (fun kv => negb (py_eq kv.1 (JStr name))) acc ++ [(JStr name, id)])
  = Some id.
Proof.
  rewrite repo_lookup_app.
  assert (H : repo_lookup name (filter (fun kv => negb (py_eq kv.1 (JStr name))) acc) = None).
  { induction acc as [|[k v] acc IH]; [reflexivity|].
    rewrite filter_cons. cbn [fst]. destruct (py_eq k (JStr name)) eqn:E; cbn [negb].
    - rewrite decide_False by (intros []). exact IH.
    - rewrite decide_True by exact I. cbn [repo_lookup]. rewrite E. exact IH. }
  rewrite H. cbn. rewrite String.eqb_refl. reflexivity.
Qed.

Lemma repo_lookup_other (name code id : string) (acc : list (json * string)) :
  code <> name ->
  repo_lookup name (filter (fun kv => negb (py_eq kv.1 (JStr code))) acc ++ [(JStr code, id)])
  = repo_lookup name acc.
Proof.
  intros Hne. rewrite repo_lookup_app.
  assert (Hlast : repo_lookup name [(JStr code, id)] = None).
  { cbn. apply String.eqb_neq in Hne. rewrite Hne. reflexivity. }
  rewrite Hlast.
  assert (H : repo_lookup name (filter (fun kv => negb (py_eq kv.1 (JStr code))) acc)
              = repo_lookup name acc).
  { induction acc as [|[k v] acc IH]; [reflexivity|].
    rewrite filter_cons. cbn [fst]. destruct (py_eq k (JStr code)) eqn:E; cbn [negb].
    - rewrite decide_False by (intros []). apply py_eq_str_inv in E. subst k.
      cbn [repo_lookup py_eq]. apply String.eqb_neq in Hne. rewrite Hne. exact IH.
    - rewrite decide_True by exact I. cbn [repo_lookup]. rewrite IH. reflexivity. }
  rewrite H. destruct (repo_lookup name acc); reflexivity.
Qed.

Lemma repo_dict_of_known (before rest : list json) (acc : list (json * string)) :
  Forall known_repository before ->
  exists acc', repo_dict_of (before ++ rest) acc = repo_dict_of rest acc'.
Proof.
  intros H. revert acc. induction H as [|o before (code & uri & Ho) _ IH]; intros acc.
  - exists acc. reflexivity.
  - cbn [app]. rewrite (repo_dict_of_entry _ _ _ _ _ Ho). apply IH.
Qed.

Lemma repo_dict_of_others (name : string) (after : list json) (acc : list (json * string)) :
  Forall (other_repository name) after ->
  exists repo_dict,
    repo_dict_of after acc = Ok repo_dict
    /\ repo_lookup name repo_dict = repo_lookup name acc.
Proof.
  intros H. revert acc. induction H as [|o after (code & uri & Hne & Ho) _ IH]; intros acc.
  - exists acc. split; reflexivity.
  - rewrite (repo_dict_of_entry _ _ _ _ _ Ho).
    destruct (IH (filter (fun kv => negb (py_eq kv.1 (JStr code))) acc
                  ++ [(JStr code, PyStr.drop 14 uri)])) as (dict & Hd & Hl).
    exists dict. split; [exact Hd|]. rewrite Hl. apply repo_lookup_other, Hne.
Qed.

(** X17.  [get_repo] answers with the identifier of the repository
    that the first row names: what follows [/repositories/] in the URI
    of the entry with that code in the repository list.  When no entry
    has the code it logs a RecordNotFoundError and returns [None].  When
    the API refuses the list, the handler in [get_repositories] reads
    [repo_list], which is not bound: an UnboundLocalError leaves
    [get_repo], one request made and nothing logged. *)
Theorem get_repo_by_code remote (first_row : row) (api_url : string) (w : world) :
  let req := get_request (api_url +:+ "/repositories") in
  (forall before repo after id,
      remote (sent w) req = Response 200 (JArr (before ++ repo :: after)) ->
      Forall known_repository before ->
      repository_entry (Repository_Name first_row) ("/repositories/" +:+ id) repo ->
      Forall (other_repository (Repository_Name first_row)) after ->
      get_repo remote first_row api_url w = (Ok (Some id), add_sent req w))
  /\ (forall repos,
      remote (sent w) req = Response 200 (JArr repos) ->
      Forall (other_repository (Repository_Name first_row)) repos ->
      get_repo remote first_row api_url w
      = (Ok None,
         add_logged [log_exception (RecordNotFoundError (JStr (Repository_Name first_row)))]
           (add_sent req w)))
  /\ (forall st body,
      remote (sent w) req = Response st body ->
      st <> 200 ->
      get_repo remote first_row api_url w
      = (Raise (UnboundLocalError "repo_list"), add_sent req w)).
Proof.
  intros req. split; [|split].
  - intros before repo after id Hget Hbefore Hrepo Hafter.
    destruct (repo_dict_of_known before (repo :: after) [] Hbefore) as (acc & Hacc).
    rewrite (repo_dict_of_entry _ _ _ _ _ Hrepo) in Hacc.
    destruct (repo_dict_of_others _ after
                (filter (fun kv => negb (py_eq kv.1 (JStr (Repository_Name first_row)))) acc
                 ++ [(JStr (Repository_Name first_row),
                      PyStr.drop 14 ("/repositories/" +:+ id))]) Hafter)
      as (dict & Hdict & Hlook).
    rewrite repo_lookup_replaced in Hlook.
    unfold get_repo, set_repository, get_repositories.
    apply try_ok. erewrite bind_ok; [reflexivity|].
    erewrite bind_ok.
    2: { apply try_ok. erewrite bind_ok by (apply get_record_ok; exact Hget).
         erewrite bind_ok by reflexivity. unfold lift. rewrite Hacc, Hdict. reflexivity. }
    cbn beta. rewrite Hlook. reflexivity.
  - intros repos Hget Hall.
    destruct (repo_dict_of_others _ repos [] Hall) as (dict & Hdict & Hlook).
    cbn [repo_lookup] in Hlook.
    unfold get_repo, set_repository, get_repositories.
    erewrite try_raise.
    2: { erewrite bind_raise; [reflexivity|].
         erewrite bind_ok.
         2: { apply try_ok. erewrite bind_ok by (apply get_record_ok; exact Hget).
              erewrite bind_ok by reflexivity. unfold lift. rewrite Hdict. reflexivity. }
         cbn beta. rewrite Hlook. reflexivity. }
    reflexivity.
  - intros st body Hget Hst.
    unfold get_repo, set_repository, get_repositories.
    erewrite try_raise.
    2: { erewrite bind_raise; [reflexivity|].
         erewrite bind_raise; [reflexivity|].
         erewrite try_raise.
         2: { erewrite bind_raise; [reflexivity|]. apply get_record_refused; eassumption. }
         reflexivity. }
    reflexivity.
Qed.

Lemma get_repo_by_code_witness :
  get_repo demo_remote (box_row "" "c1" "") "https://aspace/api" fresh
  = (Ok (Some "11"), add_sent (get_request "https://aspace/api/repositories") fresh).
Proof.
  apply (proj1 (get_repo_by_code demo_remote (box_row "" "c1" "") "https://aspace/api" fresh)
           [] (JObj [("repo_code", JStr "BRBL"); ("uri", JStr "/repositories/11")]) [] "11").
  - reflexivity.
  - constructor.
  - eexists. repeat split; reflexivity.
  - constructor.
Defined.

(** [get_json] hands the body on, whatever the status. *)
Lemma get_json_ok remote (url : string) (w : world) (st : Z) (body : json) :
  remote (sent w) (get_request url) = Response st body ->
  get_json remote url w = (Ok body, add_sent (get_request url) w).
Proof. intros H. unfold get_json, send, mbind, M_bind, bind. fold (get_request url). rewrite H. reflexivity. Qed.

(** X18.  With an event authorizer other than the user, [get_agent]
    searches the agents by that name.  One hit gives the URI of the
    first result; no hit, or more than one, gives [None] after a debug
    line and the logged RecordNotFoundError; a negative count reaches
    the last branch, where the unbound name [url] raises a NameError
    that [get_agent] does not catch. *)
Theorem get_agent_by_search remote (api_url authorizer : string) (username : option string)
    (w : world) (st : Z) (d : list (string * json)) (hits : Z) :
  authorizer <> "" ->
  username <> Some authorizer ->
  let req := get_request (api_url +:+ "/search?page=1&type[]=agent_person&q=title:"
                          +:+ authorizer) in
  remote (sent w) req = Response st (JObj d) ->
  PyDict.lookup "total_hits" d = Some (JNum hits) ->
  (hits = 1 ->
   forall result more uri,
     PyDict.lookup "results" d = Some (JArr (JObj result :: more)) ->
     PyDict.lookup "uri" result = Some uri ->
     get_agent remote api_url (Some authorizer) username w = (Ok uri, add_sent req w))
  /\ (hits = 0 ->
      get_agent remote api_url (Some authorizer) username w
      = (Ok JNull,
         add_logged [log_debug "Agent search error: no results found";
                     log_exception (RecordNotFoundError (JStr authorizer))]
           (add_sent req w)))
  /\ (1 < hits ->
      get_agent remote api_url (Some authorizer) username w
      = (Ok JNull,
         add_logged [log_debug "Agents search error: multiple results found";
                     log_exception (RecordNotFoundError (JStr authorizer))]
           (add_sent req w)))
  /\ (hits < 0 ->
      get_agent remote api_url (Some authorizer) username w
      = (Raise (NameError "url"),
         add_logged [log_debug "Agent search error: other error"] (add_sent req w))).
Proof.
  intros Hne Huser req Hget Hhits.
  assert (Hcond : negb (blank (Some authorizer))
                  && negb (py_eq (opt_json (Some authorizer)) (opt_json username)) = true).
  { cbn [blank opt_json]. apply String.eqb_neq in Hne. rewrite Hne. cbn [negb andb].
    destruct username as [u|]; cbn [opt_json py_eq]; [|reflexivity].
    destruct (String.eqb_spec authorizer u) as [->|_]; [contradiction|reflexivity]. }
  assert (Hstart : forall {A} (k : json -> M A),
             (get_json remote (api_url +:+ "/search?page=1&type[]=agent_person&q=title:"
                               +:+ default "" (Some authorizer)) ≫= k) w
             = k (JObj d) (add_sent req w)).
  { intros A k. erewrite bind_ok by (eapply get_json_ok; exact Hget). reflexivity. }
  assert (Hjg : json_get "total_hits" (JObj d) = Ok (JNum hits)).
  { cbn [json_get]. rewrite Hhits. reflexivity. }
  unfold get_agent, set_agent. rewrite Hcond.
  repeat split.
  - intros -> result more uri Hres Huri. apply try_ok. rewrite Hstart. cbn beta. rewrite Hjg.
    erewrite bind_ok by reflexivity. cbn beta.
    cbn [py_eq Z.eqb Pos.eqb].
    cbn [json_item]. rewrite Hres.
    erewrite bind_ok by reflexivity. cbn beta.
    erewrite bind_ok by reflexivity. cbn beta.
    cbn [json_item]. rewrite Huri. reflexivity.
  - intros ->. erewrite try_raise.
    2: { rewrite Hstart. cbn beta. rewrite Hjg.
         erewrite bind_ok by reflexivity. cbn beta.
         cbn [py_eq Z.eqb]. erewrite bind_ok by reflexivity. reflexivity. }
    unfold mbind, M_bind, bind, logging, raise, mret, M_ret, ret, add_logged, add_sent.
    cbn [fst snd sent logged outputs backups file_results is_ArchivesSpaceError
         is_RecordNotFoundError orb].
    rewrite <- app_assoc. reflexivity.
  - intros Hmany. erewrite try_raise.
    2: { rewrite Hstart. cbn beta. rewrite Hjg.
         erewrite bind_ok by reflexivity. cbn beta.
         cbn [py_eq default from_option].
         destruct (Z.eqb_spec hits 1) as [->|_]; [lia|].
         destruct (Z.eqb_spec hits 0) as [->|_]; [lia|].
         erewrite bind_ok by reflexivity. cbn beta.
         destruct (Z.ltb_spec 1 hits) as [_|?]; [|lia].
         erewrite bind_ok by reflexivity. reflexivity. }
    unfold mbind, M_bind, bind, logging, raise, mret, M_ret, ret, add_logged, add_sent.
    cbn [fst snd sent logged outputs backups file_results is_ArchivesSpaceError
         is_RecordNotFoundError orb].
    rewrite <- app_assoc. reflexivity.
  - intros Hneg. erewrite try_raise.
    2: { rewrite Hstart. cbn beta. rewrite Hjg.
         erewrite bind_ok by reflexivity. cbn beta.
         cbn [py_eq default from_option].
         destruct (Z.eqb_spec hits 1) as [->|_]; [lia|].
         destruct (Z.eqb_spec hits 0) as [->|_]; [lia|].
         erewrite bind_ok by reflexivity. cbn beta.
         destruct (Z.ltb_spec 1 hits) as [?|_]; [lia|].
         erewrite bind_ok by reflexivity. reflexivity. }
    reflexivity.
Qed.

Lemma get_agent_by_search_witness :
  get_agent (search_remote 1) "https://aspace/api" (Some "Smith") (Some "das") fresh
  = (Ok (JStr "/agents/people/9"),
     add_sent (get_request "https://aspace/api/search?page=1&type[]=agent_person&q=title:Smith")
       fresh).
Proof.
  apply (proj1 (get_agent_by_search (search_remote 1) "https://aspace/api" "Smith"
                  (Some "das") fresh 200
                  [("total_hits", JNum 1);
                   ("results", JArr [JObj [("uri", JStr "/agents/people/9")]])] 1
                  ltac:(discriminate) ltac:(discriminate) eq_refl eq_refl)
           eq_refl [("uri", JStr "/agents/people/9")] [] (JStr "/agents/people/9")
           eq_refl eq_refl).
Defined.

(** ** Login and the ancestor fallback *)

(** X19.  A refused login ends the run after that one request:
    [get_session] logs the LoginError and returns [None], and the body
    of [main], which unpacks the session into two names, raises a
    TypeError before any file is read or any other request made. *)
Theorem failed_login_ends_the_run remote (cfg : config) (listdir : list string)
    (read_csv : string -> list row) (url username password : string) (w : world) (st : Z)
    (body : json) :
  get_credentials cfg = (url, username, password) ->
  let req := post_login url username password in
  remote (sent w) req = Response st body ->
  st <> 200 ->
  get_session remote cfg w
  = (Ok None, add_logged [log_exception (LoginError st url username)] (add_sent req w))
  /\ main_try remote cfg listdir read_csv w
     = (Raise TypeError,
        add_logged [log_exception (LoginError st url username)] (add_sent req w)).
Proof.
  intros Hcred req Hlogin Hst.
  unfold main_try, get_session, start_session, try_except, mbind, M_bind, bind, send.
  rewrite Hcred. fold (post_login url username password). fold req. rewrite Hlogin.
  apply Z.eqb_neq in Hst. rewrite Hst. split; reflexivity.
Qed.

Lemma failed_login_ends_the_run_witness :
  (main_try refusing_remote demo_config ["box_create.csv"] (fun _ => []) fresh).1
  = Raise TypeError.
Proof.
  rewrite (proj2 (failed_login_ends_the_run refusing_remote demo_config ["box_create.csv"]
                    (fun _ => []) "https://aspace/api" "das" "secret" fresh 404
                    (JObj [("error", JStr "Not found")]) eq_refl eq_refl ltac:(lia))).
  reflexivity.
Defined.

Lemma get_instance_data_without_containers remote api_url (d : list (string * json))
    (items : list json) (w : world) :
  PyDict.lookup "instances" d = Some (JArr items) ->
  container_instances_of items = Ok [] ->
  get_instance_data remote api_url (JObj d) w = (Raise (RecordNotFoundError (JObj d)), w).
Proof.
  intros Hi Hc. unfold get_instance_data. cbn [json_get]. rewrite Hi.
  erewrite bind_ok by reflexivity. cbn beta.
  erewrite bind_ok by reflexivity. cbn beta.
  rewrite Hc. erewrite bind_ok by reflexivity. reflexivity.
Qed.

(** X16.  [get_containers] lets no ArchivesSpaceError and no
    RecordNotFoundError out.  A refused fetch gives [None] and one log
    entry.  For a record without container instances it turns to the
    first ancestor, fetched next from the API URL, a slash and the
    ancestor's reference; an empty list of ancestors ends in an
    IndexError and a record without the key in a KeyError, which
    [get_containers] does not catch. *)
Theorem get_containers_falls_back remote (api_url parent_id : string) (repo_id : json)
    (w : world) :
  let req := get_request (api_url +:+ "/repositories/" +:+ py_str repo_id
                          +:+ "/archival_objects/" +:+ parent_id) in
  (forall e w',
      get_containers remote api_url parent_id repo_id w = (Raise e, w') ->
      is_ArchivesSpaceError e = false /\ is_RecordNotFoundError e = false)
  /\ (forall st body,
      remote (sent w) req = Response st body ->
      st <> 200 ->
      get_containers remote api_url parent_id repo_id w
      = (Ok None,
         add_logged [log_exception (ArchivesSpaceError (req_url req) st body)]
           (add_sent req w)))
  /\ (forall d items,
      remote (sent w) req = Response 200 (JObj d) ->
      PyDict.lookup "instances" d = Some (JArr items) ->
      container_instances_of items = Ok [] ->
      (forall ancestor more ref,
          PyDict.lookup "ancestors" d = Some (JArr (JObj ancestor :: more)) ->
          PyDict.lookup "ref" ancestor = Some ref ->
          sent w ++ [req; get_request (api_url +:+ "/" +:+ py_str ref)]
            `prefix_of` sent (get_containers remote api_url parent_id repo_id w).2)
      /\ (PyDict.lookup "ancestors" d = Some (JArr []) ->
          get_containers remote api_url parent_id repo_id w
          = (Raise IndexError, add_sent req w))
      /\ (PyDict.lookup "ancestors" d = None ->
          get_containers remote api_url parent_id repo_id w
          = (Raise KeyError, add_sent req w))).
Proof.
  intros req. split; [|split].
  - intros e w'. apply get_containers_raises.
  - intros st body Hget Hst. unfold get_containers.
    erewrite try_raise.
    2: { erewrite bind_raise; [reflexivity|]. apply get_record_refused; eassumption. }
    reflexivity.
  - intros d items Hget Hi Hc.
    pose proof (get_instance_data_without_containers remote api_url d items
                  (add_sent req w) Hi Hc) as Hdata.
    split; [|split].
    + intros ancestor more ref Ha Href. unfold get_containers.
      etrans; [|apply (steps_try_from grows); intros e; steps_all;
                 auto using grows_logging].
      erewrite bind_ok by (apply get_record_ok; exact Hget).
      erewrite try_raise by exact Hdata. cbn [is_RecordNotFoundError].
      etrans; [|apply (steps_try_from grows); intros e; steps_all;
                 auto using grows_logging].
      cbn [json_item]. rewrite Ha.
      erewrite bind_ok by reflexivity. cbn beta. cbn [json_first].
      erewrite bind_ok by reflexivity. cbn beta. cbn [json_item]. rewrite Href.
      erewrite bind_ok by reflexivity. cbn beta.
      etrans; [|apply (steps_bind_from grows); intros a; steps_all;
                 auto using grows_logging].
      2: { apply steps_get_instance_data; auto using grows_send, grows_logging,
             grows_create_backups; typeclasses eauto. }
      rewrite sent_get_record. cbn [sent add_sent]. rewrite <- app_assoc. reflexivity.
    + intros Ha. unfold get_containers.
      erewrite try_raise.
      2: { erewrite bind_ok by (apply get_record_ok; exact Hget).
           erewrite try_raise by exact Hdata. cbn [is_RecordNotFoundError].
           erewrite try_raise.
           2: { cbn [json_item]. rewrite Ha. erewrite bind_ok by reflexivity. cbn beta.
                cbn [json_first]. erewrite bind_raise by reflexivity. reflexivity. }
           reflexivity. }
      reflexivity.
    + intros Ha. unfold get_containers.
      erewrite try_raise.
      2: { erewrite bind_ok by (apply get_record_ok; exact Hget).
           erewrite try_raise by exact Hdata. cbn [is_RecordNotFoundError].
           erewrite try_raise.
           2: { cbn [json_item]. rewrite Ha. erewrite bind_raise by reflexivity.
                reflexivity. }
           reflexivity. }
      reflexivity.
Qed.

Lemma get_containers_falls_back_witness :
  sent fresh ++ [get_request "https://aspace/api/repositories/11/archival_objects/102";
                 get_request "https://aspace/api/repositories/11/resources/77"]
    `prefix_of`
    sent (get_containers bare_remote "https://aspace/api" "102" (JStr "11") fresh).2.
Proof.
  apply (proj1 (proj2 (proj2 (get_containers_falls_back bare_remote "https://aspace/api"
                                "102" (JStr "11") fresh))
                  [("instances", JArr []);
                   ("ancestors", JArr [JObj [("ref", JStr "repositories/11/resources/77")]])]
                  [] eq_refl eq_refl eq_refl)
           [("ref", JStr "repositories/11/resources/77")] []
           (JStr "repositories/11/resources/77") eq_refl eq_refl).
Defined.

(** ** Dates: the accepted shapes *)

Lemma digit_char_cases (k : Z) :
  PyDate.digit (PyDate.digit_char k) = Some (k mod 10)
  /\ Ascii.eqb "/" (PyDate.digit_char k) = false
  /\ Ascii.eqb "-" (PyDate.digit_char k) = false.
Proof.
  unfold PyDate.digit_char.
  pose proof (Z.mod_pos_bound k 10 ltac:(lia)) as Hb.
  generalize dependent (k mod 10). intros j Hb.
  assert (Hj : j = 0 \/ j = 1 \/ j = 2 \/ j = 3 \/ j = 4 \/ j = 5 \/ j = 6 \/ j = 7
               \/ j = 8 \/ j = 9) by lia.
  repeat (destruct Hj as [->|Hj]; [repeat split; reflexivity|]).
  subst j. repeat split; reflexivity.
Qed.

Lemma digit_char_leads (k : Z) : PyStr.continuation (PyDate.digit_char k) = false.
Proof.
  unfold PyDate.digit_char.
  pose proof (Z.mod_pos_bound k 10 ltac:(lia)) as Hb.
  generalize dependent (k mod 10). intros j Hb.
  assert (Hj : j = 0 \/ j = 1 \/ j = 2 \/ j = 3 \/ j = 4 \/ j = 5 \/ j = 6 \/ j = 7
               \/ j = 8 \/ j = 9) by lia.
  repeat (destruct Hj as [->|Hj]; [reflexivity|]).
  subst j. reflexivity.
Qed.

Lemma len_pad2 (n : Z) : PyStr.len (PyDate.pad2 n) = 2%nat.
Proof. unfold PyDate.pad2. cbn [PyStr.len]. rewrite !digit_char_leads. reflexivity. Qed.

Lemma len_pad4 (n : Z) : PyStr.len (PyDate.pad4 n) = 4%nat.
Proof.
  unfold PyDate.pad4. cbn [PyStr.len]. rewrite !digit_char_leads, len_pad2. reflexivity.
Qed.

Lemma len_app (a b : string) : PyStr.len (a +:+ b) = (PyStr.len a + PyStr.len b)%nat.
Proof.
  induction a as [|c a IH]; [reflexivity|].
  rewrite app_cons. cbn [PyStr.len]. rewrite IH. lia.
Qed.

Lemma digits_pad2 (n : Z) (acc : Z) (rest : string) :
  0 <= n < 100 ->
  PyDate.digits 2 acc (PyDate.pad2 n +:+ rest) = Some (100 * acc + n, rest).
Proof.
  intros Hn. unfold PyDate.pad2. rewrite !app_cons, app_nil. cbn [PyDate.digits].
  rewrite (proj1 (digit_char_cases (n / 10))), (proj1 (digit_char_cases n)).
  f_equal. f_equal. Z.div_mod_to_equations. lia.
Qed.

Lemma digits_pad4 (n : Z) (rest : string) :
  0 <= n < 10000 ->
  PyDate.digits 4 0 (PyDate.pad4 n +:+ rest) = Some (n, rest).
Proof.
  intros Hn. unfold PyDate.pad4, PyDate.pad2. rewrite !app_cons, app_nil.
  cbn [PyDate.digits].
  rewrite (proj1 (digit_char_cases (n / 1000))), (proj1 (digit_char_cases (n / 100))),
    (proj1 (digit_char_cases (n / 10))), (proj1 (digit_char_cases n)).
  f_equal. f_equal. Z.div_mod_to_equations. lia.
Qed.

Lemma pad2_no (c : ascii) (n : Z) :
  c = "/"%char \/ c = "-"%char -> PyStr.contains (String c "") (PyDate.pad2 n) = false.
Proof.
  intros Hc. unfold PyDate.pad2. rewrite !contains_char_cons.
  destruct Hc as [->| ->].
  - rewrite (proj1 (proj2 (digit_char_cases (n / 10)))),
      (proj1 (proj2 (digit_char_cases n))). reflexivity.
  - rewrite (proj2 (proj2 (digit_char_cases (n / 10)))),
      (proj2 (proj2 (digit_char_cases n))). reflexivity.
Qed.

Lemma pad4_no (c : ascii) (n : Z) :
  c = "/"%char \/ c = "-"%char -> PyStr.contains (String c "") (PyDate.pad4 n) = false.
Proof.
  intros Hc. unfold PyDate.pad4. rewrite !contains_char_cons, (pad2_no c n Hc).
  destruct Hc as [->| ->].
  - rewrite (proj1 (proj2 (digit_char_cases (n / 1000)))),
      (proj1 (proj2 (digit_char_cases (n / 100)))). reflexivity.
  - rewrite (proj2 (proj2 (digit_char_cases (n / 1000)))),
      (proj2 (proj2 (digit_char_cases (n / 100)))). reflexivity.
Qed.

(** ** split *)

Lemma split_aux_cons (c x : ascii) (s : string) :
  PyStr.split_aux (String c "") 0 (String x s)
  = if Ascii.eqb c x
    then (EmptyString, let '(h, t) := PyStr.split_aux (String c "") 0 s in h :: t)
    else let '(h, t) := PyStr.split_aux (String c "") 0 s in (String x h, t).
Proof. cbn [PyStr.split_aux]. rewrite prefix_char. reflexivity. Qed.

Lemma split_aux_plain (c : ascii) (s : string) :
  PyStr.contains (String c "") s = false ->
  PyStr.split_aux (String c "") 0 s = (s, []).
Proof.
  induction s as [|x s IH]; intros H; [reflexivity|].
  rewrite contains_char_cons in H. apply orb_false_iff in H as [Hx Hs].
  rewrite split_aux_cons, Hx, (IH Hs). reflexivity.
Qed.

Lemma split_aux_app (c : ascii) (a rest : string) :
  PyStr.contains (String c "") a = false ->
  PyStr.split_aux (String c "") 0 (a +:+ String c rest)
  = (a, PyStr.split (String c "") rest).
Proof.
  induction a as [|x a IH]; intros H.
  - rewrite app_nil, split_aux_cons, Ascii.eqb_refl. reflexivity.
  - rewrite contains_char_cons in H. apply orb_false_iff in H as [Hx Ha].
    rewrite app_cons, split_aux_cons, Hx, (IH Ha). reflexivity.
Qed.

Lemma split_three (c : ascii) (a b z : string) :
  PyStr.contains (String c "") a = false ->
  PyStr.contains (String c "") b = false ->
  PyStr.contains (String c "") z = false ->
  PyStr.split (String c "") (a +:+ String c "" +:+ b +:+ String c "" +:+ z) = [a; b; z].
Proof.
  intros Ha Hb Hz.
  change (PyStr.split (String c "") (a +:+ String c (b +:+ String c z)) = [a; b; z]).
  unfold PyStr.split at 1. rewrite (split_aux_app _ _ _ Ha).
  unfold PyStr.split at 1. rewrite (split_aux_app _ _ _ Hb).
  unfold PyStr.split. rewrite (split_aux_plain _ _ Hz). reflexivity.
Qed.

Lemma contains_first (c : ascii) (a rest : string) :
  PyStr.contains (String c "") (a +:+ String c "" +:+ rest) = true.
Proof.
  change (PyStr.contains (String c "") (a +:+ String c rest) = true).
  rewrite contains_char_app, contains_char_cons, Ascii.eqb_refl. apply orb_true_r.
Qed.

Lemma match_lit (fmt : list PyDate.directive) (c : ascii) (rest : string)
    (acc : PyDate.fields) :
  PyDate.strptime_match (PyDate.Lit c :: fmt) (String c "" +:+ rest) acc
  = PyDate.strptime_match fmt rest acc.
Proof.
  change (String c "" +:+ rest) with (String c rest). cbn [PyDate.strptime_match].
  rewrite Ascii.eqb_refl. reflexivity.
Qed.

(** ** strptime on padded fields *)

Lemma match_month (fmt : list PyDate.directive) (m : Z) (rest : string)
    (acc r : PyDate.fields) :
  1 <= m <= 12 ->
  PyDate.strptime_match fmt rest
    {| PyDate.f_year := PyDate.f_year acc; PyDate.f_month := m;
       PyDate.f_day := PyDate.f_day acc |} = Some r ->
  PyDate.strptime_match (PyDate.Dir_m :: fmt) (PyDate.pad2 m +:+ rest) acc = Some r.
Proof.
  intros Hm H. cbn [PyDate.strptime_match].
  rewrite digits_pad2 by lia. rewrite Z.mul_0_r, Z.add_0_l.
  destruct (Z.leb_spec 1 m); [|lia]. destruct (Z.leb_spec m 12); [|lia].
  cbn [andb]. rewrite H. reflexivity.
Qed.

Lemma match_day (fmt : list PyDate.directive) (d : Z) (rest : string)
    (acc r : PyDate.fields) :
  1 <= d <= 31 ->
  PyDate.strptime_match fmt rest
    {| PyDate.f_year := PyDate.f_year acc; PyDate.f_month := PyDate.f_month acc;
       PyDate.f_day := d |} = Some r ->
  PyDate.strptime_match (PyDate.Dir_d :: fmt) (PyDate.pad2 d +:+ rest) acc = Some r.
Proof.
  intros Hd H. cbn [PyDate.strptime_match].
  rewrite digits_pad2 by lia. rewrite Z.mul_0_r, Z.add_0_l.
  destruct (Z.leb_spec 1 d); [|lia]. destruct (Z.leb_spec d 31); [|lia].
  cbn [andb]. rewrite H. reflexivity.
Qed.

Lemma match_year4 (fmt : list PyDate.directive) (y : Z) (rest : string)
    (acc : PyDate.fields) :
  0 <= y < 10000 ->
  PyDate.strptime_match (PyDate.Dir_Y :: fmt) (PyDate.pad4 y +:+ rest) acc
  = PyDate.strptime_match fmt rest
      {| PyDate.f_year := y; PyDate.f_month := PyDate.f_month acc;
         PyDate.f_day := PyDate.f_day acc |}.
Proof. intros Hy. cbn [PyDate.strptime_match]. rewrite digits_pad4 by lia. reflexivity. Qed.

(** The year that a two-digit year stands for. *)
Lemma match_year2 (fmt : list PyDate.directive) (yy : Z) (rest : string)
    (acc : PyDate.fields) :
  0 <= yy < 100 ->
  PyDate.strptime_match (PyDate.Dir_y :: fmt) (PyDate.pad2 yy +:+ rest) acc
  = PyDate.strptime_match fmt rest
      {| PyDate.f_year := century yy; PyDate.f_month := PyDate.f_month acc;
         PyDate.f_day := PyDate.f_day acc |}.
Proof.
  intros Hy. cbn [PyDate.strptime_match]. rewrite digits_pad2 by lia.
  rewrite Z.mul_0_r, Z.add_0_l. reflexivity.
Qed.

Lemma valid_date_bounds (y m d : Z) :
  PyDate.valid_date {| PyDate.f_year := y; PyDate.f_month := m; PyDate.f_day := d |} = true ->
  1 <= y <= 9999 /\ 1 <= m <= 12 /\ 1 <= d <= 31.
Proof.
  unfold PyDate.valid_date. cbn [PyDate.f_year PyDate.f_month PyDate.f_day]. intros H.
  repeat (apply andb_true_iff in H as [H ?]).
  assert (PyDate.days_in_month y m <= 31).
  { unfold PyDate.days_in_month.
    destruct (m =? 2); [destruct (PyDate.is_leap y); lia|].
    destruct ((m =? 4) || (m =? 6) || (m =? 9) || (m =? 11)); lia. }
  lia.
Qed.

Lemma strftime_iso_four (y m d : Z) :
  1000 <= y ->
  PyDate.strftime_iso {| PyDate.f_year := y; PyDate.f_month := m; PyDate.f_day := d |}
  = PyDate.pad4 y +:+ "-" +:+ PyDate.pad2 m +:+ "-" +:+ PyDate.pad2 d.
Proof.
  intros Hy. unfold PyDate.strftime_iso, PyDate.year_text.
  cbn [PyDate.f_year PyDate.f_month PyDate.f_day].
  destruct (Z.ltb_spec y 10); [lia|]. destruct (Z.ltb_spec y 100); [lia|].
  destruct (Z.ltb_spec y 1000); [lia|]. reflexivity.
Qed.

Lemma app_pad_nil (s : string) : s +:+ "" = s.
Proof. induction s as [|x s IH]; [reflexivity|]. rewrite app_cons, IH. reflexivity. Qed.

(** X20.  A date of the calendar with a four-digit year, written
    [MM/DD/YYYY] or [YYYY/MM/DD], comes back from [check_dates] as
    [YYYY-MM-DD]. *)
Theorem check_dates_converts_full_years (y m d : Z) :
  1000 <= y ->
  PyDate.valid_date {| PyDate.f_year := y; PyDate.f_month := m; PyDate.f_day := d |} = true ->
  let iso := PyDate.pad4 y +:+ "-" +:+ PyDate.pad2 m +:+ "-" +:+ PyDate.pad2 d in
  check_dates (PyDate.pad2 m +:+ "/" +:+ PyDate.pad2 d +:+ "/" +:+ PyDate.pad4 y)
  = Ok (Some iso)
  /\ check_dates (PyDate.pad4 y +:+ "/" +:+ PyDate.pad2 m +:+ "/" +:+ PyDate.pad2 d)
     = Ok (Some iso).
Proof.
  intros Hfour Hvalid iso. destruct (valid_date_bounds _ _ _ Hvalid) as (Hy & Hm & Hd).
  split.
  - unfold check_dates. rewrite contains_first.
    rewrite (split_three "/" (PyDate.pad2 m) (PyDate.pad2 d) (PyDate.pad4 y)
               (pad2_no _ _ (or_introl eq_refl)) (pad2_no _ _ (or_introl eq_refl))
               (pad4_no _ _ (or_introl eq_refl))).
    cbn [PyStr.last_item List.last]. rewrite len_pad4.
    cbn [Nat.eqb]. unfold reformat, PyDate.strptime, PyDate.fmt_mdY.
    erewrite match_month; [| lia |].
    2: { rewrite match_lit. eapply match_day; [lia|]. rewrite match_lit.
         rewrite <- (app_pad_nil (PyDate.pad4 y)), match_year4 by lia. reflexivity. }
    cbn [PyDate.f_year PyDate.f_month PyDate.f_day]. rewrite Hvalid.
    unfold outcome_map. rewrite strftime_iso_four by exact Hfour. reflexivity.
  - unfold check_dates. rewrite contains_first.
    rewrite (split_three "/" (PyDate.pad4 y) (PyDate.pad2 m) (PyDate.pad2 d)
               (pad4_no _ _ (or_introl eq_refl)) (pad2_no _ _ (or_introl eq_refl))
               (pad2_no _ _ (or_introl eq_refl))).
    cbn [PyStr.last_item PyStr.first_item List.last List.hd].
    rewrite (len_pad2 d).
    rewrite len_pad4.
    cbn [Nat.eqb negb]. unfold reformat, PyDate.strptime, PyDate.fmt_Ymd.
    rewrite match_year4 by lia. rewrite match_lit.
    erewrite match_month; [| lia |].
    2: { rewrite match_lit.
         rewrite <- (app_pad_nil (PyDate.pad2 d)). eapply match_day; [lia|]. reflexivity. }
    cbn [PyDate.f_year PyDate.f_month PyDate.f_day]. rewrite Hvalid.
    unfold outcome_map. rewrite strftime_iso_four by exact Hfour. reflexivity.
Qed.

Lemma check_dates_converts_full_years_witness :
  check_dates "02/29/2024" = Ok (Some "2024-02-29").
Proof.
  apply (proj1 (check_dates_converts_full_years 2024 2 29 ltac:(lia) eq_refl)).
Defined.

(** X21.  A date with a two-digit year, written [MM/DD/YY] or
    [MM-DD-YY], comes back from [check_dates] as [YYYY-MM-DD] with the
    year in the century that [%y] chooses: 00 to 68 in the 2000s, 69 to
    99 in the 1900s. *)
Theorem check_dates_converts_short_years (yy m d : Z) :
  0 <= yy < 100 ->
  PyDate.valid_date {| PyDate.f_year := century yy; PyDate.f_month := m;
                       PyDate.f_day := d |} = true ->
  let iso := PyDate.pad4 (century yy) +:+ "-" +:+ PyDate.pad2 m +:+ "-" +:+ PyDate.pad2 d in
  check_dates (PyDate.pad2 m +:+ "/" +:+ PyDate.pad2 d +:+ "/" +:+ PyDate.pad2 yy)
  = Ok (Some iso)
  /\ check_dates (PyDate.pad2 m +:+ "-" +:+ PyDate.pad2 d +:+ "-" +:+ PyDate.pad2 yy)
     = Ok (Some iso).
Proof.
  intros Hyy Hvalid iso. destruct (valid_date_bounds _ _ _ Hvalid) as (Hy & Hm & Hd).
  assert (Hcentury : 1000 <= century yy) by (unfold century; destruct (yy <=? 68); lia).
  assert (Hmatch : forall c : ascii,
             PyDate.strptime_match
               [PyDate.Dir_m; PyDate.Lit c; PyDate.Dir_d; PyDate.Lit c; PyDate.Dir_y]
               (PyDate.pad2 m +:+ String c "" +:+ PyDate.pad2 d +:+ String c ""
                +:+ PyDate.pad2 yy)
               {| PyDate.f_year := 1900; PyDate.f_month := 1; PyDate.f_day := 1 |}
             = Some {| PyDate.f_year := century yy; PyDate.f_month := m;
                       PyDate.f_day := d |}).
  { intros c. eapply match_month; [lia|]. rewrite match_lit. eapply match_day; [lia|].
    rewrite match_lit. rewrite <- (app_pad_nil (PyDate.pad2 yy)), match_year2 by lia.
    reflexivity. }
  split.
  - unfold check_dates. rewrite contains_first.
    rewrite (split_three "/" (PyDate.pad2 m) (PyDate.pad2 d) (PyDate.pad2 yy)
               (pad2_no _ _ (or_introl eq_refl)) (pad2_no _ _ (or_introl eq_refl))
               (pad2_no _ _ (or_introl eq_refl))).
    cbn [PyStr.last_item PyStr.first_item List.last List.hd].
    rewrite (len_pad2 yy).
    rewrite (len_pad2 m).
    cbn [Nat.eqb negb]. unfold reformat, PyDate.strptime, PyDate.fmt_mdy.
    rewrite (Hmatch "/"%char), Hvalid.
    unfold outcome_map. rewrite strftime_iso_four by exact Hcentury. reflexivity.
  - unfold check_dates.
    assert (Hno : PyStr.contains "/"
                    (PyDate.pad2 m +:+ "-" +:+ PyDate.pad2 d +:+ "-" +:+ PyDate.pad2 yy)
                  = false).
    { rewrite !contains_char_app, !(pad2_no "/" _ (or_introl eq_refl)). reflexivity. }
    rewrite Hno, contains_first. cbn [andb negb].
    rewrite !len_app, !len_pad2. change (PyStr.len "-") with 1%nat.
    cbn [Nat.ltb Nat.leb]. unfold reformat, PyDate.strptime, PyDate.fmt_mdy_hyphen.
    rewrite (Hmatch "-"%char), Hvalid.
    unfold outcome_map. rewrite strftime_iso_four by exact Hcentury. reflexivity.
Qed.

Lemma check_dates_converts_short_years_witness :
  check_dates "12/31/69" = Ok (Some "1969-12-31").
Proof.
  apply (proj1 (check_dates_converts_short_years 69 12 31 ltac:(lia) eq_refl)).
Defined.

(** X22.  A day that the month does not have, written [MM/DD/YYYY],
    is no DataValidationError: [check_dates] raises the ValueError of
    [strptime], which the handlers of [create_event] and [event_helper]
    do not catch. *)
Theorem check_dates_refuses_missing_days (y m d : Z) :
  0 <= y < 10000 -> 1 <= m <= 12 -> 1 <= d <= 31 ->
  PyDate.valid_date {| PyDate.f_year := y; PyDate.f_month := m; PyDate.f_day := d |} = false ->
  check_dates (PyDate.pad2 m +:+ "/" +:+ PyDate.pad2 d +:+ "/" +:+ PyDate.pad4 y)
  = Raise ValueError.
Proof.
  intros Hy Hm Hd Hinvalid.
  unfold check_dates. rewrite contains_first.
  rewrite (split_three "/" (PyDate.pad2 m) (PyDate.pad2 d) (PyDate.pad4 y)
             (pad2_no _ _ (or_introl eq_refl)) (pad2_no _ _ (or_introl eq_refl))
             (pad4_no _ _ (or_introl eq_refl))).
  cbn [PyStr.last_item List.last]. rewrite len_pad4.
  cbn [Nat.eqb]. unfold reformat, PyDate.strptime, PyDate.fmt_mdY.
  erewrite match_month; [| lia |].
  2: { rewrite match_lit. eapply match_day; [lia|]. rewrite match_lit.
       rewrite <- (app_pad_nil (PyDate.pad4 y)), match_year4 by lia. reflexivity. }
  cbn [PyDate.f_year PyDate.f_month PyDate.f_day]. rewrite Hinvalid. reflexivity.
Qed.

Lemma check_dates_refuses_missing_days_witness :
  check_dates "02/29/2023" = Raise ValueError.
Proof.
  apply (check_dates_refuses_missing_days 2023 2 29); [lia|lia|lia|reflexivity].
Defined.
